(** * oz: the sandbox init supervisor and the OpenVPN configuration translator

    A shallow embedding of the decision logic of [oz-init] (package
    [ozinit]) and of [parseOpenVPNConf] (package [openvpn]), with the
    properties of the specification stated and proved over it.

    Go strings are byte strings and are modelled by [string]; [uint32]
    credentials and process ids by [Z]; Go maps by [gmap]; everything the
    code asks of the operating system (process start, [os.Stat], the
    contents of [/proc], file creation) is an explicit oracle argument. *)

From Stdlib Require Import ZArith Ascii String.
From stdpp Require Import gmap strings list.

Local Open Scope string_scope.
Local Open Scope list_scope.

(** ** Go's [strings] and [path] packages *)

Module GoPath.

(** [strings.HasPrefix(s, p)]. *)
Definition HasPrefix (s p : string) : bool := String.prefix p s.

Definition slash : ascii := "/"%char.

(** [strings.Split(s, "/")]: the fields between slashes, always at least
    one. *)
Fixpoint split_slash (s : string) : list string :=
  match s with
  | EmptyString => [EmptyString]
  | String c r =>
      if Ascii.eqb c slash then EmptyString :: split_slash r
      else match split_slash r with
           | x :: xs => String c x :: xs
           | [] => [String c EmptyString]
           end
  end.

(** One element of the path seen by [path.Clean]; [stack] holds the
    elements kept so far, innermost first. *)
Definition clean_step (rooted : bool) (stack : list string) (c : string)
  : list string :=
  if String.eqb c "" || String.eqb c "." then stack
  else if String.eqb c ".." then
    match stack with
    | top :: rest => if String.eqb top ".." then c :: stack else rest
    | [] => if rooted then [] else [c]
    end
  else c :: stack.

(** [path.Clean]: multiple slashes become one, [.] elements go, an inner
    [..] eliminates the element before it, a [..] at the root goes, and
    the empty result is [.]. *)
Definition Clean (p : string) : string :=
  let rooted := HasPrefix p "/" in
  let stack := fold_left (clean_step rooted) (split_slash p) [] in
  let body := String.concat "/" (rev stack) in
  if rooted then "/" +:+ body
  else if String.eqb body "" then "." else body.

(** The buffer [path.Join] builds before cleaning it: empty leading
    elements are ignored, the others are separated by a slash. *)
Definition join_buf (buf e : string) : string :=
  if negb (String.eqb buf "") || negb (String.eqb e "") then
    (if negb (String.eqb buf "") then buf +:+ "/" else buf) +:+ e
  else buf.

(** [path.Join(elem...)]. *)
Definition Join (elem : list string) : string :=
  let size := fold_left (fun n e => (n + String.length e)%nat) elem 0%nat in
  if Nat.eqb size 0 then ""
  else Clean (fold_left join_buf elem "").

Definition last_nonempty (l : list string) : option string :=
  fold_left (fun acc c => if String.eqb c "" then acc else Some c) l None.

(** [path.Base]: the last element of the path, trailing slashes removed;
    [.] for the empty path, [/] for a path of slashes only. *)
Definition Base (p : string) : string :=
  if String.eqb p "" then "."
  else match last_nonempty (split_slash p) with
       | Some c => c
       | None => "/"
       end.

(** The first result of [path.Split]: everything up to and including the
    final slash. *)
Definition split_dir (p : string) : string :=
  String.concat "" (map (fun c => c +:+ "/") (removelast (split_slash p))).

(** [path.Dir]. *)
Definition Dir (p : string) : string := Clean (split_dir p).

End GoPath.

(** ** Package [oz]: profiles and configuration *)

(** Modelled from the spec: the type declarations of package [oz]
    ([Profile], [WhitelistItem], [BlacklistItem], [Config] and the seccomp
    and shutdown modes) are imported by the sources but not part of them.
    The fields are the ones the init code reads; the seccomp modes are the
    four of the glossary, the shutdown mode is kept as its string. *)

Inductive SeccompMode :=
| PROFILE_SECCOMP_TRAIN
| PROFILE_SECCOMP_WHITELIST
| PROFILE_SECCOMP_BLACKLIST
| PROFILE_SECCOMP_DISABLED.

Definition PROFILE_SHUTDOWN_YES : string := "yes".

Module WhitelistItem.
Record t := mk {
  Path : string;
  Target : string;
  Symlink : string;
  ReadOnly : bool;
  CanCreate : bool;
  Ignore : bool;
  Force : bool;
  NoFollow : bool;
  AllowSetuid : bool
}.
End WhitelistItem.

Module BlacklistItem.
Record t := mk { Path : string }.
End BlacklistItem.

Module Profile.
Record t := mk {
  Name : string;
  Path : string;
  Whitelist : list WhitelistItem.t;
  Blacklist : list BlacklistItem.t;
  SharedFolders : list string;
  XServerEnabled : bool;
  NoSysProc : bool;
  SeccompMode_ : SeccompMode;
  SeccompEnforce : bool;
  Watchdog : list string;
  AutoShutdown : string;
  RejectUserArgs : bool;
  DefaultParams : list string;
  IsSandboxedTerminal : bool;
  DConfPath : string
}.

Definition with_Whitelist (wl : list WhitelistItem.t) (p : t) : t :=
  mk (Name p) (Path p) wl (Blacklist p) (SharedFolders p) (XServerEnabled p)
     (NoSysProc p) (SeccompMode_ p) (SeccompEnforce p) (Watchdog p)
     (AutoShutdown p) (RejectUserArgs p) (DefaultParams p)
     (IsSandboxedTerminal p) (DConfPath p).

Definition with_SharedFolders (sf : list string) (p : t) : t :=
  mk (Name p) (Path p) (Whitelist p) (Blacklist p) sf (XServerEnabled p)
     (NoSysProc p) (SeccompMode_ p) (SeccompEnforce p) (Watchdog p)
     (AutoShutdown p) (RejectUserArgs p) (DefaultParams p)
     (IsSandboxedTerminal p) (DConfPath p).
End Profile.

Module Config.
Record t := mk {
  PrefixPath : string;
  DivertSuffix : string;
  DivertPath : bool;
  ShellPath : string;
  AllowRootShell : bool;
  UseFullDev : bool;
  OpenVPNRunPath : string;
  OpenVPNConfDir : string
}.
End Config.

(** ** What init asks of the operating system *)

(** [exec.Cmd] as the launchers fill it in.  [Path] is the name given to
    [exec.Command], before any lookup in [PATH], and [Args] starts with
    it; [Env = []] is Go's nil slice;
    [Dir = ""] leaves the working directory of the caller; [Stdin] is the
    profile written to the seccomp wrapper's standard input; [Pty] says
    that the standard streams are the slave of a fresh pseudo terminal
    ([Setctty], [Setsid]). *)
Module Cmd.
Record t := mk {
  Path : string;
  Args : list string;
  Env : list string;
  Dir : string;
  Uid : Z;
  Gid : Z;
  Groups : list Z;
  Stdin : option Profile.t;
  Pty : bool
}.
End Cmd.

Inductive result (A : Type) :=
| Ok (a : A)
| Err (msg : string).
Arguments Ok {A} a.
Arguments Err {A} msg.

Module OS.
Record t := mk {
  (** [os.Environ()] of init. *)
  Environ : list string;
  (** [os.Stat(p)] returns no error. *)
  Stat : string -> bool;
  (** [cmd.Start()]: the pid of the new process, or the error. *)
  Start : Cmd.t -> result Z;
  (** [pty.Open()]: the descriptor of the master side, or the error. *)
  PtyOpen : result Z;
  (** The contents of the files matched by [/proc/[0-9]*/cmdline], in the
      order of the glob; [None] for a file that cannot be read. *)
  ProcCmdlines : list (option string);
  (** [dconf load] of a configuration file returns no error. *)
  DconfLoad : string -> result unit
}.
End OS.

(** The environment the kernel gives the child: Go passes the environment
    of the caller when [Cmd.Env] is nil. *)
Definition childEnviron (os : OS.t) (c : Cmd.t) : list string :=
  match Cmd.Env c with
  | [] => OS.Environ os
  | e => e
  end.

(** The directory the child starts in, given the one init is in. *)
Definition childDir (initDir : string) (c : Cmd.t) : string :=
  if String.eqb (Cmd.Dir c) "" then initDir else Cmd.Dir c.

(** ** Package [ozinit]: the state of init and its IPC messages *)

Record procState := mkProcState {
  cmd : Cmd.t;
  track : bool
}.

(** [user.User]: the fields init reads. *)
Record User := mkUser {
  HomeDir : string
}.

(** [initState].  [user] is never nil after [parseArgs]; [xpra] and
    [ipcServer] are the nil-able handles ([true]: set). *)
Record initState := mkInitState {
  profile : Profile.t;
  config : Config.t;
  launchEnv : list string;
  children : gmap Z procState;
  uid : Z;
  gid : Z;
  gids : gmap string Z;
  user : User;
  xpra : bool;
  ipcServer : bool;
  shutdownRequested : bool;
  ephemeral : bool
}.

Definition with_children (ch : gmap Z procState) (st : initState) : initState :=
  mkInitState (profile st) (config st) (launchEnv st) ch (uid st) (gid st)
    (gids st) (user st) (xpra st) (ipcServer st) (shutdownRequested st)
    (ephemeral st).

Definition with_shutdownRequested (b : bool) (st : initState) : initState :=
  mkInitState (profile st) (config st) (launchEnv st) (children st) (uid st)
    (gid st) (gids st) (user st) (xpra st) (ipcServer st) b (ephemeral st).

Definition with_profile (p : Profile.t) (st : initState) : initState :=
  mkInitState p (config st) (launchEnv st) (children st) (uid st)
    (gid st) (gids st) (user st) (xpra st) (ipcServer st)
    (shutdownRequested st) (ephemeral st).

(** The bodies of the IPC messages the handlers answer with. *)
Inductive Reply :=
| OkMsg
| ErrorMsg (msg : string)
| PingMsg (data : string).

(** [syscall.Ucred] of the sending peer. *)
Record Ucred := mkUcred {
  ucPid : Z;
  ucUid : Z;
  ucGid : Z
}.

(** [ipc.Message]: the ancillary descriptors and the peer credentials that
    came with the request ([None]: the nil pointer). *)
Record Message := mkMessage {
  Fds : list Z;
  msgUcred : option Ucred
}.

Record RunProgramMsg := mkRunProgramMsg {
  rpPath : string;
  rpPwd : string;
  rpArgs : list string;
  rpNoExec : bool
}.

Record RunShellMsg := mkRunShellMsg {
  Term : string
}.

Record ForwarderSuccessMsg := mkForwarderSuccessMsg {
  Proto : string;
  Addr : string
}.

(** What a handler does to the world, in the order it does it. *)
Inductive Event :=
| EvStart (c : Cmd.t) (pid : Z)
| EvStartFailed (c : Cmd.t) (err : string)
| EvPtyOpen
| EvRespond (r : Reply) (fds : list Z)
| EvSignalInterrupt (pid : Z)
| EvXpraStop (uid gid : Z)
| EvIpcClose
| EvGoAcceptLoop (fd : Z) (proto addr : string).

(** A handler's outcome: the new state, its events, and the [error] it
    returns to the IPC server ([None]: nil). *)
Definition Outcome : Type := initState * list Event * option string.

Definition is_start (e : Event) : bool :=
  match e with
  | EvStart _ _ | EvStartFailed _ _ => true
  | _ => false
  end.

Definition replies (evs : list Event) : list (Reply * list Z) :=
  flat_map (fun e => match e with EvRespond r fds => [(r, fds)] | _ => [] end) evs.

(** ** The child registry *)

Definition addChildProcess (st : initState) (c : Cmd.t) (pid : Z) (trk : bool)
  : initState :=
  with_children (<[pid := mkProcState c trk]> (children st)) st.

Definition removeChildProcess (st : initState) (pid : Z) : initState * bool :=
  match children st !! pid with
  | Some _ => (with_children (delete pid (children st)) st, true)
  | None => (st, false)
  end.

(** [childrenVector]: a snapshot of the registry.  Go ranges over a map in
    an unspecified order; the model takes the order of [map_to_list]. *)
Definition childrenVector (st : initState) : list (Z * procState) :=
  map_to_list (children st).

(** The supplementary groups of an application: the sandbox gid and then
    every gid of the [gids] map, in the order of [map_to_list] for Go's
    unspecified one. *)
Definition allGroups (st : initState) : list Z :=
  gid st :: map snd (map_to_list (gids st)).

(** ** Launching processes *)

Definition setEnvironOverrides (os : OS.t) (env : list string) : list string :=
  fold_left
    (fun env evar => if GoPath.HasPrefix evar "OZ_" then env ++ [evar] else env)
    (OS.Environ os) env.

(** The path and argument rewriting that [launchApplication] and
    [launchTerminalApplication] start with: default path, diversion,
    argument policy. *)
Definition divertPath (st : initState) (cpath : string) : string :=
  let cpath := if String.eqb cpath "" then Profile.Path (profile st) else cpath in
  let cpath :=
    if negb (String.eqb (Config.DivertSuffix (config st)) "")
    then cpath +:+ "." +:+ Config.DivertSuffix (config st) else cpath in
  if Config.DivertPath (config st)
  then GoPath.Join [GoPath.Dir cpath +:+ "-oz"; GoPath.Base cpath]
  else cpath.

Definition argPolicy (st : initState) (cmdArgs : list string) : list string :=
  let cmdArgs := if Profile.RejectUserArgs (profile st) then [] else cmdArgs in
  if Nat.ltb 0 (length (Profile.DefaultParams (profile st)))
  then Profile.DefaultParams (profile st) ++ cmdArgs else cmdArgs.

Definition seccompPath (st : initState) (name : string) : string :=
  GoPath.Join [Config.PrefixPath (config st); "bin"; name].

(** The [switch] on the seccomp mode in [launchApplication]: the executable
    and the arguments after it. *)
Definition seccompWrap (st : initState) (cpath : string) (cmdArgs : list string)
  : string * list string :=
  match Profile.SeccompMode_ (profile st) with
  | PROFILE_SECCOMP_TRAIN =>
      let spath := seccompPath st "oz-seccomp" in
      (seccompPath st "oz-seccomp-tracer",
       [spath; "-mode=whitelist"; cpath] ++ cmdArgs)
  | PROFILE_SECCOMP_WHITELIST =>
      if negb (Profile.SeccompEnforce (profile st)) then
        let spath := seccompPath st "oz-seccomp" in
        (seccompPath st "oz-seccomp-tracer",
         ["-r"; "-p"; "-"; spath; "-mode=whitelist"; cpath] ++ cmdArgs)
      else
        (seccompPath st "oz-seccomp", ["-mode=whitelist"; cpath] ++ cmdArgs)
  | PROFILE_SECCOMP_BLACKLIST =>
      if negb (Profile.SeccompEnforce (profile st)) then
        let spath := seccompPath st "oz-seccomp" in
        (seccompPath st "oz-seccomp-tracer",
         [spath; "-mode=blacklist"; cpath] ++ cmdArgs)
      else
        (seccompPath st "oz-seccomp", ["-mode=blacklist"; cpath] ++ cmdArgs)
  | PROFILE_SECCOMP_DISABLED => (cpath, cmdArgs)
  end.

(** The same [switch] in [launchTerminalServer], around the terminal
    server binary. *)
Definition seccompWrapTerminalServer (st : initState) (tspath : string)
  : string * list string :=
  match Profile.SeccompMode_ (profile st) with
  | PROFILE_SECCOMP_TRAIN =>
      let spath := seccompPath st "oz-seccomp" in
      (seccompPath st "oz-seccomp-tracer", [spath; "-mode=whitelist"; tspath])
  | PROFILE_SECCOMP_WHITELIST =>
      if negb (Profile.SeccompEnforce (profile st)) then
        let spath := seccompPath st "oz-seccomp" in
        (seccompPath st "oz-seccomp-tracer", [spath; "-mode=whitelist"; tspath])
      else (seccompPath st "oz-seccomp", ["-mode=whitelist"; tspath])
  | PROFILE_SECCOMP_BLACKLIST =>
      if negb (Profile.SeccompEnforce (profile st)) then
        let spath := seccompPath st "oz-seccomp" in
        (seccompPath st "oz-seccomp-tracer", [spath; "-mode=blacklist"; tspath])
      else (seccompPath st "oz-seccomp", ["-mode=blacklist"; tspath])
  | PROFILE_SECCOMP_DISABLED => (tspath, [])
  end.

(** The profile goes to the standard input of the wrapper in the three
    filtering modes. *)
Definition seccompStdin (st : initState) : option Profile.t :=
  match Profile.SeccompMode_ (profile st) with
  | PROFILE_SECCOMP_DISABLED => None
  | _ => Some (profile st)
  end.

(** [cmd.Dir] as the launchers set it: the home directory stands in for an
    empty [pwd], and the directory is only set when [os.Stat] finds it. *)
Definition workingDir (os : OS.t) (st : initState) (pwd : string) : string :=
  let pwd := if String.eqb pwd "" then HomeDir (user st) else pwd in
  if OS.Stat os pwd then pwd else "".

(** Start a command and enter it in the registry, as every launcher ends. *)
Definition startChild (os : OS.t) (st : initState) (c : Cmd.t) (trk : bool)
  : initState * list Event * result (Cmd.t * Z) :=
  match OS.Start os c with
  | Err e => (st, [EvStartFailed c e], Err e)
  | Ok pid => (addChildProcess st c pid trk, [EvStart c pid], Ok (c, pid))
  end.

(** The command [launchApplication] builds. *)
Definition applicationCmd (os : OS.t) (st : initState) (cpath pwd : string)
  (cmdArgs : list string) : Cmd.t :=
  let cpath := divertPath st cpath in
  let cmdArgs := argPolicy st cmdArgs in
  let '(cpath, cmdArgs) := seccompWrap st cpath cmdArgs in
  Cmd.mk cpath ([cpath] ++ cmdArgs)
    (setEnvironOverrides os [] ++ launchEnv st)
    (workingDir os st pwd)
    (uid st) (gid st) (allGroups st) (seccompStdin st) false.

Definition launchApplication (os : OS.t) (st : initState) (cpath pwd : string)
  (cmdArgs : list string) : initState * list Event * result (Cmd.t * Z) :=
  startChild os st (applicationCmd os st cpath pwd cmdArgs) true.

(** The command [launchTerminalServer] builds. *)
Definition terminalServerCmd (os : OS.t) (st : initState) : Cmd.t :=
  let '(tspath, tscmdArgs) :=
    seccompWrapTerminalServer st "/usr/lib/gnome-terminal/gnome-terminal-server" in
  Cmd.mk tspath ([tspath] ++ tscmdArgs)
    ((setEnvironOverrides os [] ++ ["PS1=[" +:+ Profile.Name (profile st) +:+ "] $ "])
       ++ launchEnv st)
    (if OS.Stat os (HomeDir (user st)) then HomeDir (user st) else "")
    (uid st) (gid st) (allGroups st) (seccompStdin st) false.

Definition launchTerminalServer (os : OS.t) (st : initState)
  : initState * list Event * result (Cmd.t * Z) :=
  startChild os st (terminalServerCmd os st) true.

(** The command [launchTerminalApplication] builds. *)
Definition terminalApplicationCmd (os : OS.t) (st : initState) (cpath pwd : string)
  (cmdArgs : list string) (noexec : bool) : Cmd.t :=
  let cpath := divertPath st cpath in
  let cmdArgs := argPolicy st cmdArgs in
  Cmd.mk "/usr/bin/gnome-terminal"
    (["/usr/bin/gnome-terminal"; "--hide-menubar"; "--"]
       ++ (if negb noexec then [cpath] ++ cmdArgs
           else [Config.ShellPath (config st)]))
    (["PS1=[\h] $ "] ++ launchEnv st)
    (workingDir os st pwd)
    (uid st) (gid st) (allGroups st) None false.

(** [launchTerminalApplication].  The [dconf load] step of the source names
    a command that it never runs; the model takes its evident intent, that
    a failing load aborts the launch. *)
Definition launchTerminalApplication (os : OS.t) (st : initState)
  (cpath pwd : string) (cmdArgs : list string) (noexec : bool)
  : initState * list Event * result (Cmd.t * Z) :=
  let dconf :=
    if Nat.ltb 0 (String.length (Profile.DConfPath (profile st)))
    then OS.DconfLoad os (Profile.DConfPath (profile st)) else Ok tt in
  match dconf with
  | Err e => (st, [], Err e)
  | Ok _ => startChild os st (terminalApplicationCmd os st cpath pwd cmdArgs noexec) false
  end.

(** The command [startXpraServer] starts: the package [xpra] builds the
    program and its arguments, init sets environment and credentials. *)
Definition xpraServerCmd (os : OS.t) (st : initState) (xpath : string)
  (xargs : list string) (audio : bool) : Cmd.t :=
  Cmd.mk xpath xargs
    (setEnvironOverrides os ["HOME=" +:+ HomeDir (user st)])
    ""
    (uid st) (gid st)
    (([gid st] ++ match gids st !! "video" with Some g => [g] | None => [] end)
       ++ (if audio then match gids st !! "audio" with Some g => [g] | None => [] end
           else []))
    None false.

(** ** The IPC handlers *)

Definition handlePing (data : string) : list Event := [EvRespond (PingMsg data) []].

Definition handleSetupForwarder (st : initState) (rp : ForwarderSuccessMsg)
  (msg : Message) : Outcome :=
  match Fds msg with
  | [] =>
      (st, [], Some "SetupForwarder message received, but no file descriptor included")
  | fd :: _ =>
      (st, [EvGoAcceptLoop fd (Proto rp) (Addr rp); EvRespond OkMsg []], None)
  end.

Definition handleRunProgram (os : OS.t) (st : initState) (rp : RunProgramMsg)
  : Outcome :=
  let '(st', evs, err) :=
    if Profile.IsSandboxedTerminal (profile st) then
      let '(st', evs, r) :=
        launchTerminalApplication os st (rpPath rp) (rpPwd rp) (rpArgs rp) (rpNoExec rp) in
      (st', evs, match r with Err e => Some e | Ok _ => None end)
    else if negb (rpNoExec rp) then
      let '(st', evs, r) := launchApplication os st (rpPath rp) (rpPwd rp) (rpArgs rp) in
      (st', evs, match r with Err e => Some e | Ok _ => None end)
    else (st, [], None) in
  match err with
  | Some e => (st', evs ++ [EvRespond (ErrorMsg e) []], None)
  | None => (st', evs ++ [EvRespond OkMsg []], None)
  end.

Definition isRootPeer (uc : Ucred) : bool :=
  Z.eqb (ucUid uc) 0 || Z.eqb (ucGid uc) 0.

(** The command [handleRunShell] builds for a peer that passed the
    authorization. *)
Definition shellCmd (st : initState) (rs : RunShellMsg) (uc : Ucred) : Cmd.t :=
  let nonroot := negb (Z.eqb (ucUid uc) 0) && negb (Z.eqb (ucGid uc) 0) in
  Cmd.mk (Config.ShellPath (config st))
    [Config.ShellPath (config st); "-i"]
    ((launchEnv st ++ (if negb (String.eqb (Term rs) "") then ["TERM=" +:+ Term rs] else []))
       ++ ["PS1=[\h] $ "])
    (if nonroot && negb (String.eqb (HomeDir (user st)) "") then HomeDir (user st) else "")
    (ucUid uc) (ucGid uc)
    ([gid st] ++ (if nonroot then map snd (map_to_list (gids st)) else []))
    None true.

(** [ptyStart]: open the pseudo terminal, then start the command on its
    slave side. *)
Definition ptyStart (os : OS.t) (c : Cmd.t) : list Event * result (Z * Z) :=
  match OS.PtyOpen os with
  | Err e => ([EvPtyOpen], Err e)
  | Ok ptty =>
      match OS.Start os c with
      | Err e => ([EvPtyOpen; EvStartFailed c e], Err e)
      | Ok pid => ([EvPtyOpen; EvStart c pid], Ok (ptty, pid))
      end
  end.

Definition handleRunShell (os : OS.t) (st : initState) (rs : RunShellMsg)
  (msg : Message) : Outcome :=
  match msgUcred msg with
  | None =>
      (st, [EvRespond (ErrorMsg "No credentials received for RunShell command") []], None)
  | Some uc =>
      if isRootPeer uc && negb (Config.AllowRootShell (config st)) then
        (st, [EvRespond (ErrorMsg "Cannot open shell because allowRootShell is disabled") []],
         None)
      else
        let c := shellCmd st rs uc in
        match ptyStart os c with
        | (evs, Err e) => (st, evs ++ [EvRespond (ErrorMsg e) []], None)
        | (evs, Ok (f, pid)) =>
            (addChildProcess st c pid false, evs ++ [EvRespond OkMsg [f]], None)
        end
  end.

(** ** The supervisor *)

Definition shutdownXpra (st : initState) : list Event :=
  if xpra st then [EvXpraStop (uid st) (gid st)] else [].

Definition shutdown (st : initState) : initState * list Event :=
  if shutdownRequested st then (st, [])
  else
    (with_shutdownRequested true st,
     (map (fun c => EvSignalInterrupt (fst c)) (childrenVector st)
        ++ shutdownXpra st)
       ++ (if ipcServer st then [EvIpcClose] else [])).

(** The bytes of a [cmdline] file before the first NUL. *)
Fixpoint untilNul (s : string) : string :=
  match s with
  | EmptyString => EmptyString
  | String c r => if Ascii.eqb c "000"%char then EmptyString else String c (untilNul r)
  end.

Definition getProcessExists (os : OS.t) (pnames : list string) : bool :=
  existsb
    (fun f =>
       match f with
       | None => false
       | Some pr =>
           let cmdb := GoPath.Base (untilNul pr) in
           if String.eqb cmdb "." then false
           else existsb (fun pname => String.eqb pname cmdb) pnames
       end)
    (OS.ProcCmdlines os).

Definition anyTracked (ch : gmap Z procState) : bool :=
  existsb (fun p => track (snd p)) (map_to_list ch).

Definition handleChildExit (os : OS.t) (st : initState) (pid : Z)
  : initState * list Event :=
  let trk := match children st !! pid with Some p => track p | None => false end in
  let st := fst (removeChildProcess st pid) in
  if anyTracked (children st) then (st, [])
  else
    let trk :=
      if Nat.ltb 0 (length (Profile.Watchdog (profile st)))
      then negb (getProcessExists os (Profile.Watchdog (profile st)))
      else trk in
    if trk && String.eqb (Profile.AutoShutdown (profile st)) PROFILE_SHUTDOWN_YES
    then shutdown st
    else (st, []).

(** [n] invocations of [shutdown] in a row, with all their events. *)
Fixpoint shutdownTimes (n : nat) (st : initState) : initState * list Event :=
  match n with
  | O => (st, [])
  | S k =>
      let '(st1, evs1) := shutdown st in
      let '(st2, evs2) := shutdownTimes k st1 in
      (st2, evs1 ++ evs2)
  end.

(** ** The filesystem builder *)

Definition isEphemeralPath (s : string) : bool :=
  GoPath.HasPrefix s "${HOME}" || GoPath.HasPrefix s "${XDG_".

Definition whitelistItemIsEphemeral (wl : WhitelistItem.t) : bool :=
  if String.eqb (WhitelistItem.Path wl) "" then false
  else if negb (String.eqb (WhitelistItem.Target wl) "")
       then isEphemeralPath (WhitelistItem.Target wl)
       else isEphemeralPath (WhitelistItem.Path wl).

(** [append(s[:i], s[i+1:]...)]. *)
Definition removeAt {A} (i : nat) (s : list A) : list A :=
  take i s ++ drop (S i) s.

(** The loop [for i := len(s) - 1; i >= 0; i--] that deletes element [i]
    when [del] holds of it; [n] is [i + 1].  Indexing out of range is a
    panic in Go, [None] here. *)
Fixpoint deleteBackwards {A} (del : A -> bool) (n : nat) (s : list A)
  : option (list A) :=
  match n with
  | O => Some s
  | S i =>
      match s !! i with
      | None => None
      | Some x => deleteBackwards del i (if del x then removeAt i s else s)
      end
  end.

(** The body of the whitelist loop of [setupFilesystem]: an item with an
    empty path is passed over, an ephemeral one is deleted. *)
Definition dropsWhitelistItem (wl : WhitelistItem.t) : bool :=
  if String.eqb (WhitelistItem.Path wl) "" then false
  else whitelistItemIsEphemeral wl.

Definition filterWhitelist (st : initState) : option initState :=
  if ephemeral st then
    match deleteBackwards dropsWhitelistItem
            (length (Profile.Whitelist (profile st)))
            (Profile.Whitelist (profile st)) with
    | Some wl => Some (with_profile (Profile.with_Whitelist wl (profile st)) st)
    | None => None
    end
  else Some st.

(** The loop of [runInit] over the shared folders. *)
Definition filterSharedFolders (st : initState) : option initState :=
  if ephemeral st then
    match deleteBackwards isEphemeralPath
            (length (Profile.SharedFolders (profile st)))
            (Profile.SharedFolders (profile st)) with
    | Some sf => Some (with_profile (Profile.with_SharedFolders sf (profile st)) st)
    | None => None
    end
  else Some st.

(** Modelled from the spec: the bind flags of package [fs] are not among
    the sources; they are distinct bits, so a flag word is the list of the
    flags or-ed into it. *)
Inductive BindFlag :=
| BindCanCreate | BindIgnore | BindReadOnly | BindAllowSetuid | BindForce
| BindNoFollow.

(** The calls [setupFilesystem] makes into package [fs], each of which may
    fail.  A symlink is recorded with the unresolved strings of its item. *)
Inductive FsOp :=
| OpSetupRootfs
| OpBindTo (path target : string) (flags : list BindFlag)
| OpCreateSymlink (path target symlink : string)
| OpBlacklistPath (path : string)
| OpBindXpra
| OpChroot
| OpMountFullDev
| OpMountShm
| OpMountPts
| OpMountProc
| OpMountSys.

Definition bindFlags (wl : WhitelistItem.t) : list BindFlag :=
  (((((if WhitelistItem.CanCreate wl then [BindCanCreate] else [])
        ++ (if WhitelistItem.Ignore wl then [BindIgnore] else []))
       ++ (if WhitelistItem.ReadOnly wl then [BindReadOnly] else []))
      ++ (if WhitelistItem.AllowSetuid wl then [BindAllowSetuid; BindReadOnly] else []))
     ++ (if WhitelistItem.Force wl then [BindForce] else []))
    ++ (if WhitelistItem.NoFollow wl then [BindNoFollow] else []).

Definition bindWhitelist (wlist : list WhitelistItem.t) : list FsOp :=
  flat_map
    (fun wl =>
       if String.eqb (WhitelistItem.Path wl) "" then []
       else [OpBindTo (WhitelistItem.Path wl) (WhitelistItem.Target wl) (bindFlags wl)])
    wlist.

Definition createBindSymlinks (wlist : list WhitelistItem.t) : list FsOp :=
  flat_map
    (fun wl =>
       if String.eqb (WhitelistItem.Symlink wl) "" then []
       else [OpCreateSymlink (WhitelistItem.Path wl) (WhitelistItem.Target wl)
               (WhitelistItem.Symlink wl)])
    wlist.

Definition applyBlacklist (blist : list BlacklistItem.t) : list FsOp :=
  flat_map
    (fun bl =>
       if String.eqb (BlacklistItem.Path bl) "" then []
       else [OpBlacklistPath (BlacklistItem.Path bl)])
    blist.

(** Run the calls in order and stop at the first that fails: the calls
    made, and whether all succeeded. *)
Fixpoint runOps (ok : FsOp -> bool) (ops : list FsOp) : list FsOp * bool :=
  match ops with
  | [] => ([], true)
  | o :: rest =>
      if ok o then let '(done, b) := runOps ok rest in (o :: done, b)
      else ([o], false)
  end.

(** [setupFilesystem]: the state with the filtered whitelist, the calls
    made and whether the build succeeded; [None] is a panic. *)
Definition setupFilesystem (ok : FsOp -> bool) (st : initState)
  (extra_whitelist : list WhitelistItem.t) (extra_blacklist : list BlacklistItem.t)
  : option (initState * list FsOp * bool) :=
  if negb (ok OpSetupRootfs) then Some (st, [OpSetupRootfs], false)
  else
    match filterWhitelist st with
    | None => None
    | Some st =>
        let p := profile st in
        let ops :=
          bindWhitelist extra_whitelist
            ++ bindWhitelist (Profile.Whitelist p)
            ++ createBindSymlinks (Profile.Whitelist p ++ extra_whitelist)
            ++ applyBlacklist extra_blacklist
            ++ applyBlacklist (Profile.Blacklist p)
            ++ (if Profile.XServerEnabled p then [OpBindXpra] else [])
            ++ [OpChroot]
            ++ (if Config.UseFullDev (config st) then [OpMountFullDev; OpMountShm] else [])
            ++ [OpMountPts]
            ++ (if negb (Profile.NoSysProc p) then [OpMountProc; OpMountSys] else []) in
        let '(done, b) := runOps ok ops in
        Some (st, OpSetupRootfs :: done, b)
    end.

(** ** Package [openvpn]: the configuration translator *)

Module OpenVPN.

(** The files [parseOpenVPNConf] touches.  [Open] is [os.Open] and gives
    the contents of the configuration as its lines: the bytes between one
    line break and the next, without the line break, a carriage return
    before it still in place.  [os.Create] and [WriteString] may fail; what
    is written to the key files is not tracked, only whether writing
    fails. *)
Record FS := mkFS {
  Open : string -> result (list string);
  Create : string -> result unit;
  WriteString : string -> string -> result unit
}.

(** The class [\s] of Go's regexp: tab, newline, form feed, carriage
    return and space. *)
Definition isSpace (c : ascii) : bool :=
  Ascii.eqb c "009"%char || Ascii.eqb c "010"%char || Ascii.eqb c "012"%char
  || Ascii.eqb c "013"%char || Ascii.eqb c " "%char.

(** [FindAllString] of [[^\s]+]: the maximal runs of characters that are
    not white space; [cur] is the run being read. *)
Fixpoint fieldsFrom (cur : string) (s : string) : list string :=
  match s with
  | EmptyString => if String.eqb cur "" then [] else [cur]
  | String c r =>
      if isSpace c then
        (if String.eqb cur "" then [] else [cur]) ++ fieldsFrom "" r
      else fieldsFrom (cur +:+ String c "") r
  end.

Definition fields (s : string) : list string := fieldsFrom "" s.

Fixpoint hasHash (s : string) : bool :=
  match s with
  | EmptyString => false
  | String c r => Ascii.eqb c "#"%char || hasHash r
  end.

(** [commentstrip.ReplaceAllString] on a field, with the first group as
    the replacement: the pattern is a greedy group of any characters and
    then a group that starts with [#], anchored at both ends, so the first
    group is everything before the last [#]; a field without [#] does not
    match and is returned as it is. *)
Fixpoint stripComment (v : string) : string :=
  match v with
  | EmptyString => EmptyString
  | String c r =>
      if Ascii.eqb c "#"%char && negb (hasHash r) then EmptyString
      else String c (stripComment r)
  end.

(** The loop over the fields of a line: each is kept without its
    comment, and the first field that had one ends the line. *)
Fixpoint lineTokens (x : list string) : list string :=
  match x with
  | [] => []
  | v :: rest =>
      let new := stripComment v in
      (if negb (String.eqb new "") then [new] else [])
        ++ (if negb (String.eqb v new) then [] else lineTokens rest)
  end.

(** The directives whose [case] is a bare [continue]. *)
Definition filteredDirectives : list string :=
  ["persist-tun"; "auth-nocache"; "iproute"; "route-up"; "config";
   "route-pre-down"; "down"; "script-security"; "ipchange"; "up"; "cd";
   "chroot"; "setenv"; "setenv-safe"; "group"; "user"; "daemon"; "syslog";
   "log"; "log-append"; "echo"; "status"; "mode"; "client"; "server";
   "management"; "plugin"; "ifconfig"; "writepid"].

Definition isFiltered (d : string) : bool :=
  existsb (String.eqb d) filteredDirectives.

(** The inline blocks: the opening tag, the closing tag, the flag and
    the suffix of the file the block is written to. *)
Definition inlineBlocks : list (string * (string * string * string)) :=
  [("<cert>", ("</cert>", "--cert", "-cert.cert"));
   ("<ca>", ("</ca>", "--ca", "-ca.cert"));
   ("<key>", ("</key>", "--key", "-key.key"));
   ("<tls-auth>", ("</tls-auth>", "--tls-auth", "-tls-auth.key"))].

Fixpoint lookupBlock (d : string) (l : list (string * (string * string * string)))
  : option (string * string * string) :=
  match l with
  | [] => None
  | (k, v) :: rest => if String.eqb d k then Some v else lookupBlock d rest
  end.

(** Where the scanner is: between directives, or in the inner loop of an
    inline block, copying lines to [fpath] until the line [close]. *)
Inductive Mode :=
| Outside
| Inside (close flag fpath : string).

Record PState := mkPState {
  mode : Mode;
  cmdargs : list string
}.

Definition push (args : list string) (st : PState) : PState :=
  mkPState (mode st) (cmdargs st ++ args).

(** The arguments a directive outside an inline block adds. *)
Definition directiveArgs (c : Config.t) (auth : string) (x : list string)
  : list string :=
  match x with
  | [] => []
  | d :: args =>
      if String.eqb d "auth-user-pass" then
        ["--auth-nocache"; "--auth-user-pass";
         GoPath.Join [Config.OpenVPNConfDir c; auth]]
      else if isFiltered d then []
      else if String.eqb d "ca" || String.eqb d "crl-verify" then
        match args with
        | [a] => ["--" +:+ d; GoPath.Join [Config.OpenVPNConfDir c; a]]
        | _ => []
        end
      else ("--" +:+ d) :: args
  end.

(** One line of the scanner: the new state, and the error that ends the
    parse. *)
Definition step (fs : FS) (c : Config.t) (auth runtoken : string)
  (st : PState) (line : string) : PState * option string :=
  match mode st with
  | Inside close flag fpath =>
      if String.eqb line close then
        (mkPState Outside (cmdargs st ++ [flag; fpath]), None)
      else
        match WriteString fs fpath (line +:+ String "010"%char "") with
        | Err e => (st, Some e)
        | Ok _ => (st, None)
        end
  | Outside =>
      let x := lineTokens (fields line) in
      match x with
      | [] => (st, None)
      | d :: _ =>
          match lookupBlock d inlineBlocks with
          | Some (close, flag, suffix) =>
              let fpath := GoPath.Join [Config.OpenVPNRunPath c; runtoken +:+ suffix] in
              match Create fs fpath with
              | Err e => (st, Some e)
              | Ok _ => (mkPState (Inside close flag fpath) (cmdargs st), None)
              end
          | None => (push (directiveArgs c auth x) st, None)
          end
      end
  end.

(** [bufio.MaxScanTokenSize]: the buffer of a [bufio.Scanner] grows to
    this many bytes and no further. *)
Definition MaxScanTokenSize : N := 65536.

(** A line that does not end within a full buffer.  The line break is
    not counted in [line]: a line of one byte less than the buffer still
    fits with its line break. *)
Definition tooLong (line : string) : bool :=
  N.leb MaxScanTokenSize (N.of_nat (String.length line)).

(** [dropCR] of package [bufio]: a carriage return at the end is
    dropped. *)
Fixpoint dropCR (data : string) : string :=
  match data with
  | EmptyString => EmptyString
  | String c r =>
      if Ascii.eqb c "013"%char && String.eqb r "" then EmptyString
      else String c (dropCR r)
  end.

(** What the successive calls of [scanner.Scan()] return over a file of
    these lines, with [bufio.ScanLines] as the split function: [Some text]
    for [true], with [scanner.Text()], and [None] for [false]; after the
    last element every call returns [false].  On a line that is too long
    [Scan] sets [ErrTooLong] and returns [false]; the code never looks at
    [scanner.Err()], and a call after that hands out what the buffer holds,
    the first [MaxScanTokenSize] bytes of the line, as the last token. *)
Fixpoint scanner (lines : list string) : list (option string) :=
  match lines with
  | [] => []
  | l :: rest =>
      if tooLong l
      then [None; Some (dropCR (substring 0 (N.to_nat MaxScanTokenSize) l))]
      else Some (dropCR l) :: scanner rest
  end.

(** The loops over [scanner.Scan()].  When it returns [false] inside an
    inline block the inner loop ends, the flag of the block is appended and
    the outer loop calls it again; when it returns [false] in the outer
    loop the parse is over, whatever is left of the file. *)
Fixpoint scanLoop (fs : FS) (c : Config.t) (auth runtoken : string)
  (st : PState) (scans : list (option string)) : PState * option string :=
  match scans with
  | [] => (st, None)
  | None :: rest =>
      match mode st with
      | Outside => (st, None)
      | Inside _ flag fpath =>
          scanLoop fs c auth runtoken
            (mkPState Outside (cmdargs st ++ [flag; fpath])) rest
      end
  | Some line :: rest =>
      match step fs c auth runtoken st line with
      | (st', Some e) => (st', Some e)
      | (st', None) => scanLoop fs c auth runtoken st' rest
      end
  end.

Definition scanLines (fs : FS) (c : Config.t) (auth runtoken : string)
  (st : PState) (lines : list string) : PState * option string :=
  scanLoop fs c auth runtoken st (scanner lines).

(** The end of the file inside an inline block ends its loop like the
    closing tag does. *)
Definition finish (st : PState) : list string :=
  match mode st with
  | Outside => cmdargs st
  | Inside _ flag fpath => cmdargs st ++ [flag; fpath]
  end.

Definition extraArgs (c : Config.t) (ip table dev runtoken : string)
  : list string :=
  ["--writepid"; GoPath.Join [Config.OpenVPNRunPath c; runtoken +:+ ".pid"];
   "--ping"; "10"; "--ping-restart"; "60"; "--daemon"; "--auth-retry";
   "nointeract"; "--route-noexec"; "--route-up"; "/usr/bin/oz-ovpn-route-up";
   "--route-pre-down"; "/usr/bin/oz-ovpn-route-down"; "--script-security";
   "2"; "--setenv"; "bridge_addr"; ip; "--setenv"; "routing_table"; table;
   "--setenv"; "bridge_dev"; dev].

(** [parseOpenVPNConf]; [ip] is [ip.String()].  The result is the pair
    [(cmdargs, err)] of the source. *)
Definition parseOpenVPNConf (fs : FS) (c : Config.t)
  (filename ip table dev auth runtoken : string) : list string * option string :=
  match Open fs filename with
  | Err e => ([], Some e)
  | Ok lines =>
      match scanLines fs c auth runtoken (mkPState Outside ["--client"]) lines with
      | (st, Some e) => (cmdargs st, Some e)
      | (st, None) => (finish st ++ extraArgs c ip table dev runtoken, None)
      end
  end.

(** How [StartOpenVPN] ends: with the running command, with an error, or
    with [os.Exit]. *)
Inductive Started :=
| Running (cmd : Cmd.t)
| Failed (err : string)
| Exit (code : Z).

(** [StartOpenVPN].  [ovpngroup] is what [user.LookupGroup] returns for
    [c.OpenVPNGroup], the [Gid] of the group; [Atoi] is [strconv.Atoi] and
    [Start] is [runcmd.Start()].  The credential names the group only, so
    the uid is 0 and there are no supplementary groups; the gid is
    converted to [uint32]. *)
Definition StartOpenVPN (fs : FS) (ovpngroup : result string)
  (Atoi : string -> result Z) (Start : Cmd.t -> result Z) (c : Config.t)
  (conf ip table dev auth runtoken : string) : Started :=
  let confFile := GoPath.Join [Config.OpenVPNConfDir c; conf] in
  match parseOpenVPNConf fs c confFile ip table dev auth runtoken with
  | (_, Some e) => Failed e
  | (cmdArgs, None) =>
      match ovpngroup with
      | Err e => Failed e
      | Ok groupGid =>
          match Atoi groupGid with
          | Err e => Failed e
          | Ok ovpngid =>
              let runcmd :=
                Cmd.mk "/usr/sbin/openvpn" ("/usr/sbin/openvpn" :: cmdArgs) [] ""
                  0%Z (ovpngid mod 2 ^ 32)%Z [] None false in
              match Start runcmd with
              | Err _ => Exit 1%Z
              | Ok _ => Running runcmd
              end
          end
      end
  end.


End OpenVPN.

(** ** Notions used in the statements *)

Fixpoint noSlash (s : string) : bool :=
  match s with
  | EmptyString => true
  | String c r => negb (Ascii.eqb c GoPath.slash) && noSlash r
  end.

(** A file name proper: not empty, not [.] or [..], without a slash. *)
Definition plainName (n : string) : bool :=
  negb (String.eqb n "") && negb (String.eqb n ".") && negb (String.eqb n "..")
  && noSlash n.

(** The commands a handler tried to start. *)
Definition startedCmds (evs : list Event) : list Cmd.t :=
  flat_map
    (fun e => match e with
              | EvStart c _ | EvStartFailed c _ => [c]
              | _ => []
              end)
    evs.

(** The name of a seccomp mode, as the profile spells it. *)
Definition modeName (m : SeccompMode) : string :=
  match m with
  | PROFILE_SECCOMP_TRAIN => "train"
  | PROFILE_SECCOMP_WHITELIST => "whitelist"
  | PROFILE_SECCOMP_BLACKLIST => "blacklist"
  | PROFILE_SECCOMP_DISABLED => "disabled"
  end.

(** The argument vector the specification gives the tracer:
    [oz-seccomp], the mode flag, the target and its arguments. *)
Definition specTracerArgv (st : initState) (target : string) (args : list string)
  : list string :=
  [seccompPath st "oz-seccomp";
   "-mode=" +:+ modeName (Profile.SeccompMode_ (profile st)); target] ++ args.

(** Whether a handler went as far as opening a pseudo terminal. *)
Definition opensPty (evs : list Event) : bool :=
  existsb (fun e => match e with EvPtyOpen => true | _ => false end) evs.

Definition isSignalTo (pid : Z) (e : Event) : bool :=
  match e with
  | EvSignalInterrupt q => Z.eqb q pid
  | _ => false
  end.

Definition isXpraStop (e : Event) : bool :=
  match e with
  | EvXpraStop _ _ => true
  | _ => false
  end.

Definition isIpcClose (e : Event) : bool :=
  match e with
  | EvIpcClose => true
  | _ => false
  end.

Definition countEv (f : Event -> bool) (evs : list Event) : nat :=
  length (List.filter f evs).

(** The track flag of a pid, [false] for a pid that is not registered. *)
Definition trackedPid (st : initState) (pid : Z) : bool :=
  match children st !! pid with
  | Some p => track p
  | None => false
  end.

(** The condition the specification puts on auto-shutdown: the exiting
    child was tracked and no tracked child is left, no watchdog process is
    found, and the profile asks for it. *)
Definition specAutoShutdown (os : OS.t) (st : initState) (pid : Z) : bool :=
  trackedPid st pid
  && negb (anyTracked (delete pid (children st)))
  && negb (getProcessExists os (Profile.Watchdog (profile st)))
  && String.eqb (Profile.AutoShutdown (profile st)) PROFILE_SHUTDOWN_YES.

(** Variables of init's environment named with the prefix [OZ_]. *)
Definition isOzVar (evar : string) : bool := GoPath.HasPrefix evar "OZ_".

(** ** Concrete sandboxes for the examples *)

Definition exampleProfile (mode : SeccompMode) (enforce : bool)
  (watchdog : list string) (terminal : bool) : Profile.t :=
  Profile.mk "editor" "/usr/bin/editor" [] [] [] false false mode enforce
    watchdog "yes" false [] terminal "".

Definition exampleConfig (allowRootShell : bool) : Config.t :=
  Config.mk "/usr/local" "" false "/bin/bash" allowRootShell false "/run/oz"
    "/etc/oz/openvpn".

Definition exampleState (p : Profile.t) (cfg : Config.t)
  (ch : gmap Z procState) : initState :=
  mkInitState p cfg ["PATH=/usr/bin:/bin"] ch 1000 1000 ∅
    (mkUser "/home/user") false true false false.

(** An init whose environment holds [OZ_DEBUG=1], that sees only the home
    directory, and for which every process starts as pid 42. *)
Definition exampleOS (ptyOpen : result Z) (procs : list (option string)) : OS.t :=
  OS.mk ["OZ_DEBUG=1"; "LANG=C"] (fun p => String.eqb p "/home/user")
    (fun _ => Ok 42%Z) ptyOpen procs (fun _ => Ok tt).

(** Where a whitelist item lands in the sandbox: its target, or its path
    when it has no target. *)
Definition mountPoint (wl : WhitelistItem.t) : string :=
  if negb (String.eqb (WhitelistItem.Target wl) "") then WhitelistItem.Target wl
  else WhitelistItem.Path wl.

Definition plainItem (path target : string) : WhitelistItem.t :=
  WhitelistItem.mk path target "" false false false false false false.

(** An ephemeral sandbox with the given whitelist and shared folders. *)
Definition exampleEphemeral (wl : list WhitelistItem.t) (sf : list string)
  : initState :=
  mkInitState
    (Profile.mk "editor" "/usr/bin/editor" wl [] sf false false
       PROFILE_SECCOMP_DISABLED false [] "yes" false [] false "")
    (exampleConfig false) ["PATH=/usr/bin:/bin"] ∅ 1000 1000 ∅
    (mkUser "/home/user") false true false true.

(** The same file system with another configuration file behind
    [os.Open]. *)
Definition withLines (fs : OpenVPN.FS) (lines : list string) : OpenVPN.FS :=
  OpenVPN.mkFS (fun _ => Ok lines) (OpenVPN.Create fs) (OpenVPN.WriteString fs).


(** A file system on which nothing fails, holding the given
    configuration. *)
Definition exampleFS (lines : list string) : OpenVPN.FS :=
  OpenVPN.mkFS (fun _ => Ok lines) (fun _ => Ok tt) (fun _ _ => Ok tt).

(** The line [s] with [n] spaces after it. *)
Definition padded (s : string) (n : N) : string :=
  s +:+ string_of_list_ascii (repeat " "%char (N.to_nat n)).

(** ** Further code of the sources *)

(** *** Go's [strings] package, continued *)

(** [strings.Contains(s, substr)]. *)
Fixpoint Contains (s substr : string) : bool :=
  String.prefix substr s
  || match s with
     | EmptyString => false
     | String _ r => Contains r substr
     end.

(** The scan of [strings.Replace] for a non-empty [old]: the leftmost
    occurrences that do not overlap are replaced, [n] of them at most, all
    of them for a negative [n]; [skip] counts the bytes of an occurrence
    still to be passed over. *)
Fixpoint replaceFrom (old new : string) (n : Z) (skip : nat) (s : string) : string :=
  match s with
  | EmptyString => EmptyString
  | String c r =>
      match skip with
      | S k => replaceFrom old new n k r
      | O =>
          if negb (Z.eqb n 0) && String.prefix old s
          then new +:+ replaceFrom old new (n - 1) (String.length old - 1) r
          else String c (replaceFrom old new n 0 r)
      end
  end.

(** [strings.Replace] for an empty [old]: it matches before every byte and
    at the end. *)
Fixpoint replaceEmpty (new : string) (n : Z) (s : string) : string :=
  if Z.eqb n 0 then s
  else match s with
       | EmptyString => new
       | String c r => new +:+ String c (replaceEmpty new (n - 1) r)
       end.

(** [strings.Replace(s, old, new, n)]. *)
Definition Replace (s old new : string) (n : Z) : string :=
  if String.eqb old new || Z.eqb n 0 then s
  else if String.eqb old "" then replaceEmpty new n s
  else replaceFrom old new n 0 s.

(** [strings.Split(s, sep)] for a separator of one byte. *)
Fixpoint splitOn (sep : ascii) (s : string) : list string :=
  match s with
  | EmptyString => [EmptyString]
  | String c r =>
      if Ascii.eqb c sep then EmptyString :: splitOn sep r
      else match splitOn sep r with
           | x :: xs => String c x :: xs
           | [] => [String c EmptyString]
           end
  end.

(** *** [ProfileHasEphemerals] *)

(** The loop over the whitelist: [inl v] is [return v] from inside the
    loop, [inr found] is falling out of it. *)
Fixpoint ephemeralsInWhitelist (found : bool) (wls : list WhitelistItem.t)
  : bool + bool :=
  match wls with
  | [] => inr found
  | wl :: rest =>
      if String.eqb (WhitelistItem.Path wl) "" then ephemeralsInWhitelist found rest
      else
        let found := whitelistItemIsEphemeral wl in
        if found then inl found else ephemeralsInWhitelist found rest
  end.

(** The loop over the shared folders, which returns [found] as it is. *)
Fixpoint ephemeralsInSharedFolders (found : bool) (sfs : list string) : bool + bool :=
  match sfs with
  | [] => inr found
  | sf :: rest =>
      if GoPath.HasPrefix sf "${HOME}" || GoPath.HasPrefix sf "${XDG_" then inl found
      else ephemeralsInSharedFolders found rest
  end.

Definition ProfileHasEphemerals (p : Profile.t) : bool :=
  match ephemeralsInWhitelist false (Profile.Whitelist p) with
  | inl v => v
  | inr found =>
      match ephemeralsInSharedFolders found (Profile.SharedFolders p) with
      | inl v => v
      | inr found => found
      end
  end.

(** *** [addSharedFolders] *)

(** The whitelist item a resolved shared folder is lowered to.  [Title] is
    [strings.Title]. *)
Definition sharedFolderItem (Title : string -> string) (st : initState)
  (spath : string) : WhitelistItem.t :=
  let spath :=
    if GoPath.HasPrefix spath (HomeDir (user st))
    then Replace spath (HomeDir (user st)) "" 1 else spath in
  let dname := Replace spath "/" "-" (-1) in
  let dname := if GoPath.HasPrefix dname "-" then Replace dname "-" "" 1 else dname in
  WhitelistItem.mk
    (GoPath.Join ["${HOME}/OZ"; Title (Profile.Name (profile st)); dname])
    (GoPath.Join ["${HOME}/.shared/"; dname])
    (GoPath.Join ["${HOME}"; spath])
    false true false false false false.

(** [addSharedFolders]; [Resolve] is [fs.ResolvePathNoGlob] for the user
    and profile of init, a folder it fails on is passed over. *)
Definition addSharedFolders (Resolve : string -> result string)
  (Title : string -> string) (st : initState) (wlExtras : list WhitelistItem.t)
  : list WhitelistItem.t :=
  fold_left
    (fun wlExtras sf =>
       match Resolve sf with
       | Err _ => wlExtras
       | Ok spath => wlExtras ++ [sharedFolderItem Title st spath]
       end)
    (Profile.SharedFolders (profile st)) wlExtras.

(** *** [getDbusSession] *)

Definition with_launchEnv (env : list string) (st : initState) : initState :=
  mkInitState (profile st) (config st) env (children st) (uid st) (gid st)
    (gids st) (user st) (xpra st) (ipcServer st) (shutdownRequested st)
    (ephemeral st).

(** The loop over the lines of the output of [dbus-launch]: the launch
    environment, and the calls of [os.Setenv] with name and value. *)
Fixpoint dbusLines (lines : list string) (env : list string)
  (setenvs : list (string * string)) : list string * list (string * string) :=
  match lines with
  | [] => (env, setenvs)
  | line :: rest =>
      if negb (String.eqb line "") && Contains line "=" && GoPath.HasPrefix line "DBUS_"
      then
        let vv := splitOn "="%char line in
        dbusLines rest (env ++ [line])
          (setenvs ++ [(hd "" vv, String.concat "=" (tl vv))])
      else dbusLines rest env setenvs
  end.

(** What [getDbusSession] does with the output once it is accepted. *)
Definition dbusEnvironment (TrimNul TrimSpace : string -> string)
  (output : string) (st : initState) : initState * list (string * string) :=
  let senvs := TrimSpace (TrimNul output) in
  let senvs := Replace senvs "export " "" (-1) in
  let senvs := Replace senvs ";" "" (-1) in
  let senvs := Replace senvs "'" "" (-1) in
  let '(env, setenvs) := dbusLines (splitOn "010"%char senvs) (launchEnv st) [] in
  (with_launchEnv env st, setenvs).

(** [getDbusSession].  [output] and [failed] are what [dcmd.Output()]
    returns; [TrimNul] is [bytes.Trim] of NUL bytes and [TrimSpace] is
    [strings.TrimSpace]. *)
Definition getDbusSession (TrimNul TrimSpace : string -> string)
  (output : string) (failed : option string) (st : initState)
  : result (initState * list (string * string)) :=
  match failed with
  | Some e =>
      if Nat.leb (String.length output) 1
      then Err ("dbus-launch failed: " +:+ e +:+ " " +:+ output)
      else Ok (dbusEnvironment TrimNul TrimSpace output st)
  | None => Ok (dbusEnvironment TrimNul TrimSpace output st)
  end.

(** *** [readXpraOutput] *)

Inductive XpraEvent :=
| XpraReadyDone
| XpraClose
| XpraLog (line : string).

(** [readXpraOutput] over the lines of xpra's standard error; [logXpra] is
    [config.LogXpra]. *)
Fixpoint readXpraOutput (logXpra : bool) (seenReady : bool) (lines : list string)
  : list XpraEvent :=
  match lines with
  | [] => []
  | line :: rest =>
      if Nat.ltb 0 (String.length line) then
        if Contains line "xpra is ready." && negb seenReady then
          XpraReadyDone
            :: (if negb logXpra then [XpraClose]
                else XpraLog line :: readXpraOutput logXpra true rest)
        else
          (if logXpra then [XpraLog line] else [])
            ++ readXpraOutput logXpra seenReady rest
      else readXpraOutput logXpra seenReady rest
  end.

(** *** [GetSocketName] *)

Definition isSocketNameChar (c : ascii) : bool :=
  let n := nat_of_ascii c in
  (Nat.leb 65 n && Nat.leb n 90) || (Nat.leb 97 n && Nat.leb n 122)
  || (Nat.leb 48 n && Nat.leb n 57) || Nat.eqb n 95 || Nat.eqb n 45.

Fixpoint allChars (f : ascii -> bool) (s : string) : bool :=
  match s with
  | EmptyString => true
  | String c r => f c && allChars f r
  end.

(** The match of the pattern of [isSocketName]: an at sign and then one
    or more letters, digits, underscores or hyphens, up to the end. *)
Definition isSocketName (s : string) : bool :=
  match s with
  | String c rest =>
      Ascii.eqb c "@"%char && negb (String.eqb rest "") && allChars isSocketNameChar rest
  | EmptyString => false
  end.

(** [GetSocketName]: the name, and the cache [sSocketName] after the call.
    [SocketName] is the default of the package and [env] the value of
    [OZ_SOCKET_NAME]. *)
Definition GetSocketName (SocketName env sSocketName : string) : string * string :=
  if negb (String.eqb sSocketName "") then (sSocketName, sSocketName)
  else
    let bSockName :=
      if negb (String.eqb env "") then
        let bSockName :=
          if negb (String.eqb (substring 0 1 env) "@") then "@" +:+ env else env in
        if negb (isSocketName bSockName) then SocketName else bSockName
      else SocketName in
    (bSockName, bSockName).

(** *** Notions used in the further statements *)

(** The calls [setupFilesystem] makes before it changes root. *)
Definition isBuildOp (o : FsOp) : bool :=
  match o with
  | OpSetupRootfs | OpBindTo _ _ _ | OpCreateSymlink _ _ _ | OpBlacklistPath _
  | OpBindXpra => true
  | _ => false
  end.

(** The mounts [setupFilesystem] queues after the change of root. *)
Definition mountPlan (st : initState) : list FsOp :=
  (if Config.UseFullDev (config st) then [OpMountFullDev; OpMountShm] else [])
    ++ [OpMountPts]
    ++ (if negb (Profile.NoSysProc (profile st)) then [OpMountProc; OpMountSys] else []).

Definition notChar (c : ascii) (x : ascii) : bool := negb (Ascii.eqb x c).

Definition countXpra (f : XpraEvent -> bool) (evs : list XpraEvent) : nat :=
  length (List.filter f evs).

Definition isReadyDone (e : XpraEvent) : bool :=
  match e with
  | XpraReadyDone => true
  | _ => false
  end.

Definition xpraLogged (evs : list XpraEvent) : list string :=
  flat_map (fun e => match e with XpraLog l => [l] | _ => [] end) evs.

(** *** [setupEtcFiles] *)

Definition tab : string := String "009"%char "".
Definition newline : string := String "010"%char "".

Definition hostsfile : string :=
  "127.0.0.1" +:+ tab +:+ "localhost" +:+ newline
  +:+ "127.0.1.1" +:+ tab +:+ "%HOSTNAME% %HOSTNAME%.%DOMAINNAME%" +:+ newline
  +:+ "::1     localhost ip6-localhost ip6-loopback" +:+ newline
  +:+ "ff02::1 ip6-allnodes" +:+ newline
  +:+ "ff02::2 ip6-allrouters" +:+ newline
  +:+ "%ADDITIONAL%".

Definition domainname : string := "local".

(** The contents of [/etc/hosts] before the final line break; [name] is
    the name of the profile and [phosts] its [Networking.Hosts]. *)
Definition etcHosts (name phosts : string) : string :=
  let phosts :=
    if Nat.ltb 0 (String.length phosts) then newline +:+ newline +:+ phosts
    else phosts in
  let hosts := hostsfile in
  let hosts := Replace hosts "%HOSTNAME%" name (-1) in
  let hosts := Replace hosts "%DOMAINNAME%" domainname (-1) in
  Replace hosts (newline +:+ "%ADDITIONAL%") phosts (-1).

(** [setupEtcFiles]: the files written, each with its path and contents.
    Go ranges over the map of files in an unspecified order; a write that
    fails is only logged. *)
Definition setupEtcFiles (name phosts dbusUuid : string) : list (string * string) :=
  map (fun f => (GoPath.Join ["/etc"; fst f], snd f +:+ newline))
    [("hostname", name);
     ("domainname", domainname);
     ("hosts", etcHosts name phosts);
     ("machine-id", dbusUuid);
     ("fstab", "# This fstab file is empty")].

(** *** [dumpLogs] *)

(** The bodies [dumpLogs] tells apart; [LogsOther] carries the name of the
    type as [%T] prints it. *)
Inductive LogsResponse :=
| LogsOk
| LogsData (lines : list string)
| LogsOther (typeName : string).

(** [dumpLogs] over the responses that arrive: what is sent on [out] and
    whether [out] is closed. *)
Fixpoint dumpLogs (resps : list LogsResponse) : list string * bool :=
  match resps with
  | [] => ([], false)
  | LogsOk :: _ => ([], true)
  | LogsData ls :: rest =>
      let '(out, closed) := dumpLogs rest in (ls ++ out, closed)
  | LogsOther t :: rest =>
      let '(out, closed) := dumpLogs rest in
      (("Unexpected response type (" +:+ t +:+ ")") :: out, closed)
  end.

Definition isLogsOk (r : LogsResponse) : bool :=
  match r with
  | LogsOk => true
  | _ => false
  end.

(** What one response puts on the output. *)
Definition logsOutput (r : LogsResponse) : list string :=
  match r with
  | LogsOk => []
  | LogsData ls => ls
  | LogsOther t => ["Unexpected response type (" +:+ t +:+ ")"]
  end.

(** * Properties *)

#[local] Arguments String.append !_ _ / : simpl nomatch.

(** ** Go paths *)

Example Clean_ex1 : GoPath.Clean "/../a/b/../././/c" = "/a/c".
Proof. reflexivity. Qed.
Example Clean_ex2 : GoPath.Clean "a/../.." = "..".
Proof. reflexivity. Qed.
Example Clean_ex3 : GoPath.Clean "" = ".".
Proof. reflexivity. Qed.
Example Join_ex1 : GoPath.Join ["/usr/local"; "bin"; "oz-seccomp"] = "/usr/local/bin/oz-seccomp".
Proof. reflexivity. Qed.
Example Join_ex2 : GoPath.Join [""; "bin"; "oz-seccomp"] = "bin/oz-seccomp".
Proof. reflexivity. Qed.
Example Base_ex1 : GoPath.Base "/usr/bin/editor/" = "editor".
Proof. reflexivity. Qed.
Example Base_ex2 : GoPath.Base "///" = "/".
Proof. reflexivity. Qed.
Example Dir_ex1 : GoPath.Dir "/usr/bin/editor" = "/usr/bin".
Proof. reflexivity. Qed.
Example Dir_ex2 : GoPath.Dir "editor" = ".".
Proof. reflexivity. Qed.

Section PathFacts.
Import GoPath.

Lemma append_empty_r (s : string) : s +:+ "" = s.
Proof. induction s as [|c s IH]; simpl; [reflexivity | now rewrite IH]. Qed.

Lemma append_assoc (a b c : string) : (a +:+ b) +:+ c = a +:+ b +:+ c.
Proof. induction a as [|x a IH]; simpl; [reflexivity | now rewrite IH]. Qed.

Lemma append_nonempty_r (a b : string) : b <> "" -> a +:+ b <> "".
Proof. destruct a; simpl; [tauto | discriminate]. Qed.

Lemma split_slash_cons (s : string) : exists x xs, split_slash s = x :: xs.
Proof.
  induction s as [|c s [x [xs IH]]]; simpl; [eauto |].
  destruct (Ascii.eqb c slash); [eauto | rewrite IH; eauto].
Qed.

Lemma split_slash_app (a b : string) :
  split_slash (a +:+ String slash b) = split_slash a ++ split_slash b.
Proof.
  induction a as [|c a IH]; simpl.
  - reflexivity.
  - destruct (Ascii.eqb c slash).
    + now rewrite IH.
    + rewrite IH. destruct (split_slash_cons a) as [x [xs ->]]. reflexivity.
Qed.

Lemma split_slash_noSlash (n : string) : noSlash n = true -> split_slash n = [n].
Proof.
  induction n as [|c n IH]; simpl; [reflexivity |].
  intros [Hc Hn]%andb_prop. destruct (Ascii.eqb c slash); [discriminate |].
  now rewrite (IH Hn).
Qed.

Lemma plainName_inv (n : string) :
  plainName n = true ->
  String.eqb n "" = false /\ String.eqb n "." = false
  /\ String.eqb n ".." = false /\ noSlash n = true.
Proof.
  unfold plainName. intros H.
  apply andb_prop in H as [H H4]. apply andb_prop in H as [H H3].
  apply andb_prop in H as [H1 H2].
  repeat split; try assumption; now apply negb_true_iff.
Qed.

Lemma clean_step_plain (r : bool) (stk : list string) (n : string) :
  plainName n = true -> clean_step r stk n = n :: stk.
Proof.
  intros (H1 & H2 & H3 & _)%plainName_inv. unfold clean_step.
  now rewrite H1, H2, H3.
Qed.

Lemma concat_snoc (sep : string) (l : list string) (x n : string) :
  String.concat sep ((l ++ [x]) ++ [n])
  = String.concat sep (l ++ [x]) +:+ sep +:+ n.
Proof.
  induction l as [|y l IH]; simpl; [reflexivity |].
  destruct (l ++ [x]) as [|z t] eqn:E.
  - destruct l; discriminate.
  - simpl in *. rewrite IH. now rewrite !append_assoc.
Qed.

Lemma last_nonempty_snoc (l : list string) (n : string) :
  String.eqb n "" = false -> last_nonempty (l ++ [n]) = Some n.
Proof.
  intros H. unfold last_nonempty. rewrite fold_left_app. simpl. now rewrite H.
Qed.

Lemma Base_append (X n : string) :
  plainName n = true -> Base (X +:+ String slash n) = n.
Proof.
  intros Hn. pose proof (plainName_inv _ Hn) as (H1 & _ & _ & H4).
  unfold Base.
  destruct (String.eqb_spec (X +:+ String slash n) "") as [E|_].
  - destruct X; discriminate.
  - rewrite split_slash_app, (split_slash_noSlash _ H4).
    now rewrite last_nonempty_snoc.
Qed.

Lemma Clean_append (Y a n : string) :
  plainName a = true -> plainName n = true ->
  (exists pre, split_slash Y = pre ++ [a]) ->
  exists X, Clean (Y +:+ String slash n) = X +:+ String slash n.
Proof.
  intros Ha Hn [pre Hpre]. unfold Clean.
  pose proof (plainName_inv _ Hn) as (_ & _ & _ & H4).
  rewrite split_slash_app, (split_slash_noSlash _ H4), Hpre.
  rewrite <- app_assoc, fold_left_app. simpl.
  rewrite (clean_step_plain _ _ a Ha), (clean_step_plain _ _ n Hn).
  set (stk := fold_left _ pre []). simpl.
  replace (rev stk ++ [a]) with ((rev stk) ++ [a]) by reflexivity.
  rewrite <- app_assoc. simpl.
  replace (rev stk ++ [a; n]) with ((rev stk ++ [a]) ++ [n])
    by (now rewrite <- app_assoc).
  rewrite concat_snoc.
  destruct (HasPrefix _ _).
  - exists ("/" +:+ String.concat "/" (rev stk ++ [a])). reflexivity.
  - destruct (String.eqb_spec (String.concat "/" (rev stk ++ [a]) +:+ "/" +:+ n) "") as [E|_].
    + destruct (String.concat "/" (rev stk ++ [a])); discriminate.
    + eexists. reflexivity.
Qed.

Lemma length_plain_pos (n : string) : plainName n = true -> (0 < String.length n)%nat.
Proof. intros (H1 & _)%plainName_inv. destruct n; [discriminate | simpl; lia]. Qed.

Lemma Base_Join3 (p a n : string) :
  plainName a = true -> plainName n = true -> Base (Join [p; a; n]) = n.
Proof.
  intros Ha Hn. unfold Join.
  pose proof (length_plain_pos _ Hn) as Hlen.
  replace (Nat.eqb (fold_left (fun k e => (k + String.length e)%nat) [p; a; n] 0%nat) 0)
    with false by (symmetry; apply Nat.eqb_neq; simpl; lia).
  pose proof (plainName_inv _ Ha) as (Ha1 & _ & _ & Ha4).
  pose proof (plainName_inv _ Hn) as (Hn1 & _ & _ & Hn4).
  assert (exists Y, fold_left join_buf [p; a; n] "" = Y +:+ String slash n
                    /\ exists pre, split_slash Y = pre ++ [a]) as (Y & -> & HY).
  { simpl. unfold join_buf at 3. simpl.
    destruct (String.eqb_spec p "") as [-> | Hp]; simpl.
    - unfold join_buf at 2. simpl. rewrite Ha1. simpl.
      unfold join_buf. rewrite Ha1. simpl.
      exists a. split; [now rewrite append_assoc |]. exists []. now apply split_slash_noSlash.
    - unfold join_buf at 2.
      destruct (String.eqb_spec p "") as [? | _]; [contradiction |]. simpl.
      unfold join_buf.
      destruct (String.eqb_spec ((p +:+ "/") +:+ a) "") as [E | _].
      { destruct p; [contradiction | discriminate]. }
      simpl. exists ((p +:+ "/") +:+ a). split; [now rewrite (append_assoc _ "/" n) |].
      exists (split_slash p). rewrite append_assoc. simpl.
      rewrite split_slash_app. now rewrite (split_slash_noSlash _ Ha4). }
  destruct (Clean_append Y a n Ha Hn HY) as [X ->].
  now apply Base_append.
Qed.
End PathFacts.

(** ** The launchers *)

Lemma seccomp_basename (st : initState) (n : string) :
  plainName n = true -> GoPath.Base (seccompPath st n) = n.
Proof. intros Hn. unfold seccompPath. now apply Base_Join3. Qed.

(** C3, as stated, fails.  Under seccomp mode whitelist without enforcement
    the arguments [launchApplication] gives the tracer start with
    [-r -p -], so they are not [oz-seccomp, -mode=whitelist, target, args]. *)
Lemma launchApplication_tracer_argv_counterexample :
  let os := exampleOS (Ok 7%Z) [] in
  let st := exampleState (exampleProfile PROFILE_SECCOMP_WHITELIST false [] false)
              (exampleConfig false) ∅ in
  let c := applicationCmd os st "" "" ["a.txt"] in
  Cmd.Path c = "/usr/local/bin/oz-seccomp-tracer"
  /\ Cmd.Args c
     = ["/usr/local/bin/oz-seccomp-tracer"; "-r"; "-p"; "-";
        "/usr/local/bin/oz-seccomp"; "-mode=whitelist"; "/usr/bin/editor"; "a.txt"]
  /\ Cmd.Args c
     <> Cmd.Path c :: specTracerArgv st (divertPath st "") (argPolicy st ["a.txt"]).
Proof. vm_compute. repeat split; discriminate. Qed.

(** C3, amended.  The command [launchApplication] starts: under train, and
    under whitelist or blacklist without enforcement, the executable is
    [oz-seccomp-tracer] and its arguments are [oz-seccomp], the mode flag,
    the target and the arguments, where train passes [-mode=whitelist] and
    whitelist without enforcement puts [-r -p -] first; with enforcement
    the executable is [oz-seccomp] with the mode flag, the target and the
    arguments; when disabled the target is run as it is. *)
Theorem launchApplication_seccomp_argv (os : OS.t) (st : initState)
  (cpath pwd : string) (cmdArgs : list string) :
  let target := divertPath st cpath in
  let args := argPolicy st cmdArgs in
  let c := applicationCmd os st cpath pwd cmdArgs in
  let spath := seccompPath st "oz-seccomp" in
  startedCmds (snd (fst (launchApplication os st cpath pwd cmdArgs))) = [c]
  /\ GoPath.Base spath = "oz-seccomp"
  /\ match Profile.SeccompMode_ (profile st), Profile.SeccompEnforce (profile st) with
     | PROFILE_SECCOMP_TRAIN, _ =>
         GoPath.Base (Cmd.Path c) = "oz-seccomp-tracer"
         /\ Cmd.Args c = Cmd.Path c :: [spath; "-mode=whitelist"; target] ++ args
     | PROFILE_SECCOMP_WHITELIST, false =>
         GoPath.Base (Cmd.Path c) = "oz-seccomp-tracer"
         /\ Cmd.Args c
            = Cmd.Path c :: ["-r"; "-p"; "-"; spath; "-mode=whitelist"; target] ++ args
     | PROFILE_SECCOMP_BLACKLIST, false =>
         GoPath.Base (Cmd.Path c) = "oz-seccomp-tracer"
         /\ Cmd.Args c = Cmd.Path c :: [spath; "-mode=blacklist"; target] ++ args
     | PROFILE_SECCOMP_WHITELIST, true =>
         GoPath.Base (Cmd.Path c) = "oz-seccomp"
         /\ Cmd.Args c = Cmd.Path c :: ["-mode=whitelist"; target] ++ args
     | PROFILE_SECCOMP_BLACKLIST, true =>
         GoPath.Base (Cmd.Path c) = "oz-seccomp"
         /\ Cmd.Args c = Cmd.Path c :: ["-mode=blacklist"; target] ++ args
     | PROFILE_SECCOMP_DISABLED, _ =>
         Cmd.Path c = target /\ Cmd.Args c = target :: args
     end.
Proof.
  intros target args c spath. split; [| split].
  - unfold launchApplication, startChild. fold c.
    destruct (OS.Start os c); reflexivity.
  - now apply seccomp_basename.
  - subst c. unfold applicationCmd, seccompWrap. fold target args spath.
    destruct (Profile.SeccompMode_ (profile st)), (Profile.SeccompEnforce (profile st));
      simpl; split; try reflexivity; now apply seccomp_basename.
Qed.

(** The terminal server is wrapped the same way, without [-r -p -]. *)
Lemma launchTerminalServer_seccomp_argv (os : OS.t) (st : initState) :
  let c := terminalServerCmd os st in
  let ts := "/usr/lib/gnome-terminal/gnome-terminal-server" in
  let spath := seccompPath st "oz-seccomp" in
  match Profile.SeccompMode_ (profile st), Profile.SeccompEnforce (profile st) with
  | PROFILE_SECCOMP_TRAIN, _ | PROFILE_SECCOMP_WHITELIST, false =>
      GoPath.Base (Cmd.Path c) = "oz-seccomp-tracer"
      /\ Cmd.Args c = [Cmd.Path c; spath; "-mode=whitelist"; ts]
  | PROFILE_SECCOMP_BLACKLIST, false =>
      GoPath.Base (Cmd.Path c) = "oz-seccomp-tracer"
      /\ Cmd.Args c = [Cmd.Path c; spath; "-mode=blacklist"; ts]
  | PROFILE_SECCOMP_WHITELIST, true =>
      GoPath.Base (Cmd.Path c) = "oz-seccomp"
      /\ Cmd.Args c = [Cmd.Path c; "-mode=whitelist"; ts]
  | PROFILE_SECCOMP_BLACKLIST, true =>
      GoPath.Base (Cmd.Path c) = "oz-seccomp"
      /\ Cmd.Args c = [Cmd.Path c; "-mode=blacklist"; ts]
  | PROFILE_SECCOMP_DISABLED, _ => Cmd.Path c = ts /\ Cmd.Args c = [ts]
  end.
Proof.
  intros c ts spath. subst c. unfold terminalServerCmd, seccompWrapTerminalServer.
  fold ts spath.
  destruct (Profile.SeccompMode_ (profile st)), (Profile.SeccompEnforce (profile st));
    simpl; split; try reflexivity; now apply seccomp_basename.
Qed.

(** ** The environment of the children *)

Lemma setEnvironOverrides_filter (os : OS.t) (env : list string) :
  setEnvironOverrides os env = env ++ List.filter isOzVar (OS.Environ os).
Proof.
  unfold setEnvironOverrides. generalize env. clear env.
  induction (OS.Environ os) as [|evar rest IH]; intros env; simpl.
  - now rewrite app_nil_r.
  - rewrite IH. unfold isOzVar. destruct (GoPath.HasPrefix evar "OZ_"); simpl.
    + now rewrite <- app_assoc.
    + reflexivity.
Qed.

Lemma setEnvironOverrides_In (os : OS.t) (env : list string) (evar : string) :
  In evar (OS.Environ os) -> isOzVar evar = true ->
  In evar (setEnvironOverrides os env).
Proof.
  intros Hin Hoz. rewrite setEnvironOverrides_filter. apply in_or_app. right.
  apply filter_In. now split.
Qed.

Lemma childEnviron_In (os : OS.t) (c : Cmd.t) (evar : string) :
  In evar (OS.Environ os) -> In evar (setEnvironOverrides os []) ->
  (forall x, In x (setEnvironOverrides os []) -> In x (Cmd.Env c)) ->
  In evar (childEnviron os c).
Proof.
  intros Henv Hin Hsub. specialize (Hsub _ Hin). unfold childEnviron.
  destruct (Cmd.Env c); [assumption | exact Hsub].
Qed.

(** The launchers that call [setEnvironOverrides] hand every [OZ_]
    variable of init to the child: the application, the terminal server
    and the xpra server. *)
Lemma OZ_environment_propagated (os : OS.t) (st : initState) (evar : string)
  (cpath pwd xpath : string) (cmdArgs xargs : list string) (audio : bool) :
  In evar (OS.Environ os) -> isOzVar evar = true ->
  In evar (childEnviron os (applicationCmd os st cpath pwd cmdArgs))
  /\ In evar (childEnviron os (terminalServerCmd os st))
  /\ In evar (childEnviron os (xpraServerCmd os st xpath xargs audio)).
Proof.
  intros Hin Hoz.
  pose proof (setEnvironOverrides_In os [] evar Hin Hoz) as H0.
  repeat split.
  - apply childEnviron_In; [assumption | assumption |].
    intros x Hx. unfold applicationCmd.
    destruct (seccompWrap st _ _). simpl. apply in_or_app. now left.
  - apply childEnviron_In; [assumption | assumption |].
    intros x Hx. unfold terminalServerCmd.
    destruct (seccompWrapTerminalServer st _). simpl.
    apply in_or_app. left. apply in_or_app. now left.
  - unfold childEnviron.
    change (Cmd.Env (xpraServerCmd os st xpath xargs audio))
      with (setEnvironOverrides os ["HOME=" +:+ HomeDir (user st)]).
    pose proof (setEnvironOverrides_In os ["HOME=" +:+ HomeDir (user st)] evar Hin Hoz) as H1.
    destruct (setEnvironOverrides os ["HOME=" +:+ HomeDir (user st)]);
      [destruct H1 | exact H1].
Qed.

(** C6: the code at the failing input.  Init's environment holds
    [OZ_DEBUG=1]; the command [launchTerminalApplication] starts has an
    environment of its own, the prompt and the launch environment, and the
    variable is not in it. *)
Theorem launchTerminalApplication_drops_OZ_environment :
  let os := exampleOS (Ok 7%Z) [] in
  let st := exampleState (exampleProfile PROFILE_SECCOMP_DISABLED false [] true)
              (exampleConfig false) ∅ in
  let c := terminalApplicationCmd os st "" "" [] false in
  In "OZ_DEBUG=1" (OS.Environ os)
  /\ isOzVar "OZ_DEBUG=1" = true
  /\ startedCmds (snd (fst (launchTerminalApplication os st "" "" [] false))) = [c]
  /\ childEnviron os c = ["PS1=[\h] $ "; "PATH=/usr/bin:/bin"]
  /\ ~ In "OZ_DEBUG=1" (childEnviron os c).
Proof.
  vm_compute. repeat split; auto.
  intros [H | [H | []]]; discriminate.
Qed.

(** ** The working directory of the children *)

(** C7, as stated, fails.  The requested directory does not exist: the
    launcher leaves [cmd.Dir] empty and the child starts in the directory
    init is in, here the root, not in the home directory. *)
Lemma launchApplication_workdir_counterexample :
  let os := exampleOS (Ok 7%Z) [] in
  let st := exampleState (exampleProfile PROFILE_SECCOMP_DISABLED false [] false)
              (exampleConfig false) ∅ in
  let c := applicationCmd os st "" "/no/such/dir" [] in
  OS.Stat os "/no/such/dir" = false
  /\ startedCmds (snd (fst (launchApplication os st "" "/no/such/dir" []))) = [c]
  /\ Cmd.Dir c = ""
  /\ childDir "/" c = "/"
  /\ childDir "/" c <> HomeDir (user st).
Proof. vm_compute. repeat split; discriminate. Qed.

(** C7, amended.  For the application and the terminal application alike,
    the working directory is the requested one when that is not empty and
    exists, and the home directory when the requested one is empty and the
    home directory exists; otherwise none is set, and the child starts in
    the directory of init. *)
Theorem launch_working_directory (os : OS.t) (st : initState)
  (cpath pwd initDir : string) (cmdArgs : list string) (noexec : bool) :
  let wd :=
    if negb (String.eqb pwd "") then (if OS.Stat os pwd then pwd else "")
    else if OS.Stat os (HomeDir (user st)) then HomeDir (user st) else "" in
  let c := applicationCmd os st cpath pwd cmdArgs in
  let tc := terminalApplicationCmd os st cpath pwd cmdArgs noexec in
  Cmd.Dir c = wd /\ Cmd.Dir tc = wd
  /\ childDir initDir c = (if String.eqb wd "" then initDir else wd)
  /\ childDir initDir tc = (if String.eqb wd "" then initDir else wd).
Proof.
  intros wd c tc.
  assert (Hw : workingDir os st pwd = wd).
  { unfold workingDir. subst wd. destruct (String.eqb pwd ""); reflexivity. }
  assert (Hc : Cmd.Dir c = wd).
  { subst c. unfold applicationCmd. destruct (seccompWrap st _ _). simpl. exact Hw. }
  assert (Htc : Cmd.Dir tc = wd) by exact Hw.
  unfold childDir. rewrite Hc, Htc. repeat split.
Qed.

(** ** RunProgram *)

(** C9.  Outside a sandboxed terminal, a RunProgram request with [no_exec]
    starts nothing, leaves the registry as it is and is answered [Ok]; the
    replies are those of a launch that succeeded. *)
Theorem handleRunProgram_noexec (os : OS.t) (st : initState) (rp : RunProgramMsg) :
  Profile.IsSandboxedTerminal (profile st) = false ->
  rpNoExec rp = true ->
  handleRunProgram os st rp = (st, [EvRespond OkMsg []], None)
  /\ startedCmds (snd (fst (handleRunProgram os st rp))) = []
  /\ children (fst (fst (handleRunProgram os st rp))) = children st
  /\ forall (rp' : RunProgramMsg) (pid : Z),
       rpNoExec rp' = false ->
       OS.Start os (applicationCmd os st (rpPath rp') (rpPwd rp') (rpArgs rp')) = Ok pid ->
       replies (snd (fst (handleRunProgram os st rp')))
       = replies (snd (fst (handleRunProgram os st rp))).
Proof.
  intros Hterm Hno.
  assert (E : handleRunProgram os st rp = (st, [EvRespond OkMsg []], None)).
  { unfold handleRunProgram. now rewrite Hterm, Hno. }
  rewrite E. repeat split.
  intros rp' pid Hno' Hstart. unfold handleRunProgram.
  rewrite Hterm, Hno'. simpl. unfold launchApplication, startChild.
  rewrite Hstart. reflexivity.
Qed.

Lemma handleRunProgram_noexec_witness :
  let os := exampleOS (Ok 7%Z) [] in
  let st := exampleState (exampleProfile PROFILE_SECCOMP_DISABLED false [] false)
              (exampleConfig false) ∅ in
  let rp := mkRunProgramMsg "" "" [] true in
  handleRunProgram os st rp = (st, [EvRespond OkMsg []], None).
Proof.
  intros os st rp.
  apply (proj1 (handleRunProgram_noexec os st rp eq_refl eq_refl)).
Defined.

(** ** RunShell *)

(** C2, as stated, fails.  A peer that is not root passes the
    authorization, but no pseudo terminal can be opened: no shell is
    started and the reply is [Error], not [Ok]. *)
Lemma handleRunShell_counterexample :
  let os := exampleOS (Err "no pty available") [] in
  let st := exampleState (exampleProfile PROFILE_SECCOMP_DISABLED false [] false)
              (exampleConfig false) ∅ in
  let msg := mkMessage [] (Some (mkUcred 77 1000 1000)) in
  let out := handleRunShell os st (mkRunShellMsg "xterm") msg in
  isRootPeer (mkUcred 77 1000 1000) = false
  /\ startedCmds (snd (fst out)) = []
  /\ replies (snd (fst out)) = [(ErrorMsg "no pty available", [])]
  /\ replies (snd (fst out)) <> [(OkMsg, [7%Z])].
Proof. vm_compute. repeat split; discriminate. Qed.

(** C2, amended.  Without peer credentials the reply is [Error]; for a
    peer with uid 0 or gid 0 and [AllowRootShell] off the reply is [Error],
    and a peer with uid 0 is refused before any pseudo terminal is opened
    exactly when [AllowRootShell] is off; otherwise [ShellPath -i] is
    started on a pseudo terminal with the uid and gid of the peer, with the
    mapped groups only for a peer that is not root, and the reply is [Ok]
    with the master descriptor when the terminal opens and the shell
    starts, and [Error] when either fails. *)
Theorem handleRunShell_authorization (os : OS.t) (st : initState)
  (rs : RunShellMsg) (msg : Message) :
  let out := handleRunShell os st rs msg in
  match msgUcred msg with
  | None =>
      out = (st, [EvRespond (ErrorMsg "No credentials received for RunShell command") []],
             None)
  | Some uc =>
      let nonroot := negb (Z.eqb (ucUid uc) 0) && negb (Z.eqb (ucGid uc) 0) in
      let c := shellCmd st rs uc in
      (if Z.eqb (ucUid uc) 0
       then opensPty (snd (fst out)) = false
            <-> Config.AllowRootShell (config st) = false
       else True)
      /\ if isRootPeer uc && negb (Config.AllowRootShell (config st)) then
           out = (st, [EvRespond
                         (ErrorMsg "Cannot open shell because allowRootShell is disabled") []],
                  None)
         else
           Cmd.Args c = [Config.ShellPath (config st); "-i"]
           /\ Cmd.Path c = Config.ShellPath (config st)
           /\ Cmd.Uid c = ucUid uc /\ Cmd.Gid c = ucGid uc
           /\ Cmd.Groups c
              = gid st :: (if nonroot then map snd (map_to_list (gids st)) else [])
           /\ Cmd.Pty c = true
           /\ match OS.PtyOpen os, OS.Start os c with
              | Ok f, Ok pid =>
                  out = (addChildProcess st c pid false,
                         [EvPtyOpen; EvStart c pid; EvRespond OkMsg [f]], None)
              | Ok f, Err e =>
                  out = (st, [EvPtyOpen; EvStartFailed c e; EvRespond (ErrorMsg e) []], None)
              | Err e, _ =>
                  out = (st, [EvPtyOpen; EvRespond (ErrorMsg e) []], None)
              end
  end.
Proof.
  intros out. subst out. unfold handleRunShell.
  destruct (msgUcred msg) as [uc|]; [| reflexivity].
  cbv beta iota zeta. unfold isRootPeer, ptyStart.
  destruct (Z.eqb (ucUid uc) 0) eqn:Eu, (Z.eqb (ucGid uc) 0) eqn:Eg,
    (Config.AllowRootShell (config st)),
    (OS.PtyOpen os) as [f|e], (OS.Start os (shellCmd st rs uc)) as [pid|e'];
    simpl; rewrite ?Eu, ?Eg; simpl; repeat split; try reflexivity;
    discriminate.
Qed.

(** ** SetupForwarder *)

(** C5, as stated, fails.  A request that carries two descriptors is not
    answered with [Error]: the first descriptor is adopted and the reply is
    [Ok]. *)
Lemma handleSetupForwarder_counterexample :
  let st := exampleState (exampleProfile PROFILE_SECCOMP_DISABLED false [] false)
              (exampleConfig false) ∅ in
  let rp := mkForwarderSuccessMsg "tcp" "127.0.0.1:9050" in
  let out := handleSetupForwarder st rp (mkMessage [3%Z; 4%Z] None) in
  out = (st, [EvGoAcceptLoop 3 "tcp" "127.0.0.1:9050"; EvRespond OkMsg []], None)
  /\ replies (snd (fst out)) = [(OkMsg, [])]
  /\ forall e, ~ In (ErrorMsg e, []) (replies (snd (fst out))).
Proof.
  cbv zeta. repeat split. intros e [H | []]. discriminate.
Qed.

(** C5, amended.  A SetupForwarder request needs at least one descriptor.
    Without any, the handler arms nothing, sends no reply of its own and
    returns an error to the IPC server, and init's state is as before;
    otherwise the first descriptor is adopted by a fresh accept loop and
    the reply [Ok] follows at once. *)
Theorem handleSetupForwarder_fds (st : initState) (rp : ForwarderSuccessMsg)
  (msg : Message) :
  match Fds msg with
  | [] =>
      exists e, handleSetupForwarder st rp msg = (st, [], Some e)
  | fd :: _ =>
      handleSetupForwarder st rp msg
      = (st, [EvGoAcceptLoop fd (Proto rp) (Addr rp); EvRespond OkMsg []], None)
  end.
Proof.
  unfold handleSetupForwarder. destruct (Fds msg); [eexists |]; reflexivity.
Qed.

(** ** The child-exit policy *)

Lemma with_children_id (st : initState) : with_children (children st) st = st.
Proof. destruct st; reflexivity. Qed.

Lemma removeChildProcess_delete (st : initState) (pid : Z) :
  fst (removeChildProcess st pid) = with_children (delete pid (children st)) st.
Proof.
  unfold removeChildProcess. destruct (children st !! pid) eqn:E; simpl.
  - reflexivity.
  - rewrite delete_id by exact E. now rewrite with_children_id.
Qed.

(** [anyTracked] is the loop over the registry: it finds a tracked child
    exactly when there is one. *)
Lemma anyTracked_false (ch : gmap Z procState) :
  anyTracked ch = false <-> forall q p, ch !! q = Some p -> track p = false.
Proof.
  unfold anyTracked. split.
  - intros H q p Hq. destruct (track p) eqn:Et; [| reflexivity].
    rewrite <- H. symmetry. apply existsb_exists. exists (q, p). split; [| exact Et].
    apply list_elem_of_In. now apply elem_of_map_to_list.
  - intros H. destruct (existsb _ _) eqn:E; [| reflexivity].
    apply existsb_exists in E as [[q p] [Hin Ht]].
    apply list_elem_of_In, elem_of_map_to_list in Hin.
    simpl in Ht. rewrite (H q p Hin) in Ht. discriminate.
Qed.

(** [getProcessExists] finds a watchdog exactly when some readable
    [cmdline] starts with a path whose base name is one of the names. *)
Lemma getProcessExists_true (os : OS.t) (pnames : list string) :
  getProcessExists os pnames = true
  <-> exists pr pname,
        In (Some pr) (OS.ProcCmdlines os) /\ In pname pnames
        /\ pname = GoPath.Base (untilNul pr) /\ pname <> ".".
Proof.
  unfold getProcessExists. rewrite existsb_exists. split.
  - intros [[pr|] [Hin H]]; [| discriminate].
    destruct (String.eqb_spec (GoPath.Base (untilNul pr)) ".") as [|Hne];
      [discriminate |].
    apply existsb_exists in H as [pname [Hp Heq]].
    apply String.eqb_eq in Heq. subst pname. eauto 10.
  - intros (pr & pname & Hin & Hp & -> & Hne). exists (Some pr). split; [exact Hin |].
    destruct (String.eqb_spec (GoPath.Base (untilNul pr)) ".") as [E|_];
      [contradiction |].
    apply existsb_exists. exists (GoPath.Base (untilNul pr)).
    split; [exact Hp | apply String.eqb_refl].
Qed.

Lemma getProcessExists_nil (os : OS.t) : getProcessExists os [] = false.
Proof.
  destruct (getProcessExists os []) eqn:E; [| reflexivity].
  apply getProcessExists_true in E as (pr & pname & _ & [] & _).
Qed.

(** C4, as stated, fails.  A watchdog name is configured and no process
    bears it; the child that exits is a helper that was never tracked, and
    no tracked child is left.  The claim asks for the last tracked child to
    exit, but the handler shuts the sandbox down. *)
Lemma handleChildExit_counterexample :
  let os := exampleOS (Ok 7%Z) [Some ("/usr/bin/other" +:+ String "000"%char "--flag")] in
  let shell := mkProcState (Cmd.mk "/bin/bash" ["/bin/bash"; "-i"] [] "" 1000 1000 [] None true)
                 false in
  let st := exampleState (exampleProfile PROFILE_SECCOMP_DISABLED false ["daemonX"] false)
              (exampleConfig false) {[ 5%Z := shell ]} in
  trackedPid st 5 = false
  /\ specAutoShutdown os st 5 = false
  /\ shutdownRequested st = false
  /\ shutdownRequested (fst (handleChildExit os st 5)) = true
  /\ snd (handleChildExit os st 5) = [EvIpcClose].
Proof. vm_compute. repeat split. Qed.

(** C4, amended.  On every child exit the pid leaves the registry.  If a
    tracked child is left nothing more happens.  Otherwise the exit is
    eligible when no watchdog names are configured and the child was
    tracked, or when names are configured and none of them is the base name
    of a running process, whether the child was tracked or not; and
    [shutdown] is called exactly when the exit is eligible and the profile
    has [AutoShutdown] yes. *)
Theorem handleChildExit_policy (os : OS.t) (st : initState) (pid : Z) :
  let st1 := with_children (delete pid (children st)) st in
  let watchdog := Profile.Watchdog (profile st) in
  let eligible :=
    match watchdog with
    | [] => trackedPid st pid
    | _ :: _ => negb (getProcessExists os watchdog)
    end in
  let go :=
    negb (anyTracked (children st1)) && eligible
    && String.eqb (Profile.AutoShutdown (profile st)) PROFILE_SHUTDOWN_YES in
  handleChildExit os st pid = (if go then shutdown st1 else (st1, []))
  /\ children (fst (handleChildExit os st pid)) = delete pid (children st).
Proof.
  intros st1 watchdog eligible go.
  assert (E : handleChildExit os st pid = (if go then shutdown st1 else (st1, []))).
  { unfold handleChildExit. rewrite removeChildProcess_delete. fold st1.
    subst go eligible watchdog. fold (trackedPid st pid).
    replace (profile st1) with (profile st) by reflexivity.
    destruct (anyTracked (children st1)); [reflexivity |]. simpl.
    destruct (Profile.Watchdog (profile st)); reflexivity. }
  split; [exact E |]. rewrite E.
  destruct go; [| reflexivity].
  unfold shutdown. destruct (shutdownRequested st1); reflexivity.
Qed.

(** ** shutdown *)

Lemma shutdown_requested (st : initState) :
  shutdownRequested (fst (shutdown st)) = true.
Proof.
  unfold shutdown. destruct (shutdownRequested st) eqn:E; [exact E | reflexivity].
Qed.

Lemma shutdown_again (st : initState) :
  shutdown (fst (shutdown st)) = (fst (shutdown st), []).
Proof.
  unfold shutdown at 1. now rewrite shutdown_requested.
Qed.

Lemma shutdownTimes_requested (n : nat) (st : initState) :
  shutdownRequested st = true -> shutdownTimes n st = (st, []).
Proof.
  intros H. induction n as [|n IH]; simpl; [reflexivity |].
  unfold shutdown. rewrite H, IH. reflexivity.
Qed.

Lemma shutdownTimes_once (n : nat) (st : initState) :
  shutdownTimes (S n) st = shutdown st.
Proof.
  simpl. destruct (shutdown st) as [st1 evs1] eqn:E.
  assert (H : shutdownRequested st1 = true).
  { pose proof (shutdown_requested st) as H. now rewrite E in H. }
  rewrite (shutdownTimes_requested n st1 H). now rewrite app_nil_r.
Qed.

Lemma countEv_app (f : Event -> bool) (a b : list Event) :
  countEv f (a ++ b) = (countEv f a + countEv f b)%nat.
Proof. unfold countEv. now rewrite List.filter_app, length_app. Qed.

Lemma count_signals (pid : Z) (l : list (Z * procState)) :
  NoDup (map fst l) ->
  countEv (isSignalTo pid) (map (fun c => EvSignalInterrupt (fst c)) l)
  = if decide (pid ∈ map fst l) then 1%nat else 0%nat.
Proof.
  unfold countEv. induction l as [|[q p] l IH]; intros Hnd; simpl.
  - reflexivity.
  - apply NoDup_cons in Hnd as [Hq Hnd]. specialize (IH Hnd).
    destruct (decide (pid ∈ map fst l)) as [Hin | Hnin];
      destruct (decide (pid ∈ q :: map fst l)) as [Hin' | Hnin'];
      destruct (Z.eqb_spec q pid) as [-> | Hne]; simpl; rewrite IH;
      try reflexivity; exfalso.
    + contradiction.
    + apply Hnin'. now apply list_elem_of_further.
    + apply Hnin'. now apply list_elem_of_further.
    + apply elem_of_cons in Hin' as [? | ?]; [congruence | contradiction].
    + apply Hnin'. apply list_elem_of_here.
Qed.

Lemma count_signals_registry (pid : Z) (st : initState) :
  countEv (isSignalTo pid) (map (fun c => EvSignalInterrupt (fst c)) (childrenVector st))
  = match children st !! pid with Some _ => 1%nat | None => 0%nat end.
Proof.
  unfold childrenVector. rewrite count_signals by apply NoDup_fst_map_to_list.
  destruct (children st !! pid) as [p|] eqn:E; case_decide as H; try reflexivity.
  - exfalso. apply H. apply list_elem_of_fmap. exists (pid, p). split; [reflexivity |].
    now apply elem_of_map_to_list.
  - apply list_elem_of_fmap in H as [[q p] [-> Hin]].
    apply elem_of_map_to_list in Hin. simpl in E. congruence.
Qed.

(** C8.  [shutdown] called [n] times in a row, [n] at least one, is
    [shutdown] called once: every call after the first changes nothing and
    does nothing.  From a state where no shutdown was requested, the calls
    together send one interrupt to each registered child and to no other
    pid, stop xpra at most once and close the IPC server at most once. *)
Theorem shutdown_idempotent (n : nat) (st : initState) :
  (1 <= n)%nat ->
  shutdownTimes n st = shutdown st
  /\ shutdown (fst (shutdown st)) = (fst (shutdown st), [])
  /\ (shutdownRequested st = false ->
      let evs := snd (shutdownTimes n st) in
      (forall pid,
          countEv (isSignalTo pid) evs
          = match children st !! pid with Some _ => 1%nat | None => 0%nat end)
      /\ (countEv isXpraStop evs <= 1)%nat
      /\ (countEv isIpcClose evs <= 1)%nat).
Proof.
  intros Hn. destruct n as [|n]; [lia |].
  rewrite shutdownTimes_once. split; [reflexivity |].
  split; [apply shutdown_again |].
  intros Hreq evs. subst evs. unfold shutdown. rewrite Hreq. simpl.
  set (sig := map _ (childrenVector st)).
  assert (Hx : forall f, (forall pid, f (EvSignalInterrupt pid) = false) ->
                         countEv f sig = 0%nat).
  { intros f Hf. subst sig. unfold countEv.
    induction (childrenVector st) as [|c l IH]; simpl; [reflexivity |].
    now rewrite Hf. }
  repeat split.
  - intros pid. rewrite !countEv_app. subst sig. rewrite count_signals_registry.
    unfold shutdownXpra. destruct (xpra st), (ipcServer st), (children st !! pid);
      reflexivity.
  - rewrite !countEv_app, Hx by reflexivity.
    unfold shutdownXpra, countEv. destruct (xpra st), (ipcServer st); simpl; lia.
  - rewrite !countEv_app, Hx by reflexivity.
    unfold shutdownXpra, countEv. destruct (xpra st), (ipcServer st); simpl; lia.
Qed.

Lemma shutdown_idempotent_witness :
  let p := mkProcState (Cmd.mk "/usr/bin/editor" ["/usr/bin/editor"] [] "" 1000 1000 [] None false)
             true in
  let st := exampleState (exampleProfile PROFILE_SECCOMP_DISABLED false [] false)
              (exampleConfig false) {[ 42%Z := p ]} in
  (1 <= 3)%nat
  /\ shutdownTimes 3 st = shutdown st
  /\ countEv (isSignalTo 42) (snd (shutdownTimes 3 st)) = 1%nat
  /\ (countEv isXpraStop (snd (shutdownTimes 3 st)) <= 1)%nat
  /\ (countEv isIpcClose (snd (shutdownTimes 3 st)) <= 1)%nat.
Proof.
  intros p st.
  assert (H3 : (1 <= 3)%nat) by (apply le_S, le_S, le_n).
  destruct (shutdown_idempotent 3 st H3) as (H & _ & Hev).
  destruct (Hev eq_refl) as (Hsig & Hx & Hipc).
  split; [exact H3 |]. split; [exact H |].
  split; [exact (Hsig 42%Z) |]. split; assumption.
Defined.

(** ** The ephemeral filter *)

(** The backward loop with its deletions in place is a filter: it never
    indexes out of range, and what it leaves are the elements that [del]
    rejects, in their order. *)
Lemma deleteBackwards_prefix {A} (del : A -> bool) (n : nat) (s : list A) :
  (n <= length s)%nat ->
  deleteBackwards del n s
  = Some (List.filter (fun x => negb (del x)) (take n s) ++ drop n s).
Proof.
  revert s. induction n as [|i IH]; intros s Hn; cbn [deleteBackwards].
  - reflexivity.
  - destruct (lookup_lt_is_Some_2 s i) as [x Hx]; [lia |].
    rewrite Hx. rewrite (take_S_r _ _ _ Hx), List.filter_app. simpl.
    destruct (del x) eqn:Ed; simpl.
    + unfold removeAt. rewrite IH.
      * assert (Hlen : i = length (take i s)) by (rewrite length_take; lia).
        rewrite take_app_length' by exact Hlen.
        rewrite drop_app_length' by exact Hlen.
        now rewrite app_nil_r.
      * rewrite length_app, length_take. lia.
    + rewrite IH by lia. rewrite <- app_assoc. simpl.
      now rewrite (drop_S _ _ _ Hx).
Qed.

Lemma deleteBackwards_filter {A} (del : A -> bool) (s : list A) :
  deleteBackwards del (length s) s = Some (List.filter (fun x => negb (del x)) s).
Proof.
  rewrite deleteBackwards_prefix by lia.
  now rewrite firstn_all, drop_all, app_nil_r.
Qed.

Lemma dropsWhitelistItem_ephemeral (wl : WhitelistItem.t) :
  dropsWhitelistItem wl = whitelistItemIsEphemeral wl.
Proof.
  unfold dropsWhitelistItem, whitelistItemIsEphemeral.
  now destruct (String.eqb (WhitelistItem.Path wl) "").
Qed.

Lemma whitelistItemIsEphemeral_mountPoint (wl : WhitelistItem.t) :
  whitelistItemIsEphemeral wl
  = negb (String.eqb (WhitelistItem.Path wl) "") && isEphemeralPath (mountPoint wl).
Proof.
  unfold whitelistItemIsEphemeral, mountPoint.
  destruct (String.eqb (WhitelistItem.Path wl) ""); simpl; [reflexivity |].
  now destruct (String.eqb (WhitelistItem.Target wl) "").
Qed.

Lemma runOps_In (ok : FsOp -> bool) (ops : list FsOp) (o : FsOp) :
  In o (fst (runOps ok ops)) -> In o ops.
Proof.
  induction ops as [|a ops IH]; simpl; [tauto |].
  destruct (ok a).
  - destruct (runOps ok ops) as [done b]. simpl in *. intros [-> | H]; auto.
  - simpl. intros [-> | []]. now left.
Qed.

Lemma bindWhitelist_In (wlist : list WhitelistItem.t) (p t : string)
  (f : list BindFlag) :
  In (OpBindTo p t f) (bindWhitelist wlist) ->
  exists wl, In wl wlist /\ WhitelistItem.Path wl = p /\ WhitelistItem.Target wl = t
             /\ p <> "".
Proof.
  unfold bindWhitelist. rewrite in_flat_map. intros [wl [Hin H]].
  destruct (String.eqb_spec (WhitelistItem.Path wl) "") as [|Hne]; [destruct H |].
  destruct H as [H | []]. injection H as <- <- _. eauto.
Qed.

Lemma createBindSymlinks_no_bind (wlist : list WhitelistItem.t) (o : FsOp) :
  In o (createBindSymlinks wlist) ->
  match o with OpBindTo _ _ _ => False | _ => True end.
Proof.
  unfold createBindSymlinks. rewrite in_flat_map. intros [wl [_ H]].
  destruct (String.eqb (WhitelistItem.Symlink wl) ""); [destruct H |].
  destruct H as [<- | []]. exact I.
Qed.

Lemma applyBlacklist_no_bind (blist : list BlacklistItem.t) (o : FsOp) :
  In o (applyBlacklist blist) ->
  match o with OpBindTo _ _ _ => False | _ => True end.
Proof.
  unfold applyBlacklist. rewrite in_flat_map. intros [bl [_ H]].
  destruct (String.eqb (BlacklistItem.Path bl) ""); [destruct H |].
  destruct H as [<- | []]. exact I.
Qed.

(** After the two whitelists nothing in [setupFilesystem] is a bind of a
    whitelist item. *)
Lemma setupFilesystem_tail_no_bind (wlist : list WhitelistItem.t)
  (bl1 bl2 : list BlacklistItem.t) (x y z : bool) (o : FsOp) :
  In o (createBindSymlinks wlist
          ++ applyBlacklist bl1
          ++ applyBlacklist bl2
          ++ (if x then [OpBindXpra] else [])
          ++ [OpChroot]
          ++ (if y then [OpMountFullDev; OpMountShm] else [])
          ++ [OpMountPts]
          ++ (if z then [OpMountProc; OpMountSys] else [])) ->
  match o with OpBindTo _ _ _ => False | _ => True end.
Proof.
  intros H.
  apply in_app_or in H as [H | H]; [now apply createBindSymlinks_no_bind in H |].
  apply in_app_or in H as [H | H]; [now apply applyBlacklist_no_bind in H |].
  apply in_app_or in H as [H | H]; [now apply applyBlacklist_no_bind in H |].
  destruct x, y, z; simpl in H;
    repeat (destruct H as [<- | H]; [exact I |]); destruct H.
Qed.

(** C1, as stated, fails.  In an ephemeral sandbox an item whose path is
    under [${HOME}] but whose target is not stays on the whitelist, and its
    path is bound. *)
Lemma ephemeral_filter_counterexample :
  let item := plainItem "${HOME}/.config/x" "/opt/x" in
  let st := exampleEphemeral [item; plainItem "/etc/ssl/certs" ""] [] in
  ephemeral st = true
  /\ isEphemeralPath (WhitelistItem.Path item) = true
  /\ filterWhitelist st = Some st
  /\ In item (Profile.Whitelist (profile st))
  /\ setupFilesystem (fun _ => true) st [] []
     = Some (st, [OpSetupRootfs; OpBindTo "${HOME}/.config/x" "/opt/x" [];
                  OpBindTo "/etc/ssl/certs" "" []; OpChroot; OpMountPts;
                  OpMountProc; OpMountSys], true).
Proof. vm_compute. repeat split. now left. Qed.

(** C1, amended.  In an ephemeral sandbox the builder, before it binds
    anything, drops from the profile's whitelist every item with a path
    whose place in the sandbox, its target or else its path, begins with
    [${HOME}] or [${XDG_], and [runInit] drops every shared folder that
    begins so; the other items stay, in their order.  Afterwards no item of
    the profile's whitelist that has a path lands under either prefix, and
    every bind made for the profile's whitelist is of such an item. *)
Theorem ephemeral_filter (st : initState) :
  ephemeral st = true ->
  exists st' st'',
    filterWhitelist st = Some st'
    /\ Profile.Whitelist (profile st')
       = List.filter (fun wl => negb (whitelistItemIsEphemeral wl))
           (Profile.Whitelist (profile st))
    /\ Forall (fun wl => WhitelistItem.Path wl <> "" -> isEphemeralPath (mountPoint wl) = false)
         (Profile.Whitelist (profile st'))
    /\ filterSharedFolders st = Some st''
    /\ Profile.SharedFolders (profile st'')
       = List.filter (fun sf => negb (isEphemeralPath sf))
           (Profile.SharedFolders (profile st))
    /\ Forall (fun sf => isEphemeralPath sf = false) (Profile.SharedFolders (profile st''))
    /\ forall ok extra_whitelist extra_blacklist,
         ok OpSetupRootfs = true ->
         exists ops b,
           setupFilesystem ok st extra_whitelist extra_blacklist = Some (st', ops, b)
           /\ forall p t f,
                In (OpBindTo p t f) ops ->
                (exists wl, In wl extra_whitelist /\ WhitelistItem.Path wl = p
                            /\ WhitelistItem.Target wl = t)
                \/ (exists wl, In wl (Profile.Whitelist (profile st'))
                               /\ WhitelistItem.Path wl = p /\ WhitelistItem.Target wl = t
                               /\ isEphemeralPath (mountPoint wl) = false).
Proof.
  intros He.
  set (wl' := List.filter (fun wl => negb (whitelistItemIsEphemeral wl))
                (Profile.Whitelist (profile st))).
  set (sf' := List.filter (fun sf => negb (isEphemeralPath sf))
                (Profile.SharedFolders (profile st))).
  assert (Hfw : filterWhitelist st
                = Some (with_profile (Profile.with_Whitelist wl' (profile st)) st)).
  { unfold filterWhitelist. rewrite He, deleteBackwards_filter.
    subst wl'. do 3 f_equal. apply filter_ext. intros a.
    now rewrite dropsWhitelistItem_ephemeral. }
  assert (Hall : Forall (fun wl => WhitelistItem.Path wl <> "" ->
                                   isEphemeralPath (mountPoint wl) = false) wl').
  { apply List.Forall_forall. intros wl Hin Hp. subst wl'.
    apply filter_In in Hin as [_ Hin]. rewrite whitelistItemIsEphemeral_mountPoint in Hin.
    apply String.eqb_neq in Hp. rewrite Hp in Hin. simpl in Hin.
    now apply negb_true_iff in Hin. }
  exists (with_profile (Profile.with_Whitelist wl' (profile st)) st),
         (with_profile (Profile.with_SharedFolders sf' (profile st)) st).
  split; [exact Hfw |]. split; [reflexivity |]. split; [exact Hall |].
  split; [unfold filterSharedFolders; now rewrite He, deleteBackwards_filter |].
  split; [reflexivity |].
  split.
  { apply List.Forall_forall. intros sf Hin. subst sf'.
    apply filter_In in Hin as [_ Hin]. now apply negb_true_iff in Hin. }
  intros ok ewl ebl Hok. unfold setupFilesystem. rewrite Hok, Hfw. simpl.
  match goal with |- context [runOps ok ?l] => set (plan := l) end.
  pose proof (runOps_In ok plan) as Hrun.
  destruct (runOps ok plan) as [done b]. simpl in Hrun.
  exists (OpSetupRootfs :: done), b. split; [reflexivity |].
  intros p t f [Hd | Hin]; [discriminate |].
  apply Hrun in Hin. subst plan.
  apply in_app_or in Hin as [Hin | Hin].
  { left. apply bindWhitelist_In in Hin as (wl & ? & ? & ? & _). eauto. }
  apply in_app_or in Hin as [Hin | Hin].
  { right. apply bindWhitelist_In in Hin as (wl & Hwl & Hp & Ht & Hne).
    exists wl. repeat split; try assumption.
    rewrite List.Forall_forall in Hall. apply (Hall wl Hwl). congruence. }
  exfalso. now apply (setupFilesystem_tail_no_bind _ _ _ _ _ _ _ Hin).
Qed.

Lemma ephemeral_filter_witness :
  let st := exampleEphemeral
              [plainItem "${HOME}/.config/x" ""; plainItem "/etc/ssl/certs" ""]
              ["${HOME}/Documents"; "/srv/share"] in
  ephemeral st = true
  /\ exists st' st'',
       filterWhitelist st = Some st'
       /\ Profile.Whitelist (profile st') = [plainItem "/etc/ssl/certs" ""]
       /\ filterSharedFolders st = Some st''
       /\ Profile.SharedFolders (profile st'') = ["/srv/share"].
Proof.
  intros st. split; [reflexivity |].
  destruct (ephemeral_filter st eq_refl)
    as (st' & st'' & H1 & H2 & _ & H3 & H4 & _).
  exists st', st''. repeat split; assumption.
Defined.

(** ** The OpenVPN configuration translator *)

Section OpenVPNFacts.
Import OpenVPN.
Variables (fs : FS) (c : Config.t) (auth runtoken : string).

Lemma scanLines_short (st : PState) (l : string) (rest : list string) :
  tooLong l = false ->
  scanLines fs c auth runtoken st (l :: rest)
  = match step fs c auth runtoken st (dropCR l) with
    | (st', Some e) => (st', Some e)
    | (st', None) => scanLines fs c auth runtoken st' rest
    end.
Proof. intros H. unfold scanLines. cbn [scanner]. now rewrite H. Qed.

Lemma scanLines_long (st : PState) (l : string) (rest : list string) :
  tooLong l = true ->
  scanLines fs c auth runtoken st (l :: rest)
  = scanLoop fs c auth runtoken st
      [None; Some (dropCR (substring 0 (N.to_nat MaxScanTokenSize) l))].
Proof. intros H. unfold scanLines. cbn [scanner]. now rewrite H. Qed.












(** Over lines that are short the scanner goes from one to the next. *)
Lemma scanLines_app (pre post : list string) (st stp : PState) :
  Forall (fun l => tooLong l = false) pre ->
  scanLines fs c auth runtoken st pre = (stp, None) ->
  scanLines fs c auth runtoken st (pre ++ post)
  = scanLines fs c auth runtoken stp post.
Proof.
  intros Hshort. revert st.
  induction Hshort as [|l pre Hl _ IH]; intros st; cbn [app].
  - now intros [= ->].
  - rewrite !scanLines_short by exact Hl.
    destruct (step fs c auth runtoken st (dropCR l)) as [st1 [e1|]]; [discriminate |].
    apply IH.
Qed.


Lemma scanLines_withLines (l' lines : list string) (st : PState) :
  scanLines (withLines fs l') c auth runtoken st lines
  = scanLines fs c auth runtoken st lines.
Proof.
  unfold scanLines. generalize (scanner lines) as scans. intros scans. revert st.
  induction scans as [|[l|] scans IH]; intros st; cbn [scanLoop]; [reflexivity | |].
  - change (step (withLines fs l') c auth runtoken st l)
      with (step fs c auth runtoken st l).
    destruct (step fs c auth runtoken st l) as [st1 [e|]]; [reflexivity | apply IH].
  - destruct (mode st); [reflexivity | apply IH].
Qed.
End OpenVPNFacts.




(** What [StartOpenVPN] runs is [/usr/sbin/openvpn] with the arguments of
    [parseOpenVPNConf] for the configuration under the configuration
    directory, as root with the group of the configuration. *)
Lemma StartOpenVPN_running (fs : OpenVPN.FS) (ovpngroup : result string)
  (Atoi : string -> result Z) (Start : Cmd.t -> result Z) (c : Config.t)
  (conf ip table dev auth runtoken : string) (cmd : Cmd.t) :
  OpenVPN.StartOpenVPN fs ovpngroup Atoi Start c conf ip table dev auth runtoken
  = OpenVPN.Running cmd ->
  exists groupGid ovpngid,
    ovpngroup = Ok groupGid /\ Atoi groupGid = Ok ovpngid
    /\ OpenVPN.parseOpenVPNConf fs c (GoPath.Join [Config.OpenVPNConfDir c; conf])
         ip table dev auth runtoken
       = (tl (Cmd.Args cmd), None)
    /\ Cmd.Path cmd = "/usr/sbin/openvpn"
    /\ hd "" (Cmd.Args cmd) = "/usr/sbin/openvpn"
    /\ Cmd.Uid cmd = 0%Z /\ Cmd.Gid cmd = (ovpngid mod 2 ^ 32)%Z
    /\ Cmd.Groups cmd = [].
Proof.
  unfold OpenVPN.StartOpenVPN.
  destruct (OpenVPN.parseOpenVPNConf fs c _ ip table dev auth runtoken)
    as [cmdArgs [e|]]; [discriminate |].
  destruct ovpngroup as [groupGid | e]; [| discriminate].
  destruct (Atoi groupGid) as [ovpngid | e] eqn:Ea; [| discriminate].
  destruct (Start _); [| discriminate].
  intros [= <-]. exists groupGid, ovpngid. now repeat split.
Qed.

(** ** The scenarios of the specification *)

(** Plain launch: the editor is run as it is, as the sandbox user, and
    when it exits init shuts down. *)
Example scenario_plain_launch :
  let os := exampleOS (Ok 7%Z) [] in
  let st := exampleState (exampleProfile PROFILE_SECCOMP_DISABLED false [] false)
              (exampleConfig false) ∅ in
  let '(st1, evs, _) := handleRunProgram os st (mkRunProgramMsg "" "" ["a.txt"] false) in
  replies evs = [(OkMsg, [])]
  /\ map Cmd.Args (startedCmds evs) = [["/usr/bin/editor"; "a.txt"]]
  /\ map Cmd.Uid (startedCmds evs) = [1000%Z]
  /\ snd (handleChildExit os st1 42) = [EvIpcClose].
Proof. vm_compute. repeat split. Qed.

(** Seccomp whitelist, enforced. *)
Example scenario_whitelist_enforced :
  let os := exampleOS (Ok 7%Z) [] in
  let st := exampleState (exampleProfile PROFILE_SECCOMP_WHITELIST true [] false)
              (exampleConfig false) ∅ in
  Cmd.Args (applicationCmd os st "" "" ["a.txt"])
  = ["/usr/local/bin/oz-seccomp"; "-mode=whitelist"; "/usr/bin/editor"; "a.txt"].
Proof. reflexivity. Qed.

(** Shell authorization. *)
Example scenario_shell_authorization :
  let os := exampleOS (Ok 7%Z) [] in
  let st := exampleState (exampleProfile PROFILE_SECCOMP_DISABLED false [] false)
              (exampleConfig false) ∅ in
  let rs := mkRunShellMsg "xterm" in
  replies (snd (fst (handleRunShell os st rs (mkMessage [] (Some (mkUcred 1 0 0))))))
  = [(ErrorMsg "Cannot open shell because allowRootShell is disabled", [])]
  /\ replies (snd (fst (handleRunShell os st rs (mkMessage [] (Some (mkUcred 9 1000 1000))))))
     = [(OkMsg, [7%Z])].
Proof. vm_compute. split; reflexivity. Qed.

(** Watchdog stay-alive: while [daemonX] runs, the exit of the program
    does not shut init down; once it is gone, it does. *)
Example scenario_watchdog :
  let p := mkProcState (Cmd.mk "/usr/bin/editor" ["/usr/bin/editor"] [] "" 1000 1000 [] None false)
             true in
  let st := exampleState (exampleProfile PROFILE_SECCOMP_DISABLED false ["daemonX"] false)
              (exampleConfig false) {[ 42%Z := p ]} in
  let busy := exampleOS (Ok 7%Z) [None; Some ("/usr/sbin/daemonX" +:+ String "000"%char "-f")] in
  let idle := exampleOS (Ok 7%Z) [Some "/sbin/init"] in
  shutdownRequested (fst (handleChildExit busy st 42)) = false
  /\ shutdownRequested (fst (handleChildExit idle st 42)) = true.
Proof. vm_compute. split; reflexivity. Qed.

Example lineTokens_comment :
  OpenVPN.lineTokens (OpenVPN.fields "  remote   host 1194 # comment")
  = ["remote"; "host"; "1194"].
Proof. reflexivity. Qed.

Example lineTokens_last_hash :
  OpenVPN.lineTokens (OpenVPN.fields "a#b#c d") = ["a#b"].
Proof. reflexivity. Qed.

(** An inline block swallows its lines, a filtered directive among them. *)
Example parseOpenVPNConf_inline_block :
  fst (OpenVPN.parseOpenVPNConf
         (exampleFS ["<cert>"; "user x"; "</cert>"; "ca ca.crt"; "daemon"])
         (exampleConfig false) "f" "10.0.0.1" "oz" "oz0" "auth.txt" "tok")
  = ["--client"; "--cert"; "/run/oz/tok-cert.cert"; "--ca"; "/etc/oz/openvpn/ca.crt"]
      ++ OpenVPN.extraArgs (exampleConfig false) "10.0.0.1" "oz" "oz0" "tok".
Proof. reflexivity. Qed.

(** * Further properties *)

(** ** The child registry *)

Lemma with_children_twice (a b : gmap Z procState) (st : initState) :
  with_children a (with_children b st) = with_children a st.
Proof. reflexivity. Qed.

(** X1.  A pid that is not registered can be added and removed again and
    the registry is as before; while it is registered it has the track
    flag it was added with and the flags of the other pids are untouched;
    removing a pid that is not registered reports so and changes
    nothing. *)
Theorem registry_add_remove (st : initState) (c : Cmd.t) (pid : Z) (trk : bool) :
  children st !! pid = None ->
  removeChildProcess (addChildProcess st c pid trk) pid = (st, true)
  /\ trackedPid (addChildProcess st c pid trk) pid = trk
  /\ (forall q, q <> pid ->
                trackedPid (addChildProcess st c pid trk) q = trackedPid st q)
  /\ removeChildProcess st pid = (st, false).
Proof.
  intros Hfresh. repeat split.
  - unfold removeChildProcess, addChildProcess. cbn [children with_children].
    rewrite lookup_insert_eq. rewrite with_children_twice.
    rewrite delete_insert_id by exact Hfresh. now rewrite with_children_id.
  - unfold trackedPid, addChildProcess. cbn [children with_children].
    now rewrite lookup_insert_eq.
  - intros q Hq. unfold trackedPid, addChildProcess. cbn [children with_children].
    rewrite lookup_insert_ne by congruence. reflexivity.
  - unfold removeChildProcess. now rewrite Hfresh.
Qed.

Lemma registry_add_remove_witness :
  let st := exampleState (exampleProfile PROFILE_SECCOMP_DISABLED false [] false)
              (exampleConfig false) ∅ in
  let c := Cmd.mk "/bin/bash" ["/bin/bash"; "-i"] [] "" 1000 1000 [] None true in
  removeChildProcess (addChildProcess st c 9 false) 9 = (st, true).
Proof.
  intros st c. exact (proj1 (registry_add_remove st c 9%Z false eq_refl)).
Defined.

(** ** RunProgram *)

Lemma startChild_started (os : OS.t) (st : initState) (c : Cmd.t) (trk : bool) :
  startedCmds (snd (fst (startChild os st c trk))) = [c].
Proof. unfold startChild. destruct (OS.Start os c); reflexivity. Qed.

Lemma startedCmds_app (a b : list Event) :
  startedCmds (a ++ b) = startedCmds a ++ startedCmds b.
Proof. unfold startedCmds. apply flat_map_app. Qed.

(** X2.  With no dconf file to load, whatever a RunProgram request asks
    for and whichever launcher serves it, a command it starts runs with
    the uid and gid of the handshake, and its groups are the sandbox gid
    and then the gids of the handshake's map, each once. *)
Theorem handleRunProgram_credentials (os : OS.t) (st : initState) (rp : RunProgramMsg) :
  Profile.DConfPath (profile st) = "" ->
  Forall (fun c => Cmd.Uid c = uid st /\ Cmd.Gid c = gid st
                   /\ exists mapped,
                        Cmd.Groups c = gid st :: mapped
                        /\ Permutation mapped (map snd (map_to_list (gids st))))
    (startedCmds (snd (fst (handleRunProgram os st rp)))).
Proof.
  intros _. unfold handleRunProgram.
  destruct (Profile.IsSandboxedTerminal (profile st)).
  - unfold launchTerminalApplication.
    destruct (if Nat.ltb 0 _ then _ else _) as [u | e].
    + pose proof (startChild_started os st
                    (terminalApplicationCmd os st (rpPath rp) (rpPwd rp) (rpArgs rp)
                       (rpNoExec rp)) false) as Hs.
      destruct (startChild os st _ false) as [[st' evs] [r | e]];
        simpl in *; rewrite startedCmds_app, Hs; simpl;
        (constructor; [| constructor]); (split; [reflexivity |]);
        (split; [reflexivity |]); eexists; (split; [reflexivity |]);
        reflexivity.
    + simpl. constructor.
  - destruct (rpNoExec rp); simpl; [constructor |].
    unfold launchApplication.
    pose proof (startChild_started os st
                  (applicationCmd os st (rpPath rp) (rpPwd rp) (rpArgs rp)) true) as Hs.
    destruct (startChild os st _ true) as [[st' evs] [r | e]];
      simpl in *; rewrite startedCmds_app, Hs; simpl;
      (constructor; [| constructor]);
      unfold applicationCmd; destruct (seccompWrap st _ _);
      (split; [reflexivity |]); (split; [reflexivity |]);
      eexists; (split; [reflexivity |]); reflexivity.
Qed.

Lemma handleRunProgram_credentials_witness :
  let os := exampleOS (Ok 7%Z) [] in
  let st := mkInitState (exampleProfile PROFILE_SECCOMP_WHITELIST false [] false)
              (exampleConfig false) ["PATH=/usr/bin:/bin"] ∅ 1000 1000
              {[ "video" := 44%Z ]} (mkUser "/home/user") false true false false in
  let rp := mkRunProgramMsg "" "" ["a.txt"] false in
  map (fun c => (Cmd.Path c, Cmd.Uid c, Cmd.Gid c, Cmd.Groups c))
    (startedCmds (snd (fst (handleRunProgram os st rp))))
  = [("/usr/local/bin/oz-seccomp-tracer", 1000%Z, 1000%Z, [1000%Z; 44%Z])]
  /\ Forall (fun c => Cmd.Uid c = 1000%Z /\ Cmd.Gid c = 1000%Z
                      /\ exists mapped,
                           Cmd.Groups c = 1000%Z :: mapped
                           /\ Permutation mapped [44%Z])
       (startedCmds (snd (fst (handleRunProgram os st rp)))).
Proof.
  intros os st rp. split; [reflexivity |].
  exact (handleRunProgram_credentials os st rp eq_refl).
Defined.

Lemma argPolicy_reject (st : initState) (a b : list string) :
  Profile.RejectUserArgs (profile st) = true -> argPolicy st a = argPolicy st b.
Proof. intros H. unfold argPolicy. now rewrite H. Qed.

(** X3.  Under [RejectUserArgs] the arguments the caller sends with a
    RunProgram request have no effect at all: the request with any other
    arguments has the same outcome, state, events and replies. *)
Theorem handleRunProgram_rejects_user_args (os : OS.t) (st : initState)
  (rp : RunProgramMsg) (args' : list string) :
  Profile.RejectUserArgs (profile st) = true ->
  handleRunProgram os st (mkRunProgramMsg (rpPath rp) (rpPwd rp) args' (rpNoExec rp))
  = handleRunProgram os st rp.
Proof.
  intros H. unfold handleRunProgram, launchTerminalApplication, launchApplication,
    terminalApplicationCmd, applicationCmd.
  cbn [rpPath rpPwd rpArgs rpNoExec].
  now rewrite (argPolicy_reject st args' (rpArgs rp) H).
Qed.

Lemma handleRunProgram_rejects_user_args_witness :
  let os := exampleOS (Ok 7%Z) [] in
  let p := Profile.mk "editor" "/usr/bin/editor" [] [] [] false false
             PROFILE_SECCOMP_DISABLED false [] "yes" true ["--safe"] false "" in
  let st := exampleState p (exampleConfig false) ∅ in
  handleRunProgram os st (mkRunProgramMsg "" "" ["--evil"] false)
  = handleRunProgram os st (mkRunProgramMsg "" "" [] false)
  /\ map Cmd.Args (startedCmds (snd (fst (handleRunProgram os st
                                            (mkRunProgramMsg "" "" ["--evil"] false)))))
     = [["/usr/bin/editor"; "--safe"]].
Proof.
  intros os p st. split; [| reflexivity].
  exact (handleRunProgram_rejects_user_args os st (mkRunProgramMsg "" "" [] false)
           ["--evil"] eq_refl).
Defined.

(** ** From launch to shutdown *)

Lemma handleChildExit_fresh_tracked (os : OS.t) (st : initState) (c : Cmd.t)
  (pid : Z) (trk : bool) :
  children st !! pid = None ->
  fst (removeChildProcess (addChildProcess st c pid trk) pid) = st.
Proof.
  intros H. unfold removeChildProcess, addChildProcess. cbn [children with_children].
  rewrite lookup_insert_eq. cbn [fst]. rewrite with_children_twice.
  rewrite delete_insert_id by exact H. apply with_children_id.
Qed.

(** X5.  A plain application is launched under a pid that is new to the
    registry and no other tracked child is there.  With no watchdog
    configured and [AutoShutdown] yes, the exit of that process shuts the
    sandbox down: the handler does what [shutdown] does on the state
    before the launch. *)
Theorem launch_then_exit_shuts_down (os : OS.t) (st : initState)
  (rp : RunProgramMsg) (pid : Z) :
  Profile.IsSandboxedTerminal (profile st) = false ->
  rpNoExec rp = false ->
  OS.Start os (applicationCmd os st (rpPath rp) (rpPwd rp) (rpArgs rp)) = Ok pid ->
  children st !! pid = None ->
  anyTracked (children st) = false ->
  Profile.Watchdog (profile st) = [] ->
  Profile.AutoShutdown (profile st) = PROFILE_SHUTDOWN_YES ->
  handleChildExit os (fst (fst (handleRunProgram os st rp))) pid = shutdown st.
Proof.
  intros Hterm Hno Hstart Hfresh Htr Hw Hauto.
  unfold handleRunProgram, launchApplication, startChild.
  rewrite Hterm, Hno. cbn [negb]. rewrite Hstart. cbn [fst].
  set (c := applicationCmd os st (rpPath rp) (rpPwd rp) (rpArgs rp)).
  unfold handleChildExit.
  rewrite (handleChildExit_fresh_tracked os st c pid true Hfresh).
  rewrite Htr, Hw, Hauto. cbn [length Nat.ltb Nat.leb].
  unfold addChildProcess. cbn [children with_children].
  rewrite lookup_insert_eq. reflexivity.
Qed.

Lemma launch_then_exit_shuts_down_witness :
  let os := exampleOS (Ok 7%Z) [] in
  let st := exampleState (exampleProfile PROFILE_SECCOMP_DISABLED false [] false)
              (exampleConfig false) ∅ in
  let rp := mkRunProgramMsg "" "" ["a.txt"] false in
  handleChildExit os (fst (fst (handleRunProgram os st rp))) 42 = shutdown st
  /\ snd (shutdown st) = [EvIpcClose].
Proof.
  intros os st rp. split; [| reflexivity].
  exact (launch_then_exit_shuts_down os st rp 42%Z eq_refl eq_refl eq_refl eq_refl
           eq_refl eq_refl eq_refl).
Defined.

(** X6.  In a sandboxed terminal the application is registered untracked,
    so with no watchdog configured its exit never shuts the sandbox down,
    whatever [AutoShutdown] says and whoever else is registered: the
    handler only takes the pid out of the registry again. *)
Theorem terminal_application_exit_keeps_sandbox (os : OS.t) (st : initState)
  (rp : RunProgramMsg) (pid : Z) :
  Profile.IsSandboxedTerminal (profile st) = true ->
  Profile.DConfPath (profile st) = "" ->
  OS.Start os (terminalApplicationCmd os st (rpPath rp) (rpPwd rp) (rpArgs rp)
                 (rpNoExec rp)) = Ok pid ->
  children st !! pid = None ->
  Profile.Watchdog (profile st) = [] ->
  handleChildExit os (fst (fst (handleRunProgram os st rp))) pid = (st, []).
Proof.
  intros Hterm Hdconf Hstart Hfresh Hw.
  unfold handleRunProgram, launchTerminalApplication, startChild.
  rewrite Hterm, Hdconf. cbn [String.length Nat.ltb Nat.leb]. rewrite Hstart. cbn [fst].
  set (c := terminalApplicationCmd os st _ _ _ _).
  unfold handleChildExit.
  rewrite (handleChildExit_fresh_tracked os st c pid false Hfresh).
  rewrite Hw. cbn [length Nat.ltb Nat.leb].
  unfold addChildProcess. cbn [children with_children].
  rewrite lookup_insert_eq. cbn [track andb].
  now destruct (anyTracked (children st)).
Qed.

Lemma terminal_application_exit_keeps_sandbox_witness :
  let os := exampleOS (Ok 7%Z) [] in
  let st := exampleState (exampleProfile PROFILE_SECCOMP_DISABLED false [] true)
              (exampleConfig false) ∅ in
  let rp := mkRunProgramMsg "" "" [] false in
  Profile.AutoShutdown (profile st) = PROFILE_SHUTDOWN_YES
  /\ handleChildExit os (fst (fst (handleRunProgram os st rp))) 42 = (st, []).
Proof.
  intros os st rp. split; [reflexivity |].
  exact (terminal_application_exit_keeps_sandbox os st rp 42%Z eq_refl eq_refl eq_refl
           eq_refl eq_refl).
Defined.

(** X7.  Once a shutdown was requested, a child exit only takes the pid
    out of the registry: no signal is sent, xpra is not stopped again and
    the IPC server is not closed again. *)
Theorem handleChildExit_after_shutdown (os : OS.t) (st : initState) (pid : Z) :
  shutdownRequested st = true ->
  handleChildExit os st pid = (with_children (delete pid (children st)) st, []).
Proof.
  intros Hreq. unfold handleChildExit. rewrite removeChildProcess_delete.
  set (st1 := with_children (delete pid (children st)) st).
  destruct (anyTracked (children st1)); [reflexivity |].
  destruct (_ && _); [| reflexivity].
  unfold shutdown. replace (shutdownRequested st1) with true by (symmetry; exact Hreq).
  reflexivity.
Qed.

Lemma handleChildExit_after_shutdown_witness :
  let os := exampleOS (Ok 7%Z) [] in
  let p := mkProcState (Cmd.mk "/usr/bin/editor" ["/usr/bin/editor"] [] "" 1000 1000 [] None false)
             true in
  let st := fst (shutdown (exampleState (exampleProfile PROFILE_SECCOMP_DISABLED false [] false)
                             (exampleConfig false) {[ 42%Z := p ]})) in
  snd (handleChildExit os st 42) = [].
Proof.
  intros os p st.
  now rewrite (handleChildExit_after_shutdown os st 42%Z eq_refl).
Defined.

(** ** The watchdog probe *)

Lemma untilNul_idem (s : string) : untilNul (untilNul s) = untilNul s.
Proof.
  induction s as [|c s IH]; simpl; [reflexivity |].
  destruct (Ascii.eqb c "000"%char) eqn:E; simpl; [reflexivity |].
  now rewrite E, IH.
Qed.

Lemma getProcessExists_map (os : OS.t) (pnames : list string) :
  getProcessExists os pnames
  = existsb
      (fun f =>
         match f with
         | None => false
         | Some pr =>
             let cmdb := GoPath.Base (untilNul pr) in
             if String.eqb cmdb "." then false
             else existsb (fun pname => String.eqb pname cmdb) pnames
         end)
      (map (option_map untilNul) (OS.ProcCmdlines os)).
Proof.
  unfold getProcessExists.
  induction (OS.ProcCmdlines os) as [|[pr|] l IH]; simpl; [reflexivity | |].
  - now rewrite untilNul_idem, IH.
  - exact IH.
Qed.

(** X8.  The watchdog probe looks at nothing but the program name of each
    process, the bytes of its [cmdline] before the first NUL: two process
    tables that agree on those give the same answer for every list of
    watchdog names. *)
Theorem getProcessExists_argv0 (os os' : OS.t) (pnames : list string) :
  map (option_map untilNul) (OS.ProcCmdlines os)
  = map (option_map untilNul) (OS.ProcCmdlines os') ->
  getProcessExists os pnames = getProcessExists os' pnames.
Proof.
  intros H. rewrite (getProcessExists_map os), (getProcessExists_map os').
  now rewrite H.
Qed.

Lemma getProcessExists_argv0_witness :
  let os := exampleOS (Ok 7%Z) [Some ("/usr/sbin/daemonX" +:+ String "000"%char "-f")] in
  let os' := exampleOS (Ok 7%Z) [Some "/usr/sbin/daemonX"] in
  getProcessExists os ["daemonX"] = getProcessExists os' ["daemonX"]
  /\ getProcessExists os' ["daemonX"] = true.
Proof.
  intros os os'. split; [| reflexivity].
  exact (getProcessExists_argv0 os os' ["daemonX"] eq_refl).
Defined.

(** ** The order of the filesystem build *)

Lemma with_profile_id (st : initState) :
  with_profile (Profile.with_Whitelist (Profile.Whitelist (profile st)) (profile st)) st
  = st.
Proof. destruct st as [p]. destruct p. reflexivity. Qed.

(** The whitelist loop of [setupFilesystem] never indexes out of range,
    and it changes nothing but the whitelist of the profile. *)
Lemma filterWhitelist_total (st : initState) :
  exists wl,
    filterWhitelist st
    = Some (with_profile (Profile.with_Whitelist wl (profile st)) st).
Proof.
  unfold filterWhitelist. destruct (ephemeral st).
  - rewrite deleteBackwards_filter. eauto.
  - exists (Profile.Whitelist (profile st)). now rewrite with_profile_id.
Qed.

Lemma runOps_stops (ok : FsOp -> bool) (plan : list FsOp) :
  exists n,
    fst (runOps ok plan) = take n plan
    /\ if snd (runOps ok plan) then
         fst (runOps ok plan) = plan /\ forallb ok plan = true
       else
         exists pre o,
           fst (runOps ok plan) = pre ++ [o] /\ ok o = false /\ forallb ok pre = true.
Proof.
  induction plan as [|o plan (n & Htake & IH)]; simpl.
  - exists 0%nat. repeat split.
  - destruct (ok o) eqn:Eo.
    + destruct (runOps ok plan) as [done b]. simpl in *.
      exists (S n). split; [simpl; now rewrite Htake |].
      destruct b.
      * destruct IH as [-> IH]. now rewrite IH.
      * destruct IH as (pre & o' & -> & Ho' & Hpre).
        exists (o :: pre), o'. simpl. now rewrite Eo, Hpre.
    + exists 1%nat. split; [reflexivity |]. exists [], o. now repeat split.
Qed.

(** X9.  The filesystem build always comes to an end, in one of two ways:
    every call into the filesystem package succeeded, or the last call
    made is the first that failed and nothing was tried after it. *)
Theorem setupFilesystem_stops_at_first_failure (ok : FsOp -> bool) (st : initState)
  (extra_whitelist : list WhitelistItem.t) (extra_blacklist : list BlacklistItem.t) :
  exists st' ops b,
    setupFilesystem ok st extra_whitelist extra_blacklist = Some (st', ops, b)
    /\ if b then forallb ok ops = true
       else exists pre o, ops = pre ++ [o] /\ ok o = false /\ forallb ok pre = true.
Proof.
  unfold setupFilesystem. destruct (ok OpSetupRootfs) eqn:Er; simpl.
  - destruct (filterWhitelist_total st) as [wl ->].
    match goal with |- context [runOps ok ?l] => set (plan := l) end.
    destruct (runOps_stops ok plan) as (n & _ & H).
    destruct (runOps ok plan) as [done b]. simpl in H.
    eexists _, _, _. split; [reflexivity |].
    destruct b.
    + destruct H as [-> H]. simpl. now rewrite Er, H.
    + destruct H as (pre & o & -> & Ho & Hpre).
      exists (OpSetupRootfs :: pre), o. simpl. now rewrite Er, Hpre.
  - eexists _, _, _. split; [reflexivity |]. exists [], OpSetupRootfs. now repeat split.
Qed.

Lemma forallb_flat_map {A B} (f : B -> bool) (g : A -> list B) (l : list A) :
  (forall a, forallb f (g a) = true) -> forallb f (flat_map g l) = true.
Proof.
  intros H. induction l as [|a l IH]; simpl; [reflexivity |].
  now rewrite forallb_app, H, IH.
Qed.

Lemma bindWhitelist_build (wlist : list WhitelistItem.t) :
  forallb isBuildOp (bindWhitelist wlist) = true.
Proof.
  apply forallb_flat_map. intros wl.
  now destruct (String.eqb (WhitelistItem.Path wl) "").
Qed.

Lemma createBindSymlinks_build (wlist : list WhitelistItem.t) :
  forallb isBuildOp (createBindSymlinks wlist) = true.
Proof.
  apply forallb_flat_map. intros wl.
  now destruct (String.eqb (WhitelistItem.Symlink wl) "").
Qed.

Lemma applyBlacklist_build (blist : list BlacklistItem.t) :
  forallb isBuildOp (applyBlacklist blist) = true.
Proof.
  apply forallb_flat_map. intros bl.
  now destruct (String.eqb (BlacklistItem.Path bl) "").
Qed.

Lemma forallb_take {A} (f : A -> bool) (n : nat) (l : list A) :
  forallb f l = true -> forallb f (take n l) = true.
Proof.
  revert n. induction l as [|a l IH]; intros [|n]; simpl; try reflexivity.
  intros [Ha Hl]%andb_prop. now rewrite Ha, IH.
Qed.

(** X10.  The calls of a filesystem build are in two parts.  First come
    the root scaffold, the binds, the symlinks, the masks and the xpra
    bind; then, if the build gets that far, the change of root followed by
    a prefix of the mounts in their fixed order: the full [/dev] and
    [/dev/shm] when configured, [/dev/pts], and [/proc] and [/sys] unless
    the profile has [NoSysProc].  No mount precedes the change of root and
    nothing is bound after it. *)
Theorem setupFilesystem_order (ok : FsOp -> bool) (st : initState)
  (extra_whitelist : list WhitelistItem.t) (extra_blacklist : list BlacklistItem.t) :
  exists st' ops b pre post,
    setupFilesystem ok st extra_whitelist extra_blacklist = Some (st', ops, b)
    /\ ops = pre ++ post
    /\ forallb isBuildOp pre = true
    /\ (post = [] \/ exists k, post = OpChroot :: take k (mountPlan st)).
Proof.
  unfold setupFilesystem. destruct (ok OpSetupRootfs) eqn:Er; simpl.
  - destruct (filterWhitelist_total st) as [wl ->].
    set (st1 := with_profile (Profile.with_Whitelist wl (profile st)) st).
    set (p := profile st1).
    set (build := bindWhitelist extra_whitelist
                    ++ bindWhitelist (Profile.Whitelist p)
                    ++ createBindSymlinks (Profile.Whitelist p ++ extra_whitelist)
                    ++ applyBlacklist extra_blacklist
                    ++ applyBlacklist (Profile.Blacklist p)
                    ++ (if Profile.XServerEnabled p then [OpBindXpra] else [])).
    assert (Hbuild : forallb isBuildOp build = true).
    { subst build. rewrite !forallb_app, !bindWhitelist_build, createBindSymlinks_build,
        !applyBlacklist_build. now destruct (Profile.XServerEnabled p). }
    match goal with |- context [runOps ok ?l] => set (plan := l) end.
    assert (Hplan : plan = build ++ OpChroot :: mountPlan st).
    { subst plan build. unfold mountPlan. rewrite <- !app_assoc. reflexivity. }
    destruct (runOps_stops ok plan) as (n & Htake & _).
    destruct (runOps ok plan) as [done b]. simpl in Htake.
    exists st1, (OpSetupRootfs :: done), b,
      (OpSetupRootfs :: take n build),
      (take (n - length build) (OpChroot :: mountPlan st)).
    split; [reflexivity |]. split; [| split].
    + simpl. f_equal. rewrite Htake, Hplan. apply take_app.
    + simpl. now apply forallb_take.
    + destruct (n - length build)%nat as [|k]; [now left | right].
      exists k. reflexivity.
  - exists st, [OpSetupRootfs], false, [OpSetupRootfs], []. repeat split. now left.
Qed.

Lemma bindFlags_setuid_read_only (wl : WhitelistItem.t) :
  In BindAllowSetuid (bindFlags wl) -> In BindReadOnly (bindFlags wl).
Proof.
  unfold bindFlags.
  destruct (WhitelistItem.CanCreate wl), (WhitelistItem.Ignore wl),
    (WhitelistItem.ReadOnly wl), (WhitelistItem.AllowSetuid wl),
    (WhitelistItem.Force wl), (WhitelistItem.NoFollow wl); simpl;
    intuition discriminate.
Qed.

Lemma bindWhitelist_In_flags (wlist : list WhitelistItem.t) (p t : string)
  (f : list BindFlag) :
  In (OpBindTo p t f) (bindWhitelist wlist) ->
  exists wl, In wl wlist /\ p <> "" /\ f = bindFlags wl.
Proof.
  unfold bindWhitelist. rewrite in_flat_map. intros [wl [Hin H]].
  destruct (String.eqb_spec (WhitelistItem.Path wl) "") as [|Hne]; [destruct H |].
  destruct H as [H | []]. injection H as <- <- <-. eauto.
Qed.

(** X11.  No bind of the filesystem build has an empty source path, and a
    bind that allows setuid programs is read-only as well. *)
Theorem setupFilesystem_binds (ok : FsOp -> bool) (st st' : initState)
  (extra_whitelist : list WhitelistItem.t) (extra_blacklist : list BlacklistItem.t)
  (ops : list FsOp) (b : bool) (p t : string) (f : list BindFlag) :
  setupFilesystem ok st extra_whitelist extra_blacklist = Some (st', ops, b) ->
  In (OpBindTo p t f) ops ->
  p <> "" /\ (In BindAllowSetuid f -> In BindReadOnly f).
Proof.
  unfold setupFilesystem. destruct (ok OpSetupRootfs); simpl.
  - destruct (filterWhitelist_total st) as [wl ->].
    match goal with |- context [runOps ok ?l] => set (plan := l) end.
    pose proof (runOps_In ok plan) as Hrun.
    destruct (runOps ok plan) as [done b']. simpl in Hrun.
    intros [= <- <- <-] [Hd | Hin]; [discriminate |].
    apply Hrun in Hin. subst plan.
    apply in_app_or in Hin as [Hin | Hin];
      [apply bindWhitelist_In_flags in Hin as (w & _ & Hp & ->);
       split; [exact Hp | apply bindFlags_setuid_read_only] |].
    apply in_app_or in Hin as [Hin | Hin];
      [apply bindWhitelist_In_flags in Hin as (w & _ & Hp & ->);
       split; [exact Hp | apply bindFlags_setuid_read_only] |].
    exfalso. now apply (setupFilesystem_tail_no_bind _ _ _ _ _ _ _ Hin).
  - intros [= <- <- <-] [Hd | []]. discriminate.
Qed.

Lemma setupFilesystem_binds_witness :
  let item := WhitelistItem.mk "/usr/bin/sudo" "" "" false false false false false true in
  let st := exampleEphemeral [item; plainItem "" "/nowhere"] [] in
  In (OpBindTo "/usr/bin/sudo" "" [BindAllowSetuid; BindReadOnly])
    (snd (fst (default (st, [], false) (setupFilesystem (fun _ => true) st [] []))))
  /\ "/usr/bin/sudo" <> ""
  /\ (In BindAllowSetuid [BindAllowSetuid; BindReadOnly]
      -> In BindReadOnly [BindAllowSetuid; BindReadOnly]).
Proof.
  intros item st.
  assert (Hin : In (OpBindTo "/usr/bin/sudo" "" [BindAllowSetuid; BindReadOnly])
                  [OpSetupRootfs; OpBindTo "/usr/bin/sudo" "" [BindAllowSetuid; BindReadOnly];
                   OpChroot; OpMountPts; OpMountProc; OpMountSys])
    by (right; left; reflexivity).
  split; [exact Hin |].
  exact (setupFilesystem_binds (fun _ => true) st st [] [] _ true "/usr/bin/sudo" ""
           [BindAllowSetuid; BindReadOnly] eq_refl Hin).
Defined.

(** ** [ProfileHasEphemerals] *)

Lemma ephemeralsInWhitelist_existsb (wls : list WhitelistItem.t) :
  ephemeralsInWhitelist false wls
  = if existsb whitelistItemIsEphemeral wls then inl true else inr false.
Proof.
  induction wls as [|wl wls IH]; simpl; [reflexivity |].
  destruct (String.eqb (WhitelistItem.Path wl) "") eqn:Ep.
  - unfold whitelistItemIsEphemeral at 1. rewrite Ep. exact IH.
  - destruct (whitelistItemIsEphemeral wl); [reflexivity | exact IH].
Qed.

Lemma ephemeralsInSharedFolders_found (found : bool) (sfs : list string) :
  ephemeralsInSharedFolders found sfs = inl found
  \/ ephemeralsInSharedFolders found sfs = inr found.
Proof.
  induction sfs as [|sf sfs IH]; simpl; [now right |].
  destruct (_ || _); [now left | exact IH].
Qed.

Lemma ProfileHasEphemerals_existsb (p : Profile.t) :
  ProfileHasEphemerals p = existsb whitelistItemIsEphemeral (Profile.Whitelist p).
Proof.
  unfold ProfileHasEphemerals. rewrite ephemeralsInWhitelist_existsb.
  destruct (existsb _ _); [reflexivity |].
  destruct (ephemeralsInSharedFolders_found false (Profile.SharedFolders p)) as [-> | ->];
    reflexivity.
Qed.

(** X12.  [ProfileHasEphemerals] answers for the whitelist alone: it holds
    exactly when some whitelist item is ephemeral, and the shared folders
    of the profile, under the home directory or not, never change the
    answer. *)
Theorem ProfileHasEphemerals_whitelist_only (p : Profile.t) (sf : list string) :
  ProfileHasEphemerals p = existsb whitelistItemIsEphemeral (Profile.Whitelist p)
  /\ ProfileHasEphemerals (Profile.with_SharedFolders sf p) = ProfileHasEphemerals p.
Proof.
  split; [apply ProfileHasEphemerals_existsb |].
  rewrite !ProfileHasEphemerals_existsb. reflexivity.
Qed.

Lemma existsb_filter_negb {A} (f : A -> bool) (l : list A) :
  existsb f (List.filter (fun x => negb (f x)) l) = false.
Proof.
  induction l as [|a l IH]; simpl; [reflexivity |].
  destruct (f a) eqn:E; simpl; [exact IH | now rewrite E].
Qed.

Lemma filter_negb_id {A} (f : A -> bool) (l : list A) :
  existsb f l = false -> List.filter (fun x => negb (f x)) l = l.
Proof.
  induction l as [|a l IH]; simpl; [reflexivity |].
  intros [Ha Hl]%orb_false_elim. rewrite Ha. simpl. now rewrite IH.
Qed.

(** X13.  In an ephemeral sandbox the whitelist filter and
    [ProfileHasEphemerals] agree: after the filter the profile has no
    ephemerals, and a profile that had none comes through the filter
    unchanged. *)
Theorem filterWhitelist_clears_ephemerals (st st' : initState) :
  ephemeral st = true ->
  filterWhitelist st = Some st' ->
  ProfileHasEphemerals (profile st') = false
  /\ (ProfileHasEphemerals (profile st) = false -> st' = st).
Proof.
  intros He. unfold filterWhitelist. rewrite He, deleteBackwards_filter.
  intros [= <-]. split.
  - rewrite ProfileHasEphemerals_existsb. cbn [profile with_profile].
    cbn [Profile.Whitelist Profile.with_Whitelist].
    rewrite (filter_ext _ (fun x => negb (whitelistItemIsEphemeral x)))
      by (intros a; now rewrite dropsWhitelistItem_ephemeral).
    apply existsb_filter_negb.
  - rewrite ProfileHasEphemerals_existsb. intros H.
    rewrite (filter_ext _ (fun x => negb (whitelistItemIsEphemeral x)))
      by (intros a; now rewrite dropsWhitelistItem_ephemeral).
    rewrite (filter_negb_id _ _ H). apply with_profile_id.
Qed.

Lemma filterWhitelist_clears_ephemerals_witness :
  let st := exampleEphemeral
              [plainItem "${HOME}/.config/x" ""; plainItem "/etc/ssl/certs" ""] [] in
  let st' := exampleEphemeral [plainItem "/etc/ssl/certs" ""] [] in
  ProfileHasEphemerals (profile st) = true
  /\ filterWhitelist st = Some st'
  /\ ProfileHasEphemerals (profile st') = false.
Proof.
  intros st st'. split; [reflexivity |]. split; [reflexivity |].
  exact (proj1 (filterWhitelist_clears_ephemerals st st' eq_refl eq_refl)).
Defined.

(** ** Shared folders *)

Lemma allChars_noSlash (s : string) :
  allChars (notChar GoPath.slash) s = noSlash s.
Proof. induction s as [|c s IH]; simpl; [reflexivity | now rewrite IH]. Qed.

Lemma prefix_empty (s : string) : String.prefix "" s = true.
Proof. now destruct s. Qed.

(** Replacing every occurrence of one byte by another leaves none. *)
Lemma replaceFrom_char (a b : ascii) (n : Z) (s : string) :
  (n < 0)%Z -> a <> b ->
  allChars (notChar a) (replaceFrom (String a "") (String b "") n 0 s) = true.
Proof.
  intros Hn Hab. revert n Hn. induction s as [|c s IH]; intros n Hn;
    cbn [replaceFrom]; [reflexivity |].
  replace (Z.eqb n 0) with false by (symmetry; apply Z.eqb_neq; lia).
  cbn [negb andb String.prefix String.length Nat.sub].
  destruct (ascii_dec a c) as [<- | Hne].
  - rewrite prefix_empty. cbn [String.append allChars].
    unfold notChar at 1.
    replace (Ascii.eqb b a) with false
      by (symmetry; apply Ascii.eqb_neq; congruence).
    apply IH. lia.
  - cbn [allChars]. unfold notChar at 1.
    replace (Ascii.eqb c a) with false
      by (symmetry; apply Ascii.eqb_neq; congruence).
    apply IH. exact Hn.
Qed.

(** Deleting occurrences keeps every property of the bytes. *)
Lemma replaceFrom_delete (f : ascii -> bool) (old : string) (n : Z) (skip : nat)
  (s : string) :
  allChars f s = true -> allChars f (replaceFrom old "" n skip s) = true.
Proof.
  revert n skip. induction s as [|c s IH]; intros n skip; cbn [replaceFrom allChars];
    [trivial |].
  intros [Hc Hs]%andb_prop. destruct skip as [|k]; [| now apply IH].
  destruct (negb (Z.eqb n 0) && String.prefix old (String c s)).
  - cbn [String.append]. now apply IH.
  - cbn [allChars]. rewrite Hc. now apply IH.
Qed.

Lemma Replace_delete (f : ascii -> bool) (s old : string) (n : Z) :
  allChars f s = true -> allChars f (Replace s old "" n) = true.
Proof.
  intros H. unfold Replace.
  destruct (String.eqb_spec old "") as [-> | Hne]; simpl.
  - exact H.
  - destruct (Z.eqb n 0); [exact H | now apply replaceFrom_delete].
Qed.

Lemma sharedFolder_dname_noSlash (s : string) :
  let dname := Replace s "/" "-" (-1) in
  noSlash (if GoPath.HasPrefix dname "-" then Replace dname "-" "" 1 else dname) = true.
Proof.
  intros dname.
  assert (H : allChars (notChar GoPath.slash) dname = true).
  { subst dname. unfold Replace. cbn [String.eqb Ascii.eqb Bool.eqb orb Z.eqb].
    apply replaceFrom_char; [lia | discriminate]. }
  rewrite <- allChars_noSlash.
  destruct (GoPath.HasPrefix dname "-"); [now apply Replace_delete | exact H].
Qed.

Lemma Clean_nonempty (p : string) : GoPath.Clean p <> "".
Proof.
  unfold GoPath.Clean. destruct (GoPath.HasPrefix p "/"); [discriminate |].
  match goal with
  | |- (if String.eqb ?b "" then _ else _) <> _ => destruct (String.eqb_spec b "")
  end; [discriminate | assumption].
Qed.

Lemma Join_nonempty (a : string) (rest : list string) :
  a <> "" -> GoPath.Join (a :: rest) <> "".
Proof.
  intros Ha. unfold GoPath.Join.
  assert (Hsz : forall l k, (0 < k)%nat ->
                  (0 < fold_left (fun n e => (n + String.length e)%nat) l k)%nat).
  { induction l as [|e l IH]; intros k Hk; simpl; [exact Hk | apply IH; lia]. }
  cbn [fold_left].
  replace (Nat.eqb (fold_left (fun n e => (n + String.length e)%nat) rest
                      (0 + String.length a)%nat) 0) with false.
  - apply Clean_nonempty.
  - symmetry. apply Nat.eqb_neq.
    specialize (Hsz rest (0 + String.length a)%nat).
    destruct a; [contradiction | simpl in *; lia].
Qed.

(** The target of a shared folder is the home directory of the sandbox or
    lies under it. *)
Lemma shared_target_under_home (d : string) :
  noSlash d = true ->
  GoPath.HasPrefix (GoPath.Join ["${HOME}/.shared/"; d]) "${HOME}" = true.
Proof.
  intros Hd. unfold GoPath.Join.
  replace (Nat.eqb (fold_left (fun n e => (n + String.length e)%nat)
                      ["${HOME}/.shared/"; d] 0%nat) 0)
    with false by (symmetry; apply Nat.eqb_neq; simpl; lia).
  assert (Hbuf : fold_left GoPath.join_buf ["${HOME}/.shared/"; d] ""
                 = "${HOME}/.shared/" +:+ String GoPath.slash d) by reflexivity.
  rewrite Hbuf. unfold GoPath.Clean.
  rewrite split_slash_app, (split_slash_noSlash d Hd).
  assert (Hs : GoPath.split_slash "${HOME}/.shared/" = ["${HOME}"; ".shared"; ""])
    by reflexivity.
  assert (Hp : GoPath.HasPrefix ("${HOME}/.shared/" +:+ String GoPath.slash d) "/" = false)
    by reflexivity.
  assert (Hf : fold_left (GoPath.clean_step false) ["${HOME}"; ".shared"; ""] []
               = [".shared"; "${HOME}"]) by reflexivity.
  rewrite Hs, Hp, fold_left_app, Hf. cbn [fold_left].
  unfold GoPath.clean_step.
  destruct (String.eqb d "" || String.eqb d "."); [reflexivity |].
  destruct (String.eqb d ".."); reflexivity.
Qed.

Lemma sharedFolderItem_ephemeral (Title : string -> string) (st : initState)
  (spath : string) :
  let wl := sharedFolderItem Title st spath in
  WhitelistItem.CanCreate wl = true
  /\ GoPath.HasPrefix (WhitelistItem.Target wl) "${HOME}" = true
  /\ whitelistItemIsEphemeral wl = true.
Proof.
  intros wl. subst wl. unfold sharedFolderItem.
  set (sp := if GoPath.HasPrefix spath _ then _ else _).
  pose proof (sharedFolder_dname_noSlash sp) as Hd. cbv zeta in Hd.
  set (dname := if GoPath.HasPrefix (Replace sp "/" "-" (-1)) "-" then _ else _) in *.
  pose proof (shared_target_under_home dname Hd) as Ht.
  split; [reflexivity |]. split; [exact Ht |].
  unfold whitelistItemIsEphemeral. cbn [WhitelistItem.Path WhitelistItem.Target].
  destruct (String.eqb_spec (GoPath.Join ["${HOME}/OZ"; Title (Profile.Name (profile st)); dname]) "")
    as [E | _]; [now apply Join_nonempty in E |].
  destruct (String.eqb_spec (GoPath.Join ["${HOME}/.shared/"; dname]) "")
    as [E | _]; [now apply Join_nonempty in E |].
  cbn [negb]. unfold isEphemeralPath. now rewrite Ht.
Qed.

(** X14.  [addSharedFolders] keeps the items it is given and appends, in
    the order of the shared folders, the item of each folder that resolves,
    made from its resolved path, and nothing for a folder that does not.
    Every item it appends may create its source, has its target in or
    under the home directory of the sandbox, and so is ephemeral by
    [whitelistItemIsEphemeral], whatever the folder was. *)
Theorem addSharedFolders_items (Resolve : string -> result string)
  (Title : string -> string) (st : initState) (wlExtras : list WhitelistItem.t) :
  let item sf :=
    match Resolve sf with
    | Ok spath => [sharedFolderItem Title st spath]
    | Err _ => []
    end in
  let added := flat_map item (Profile.SharedFolders (profile st)) in
  addSharedFolders Resolve Title st wlExtras = wlExtras ++ added
  /\ length added
     = length (List.filter
                 (fun sf => match Resolve sf with Ok _ => true | Err _ => false end)
                 (Profile.SharedFolders (profile st)))
  /\ Forall (fun wl => WhitelistItem.CanCreate wl = true
                       /\ GoPath.HasPrefix (WhitelistItem.Target wl) "${HOME}" = true
                       /\ whitelistItemIsEphemeral wl = true)
       added.
Proof.
  intros item added. subst added. unfold addSharedFolders.
  generalize wlExtras. clear wlExtras.
  induction (Profile.SharedFolders (profile st)) as [|sf sfs IH]; intros wlExtras;
    cbn [fold_left flat_map List.filter].
  - rewrite app_nil_r. repeat split. constructor.
  - subst item. cbv beta in *. destruct (Resolve sf) as [spath | e].
    + destruct (IH (wlExtras ++ [sharedFolderItem Title st spath]))
        as (-> & Hlen & Hall).
      rewrite <- app_assoc. split; [reflexivity |]. cbn [app length].
      split; [now rewrite Hlen |].
      constructor; [apply sharedFolderItem_ephemeral | exact Hall].
    + apply IH.
Qed.

(** ** The tokens of an OpenVPN configuration line *)

Lemma allChars_snoc (f : ascii -> bool) (s : string) (c : ascii) :
  allChars f (s +:+ String c "") = allChars f s && f c.
Proof.
  induction s as [|x s IH]; simpl.
  - now rewrite andb_true_r.
  - now rewrite IH, andb_assoc.
Qed.

Lemma snoc_nonempty (s : string) (c : ascii) : String.eqb (s +:+ String c "") "" = false.
Proof. now destruct s. Qed.

Lemma fieldsFrom_tokens (cur s : string) :
  allChars (fun c => negb (OpenVPN.isSpace c)) cur = true ->
  Forall (fun t => t <> "" /\ allChars (fun c => negb (OpenVPN.isSpace c)) t = true)
    (OpenVPN.fieldsFrom cur s).
Proof.
  revert cur. induction s as [|c s IH]; intros cur Hcur; simpl.
  - destruct (String.eqb_spec cur ""); constructor; [now split | constructor].
  - destruct (OpenVPN.isSpace c) eqn:Ec.
    + destruct (String.eqb_spec cur ""); simpl.
      * now apply IH.
      * constructor; [now split | now apply IH].
    + apply IH. rewrite allChars_snoc, Hcur, Ec. reflexivity.
Qed.

Lemma stripComment_allChars (f : ascii -> bool) (v : string) :
  allChars f v = true -> allChars f (OpenVPN.stripComment v) = true.
Proof.
  induction v as [|c v IH]; simpl; [trivial |].
  intros [Hc Hv]%andb_prop. destruct (_ && _); simpl; [reflexivity |].
  now rewrite Hc, IH.
Qed.

(** X15.  Every token the parser takes from a line is non-empty and free
    of white space, so a directive is never the empty word. *)
Theorem lineTokens_nonempty_no_space (line : string) :
  Forall (fun t => t <> "" /\ allChars (fun c => negb (OpenVPN.isSpace c)) t = true)
    (OpenVPN.lineTokens (OpenVPN.fields line)).
Proof.
  unfold OpenVPN.fields.
  pose proof (fieldsFrom_tokens "" line eq_refl) as H.
  induction H as [|v x [_ Hv] _ IH]; simpl; [constructor |].
  apply Forall_app. split.
  - destruct (String.eqb_spec (OpenVPN.stripComment v) ""); simpl; constructor;
      [| constructor]. split; [assumption | now apply stripComment_allChars].
  - destruct (negb (String.eqb v (OpenVPN.stripComment v))); [constructor | exact IH].
Qed.

(** ** Inline blocks *)

Lemma scanLines_inside (fs : OpenVPN.FS) (c : Config.t) (auth runtoken : string)
  (close flag fpath : string) (args : list string) (body : list string) :
  Forall (fun l => OpenVPN.tooLong l = false) body ->
  ~ In close (map OpenVPN.dropCR body) ->
  (forall p l, OpenVPN.WriteString fs p l = Ok tt) ->
  OpenVPN.scanLines fs c auth runtoken
    (OpenVPN.mkPState (OpenVPN.Inside close flag fpath) args) body
  = (OpenVPN.mkPState (OpenVPN.Inside close flag fpath) args, None).
Proof.
  intros Hshort Hclose Hw.
  induction Hshort as [|l body Hl _ IH]; [reflexivity |].
  rewrite scanLines_short by exact Hl.
  unfold OpenVPN.step. cbn [OpenVPN.mode].
  destruct (String.eqb_spec (OpenVPN.dropCR l) close) as [E | _].
  - exfalso. apply Hclose. now left.
  - rewrite Hw. apply IH. intros H. apply Hclose. now right.
Qed.

(** X16.  What stands inside an inline block, in lines of less than
    64 KiB, never reaches the argument vector.  With writes that succeed,
    two configurations that differ only in the lines between an opening
    tag and the line of its closing tag, all of them and all before them
    of less than 64 KiB, parse to the same result.  The closing line may
    end in a carriage return. *)
Theorem inline_block_content_ignored (fs : OpenVPN.FS) (c : Config.t)
  (filename ip table dev auth runtoken : string)
  (pre body body' post : list string) (opener closer d close flag suffix : string)
  (rest : list string) (stp : OpenVPN.PState) :
  Forall (fun l => OpenVPN.tooLong l = false) (pre ++ opener :: body ++ body') ->
  OpenVPN.scanLines fs c auth runtoken (OpenVPN.mkPState OpenVPN.Outside ["--client"]) pre
  = (stp, None) ->
  OpenVPN.mode stp = OpenVPN.Outside ->
  OpenVPN.lineTokens (OpenVPN.fields (OpenVPN.dropCR opener)) = d :: rest ->
  OpenVPN.lookupBlock d OpenVPN.inlineBlocks = Some (close, flag, suffix) ->
  ~ In close (map OpenVPN.dropCR body) -> ~ In close (map OpenVPN.dropCR body') ->
  (forall p l, OpenVPN.WriteString fs p l = Ok tt) ->
  OpenVPN.parseOpenVPNConf (withLines fs (pre ++ opener :: body ++ closer :: post))
    c filename ip table dev auth runtoken
  = OpenVPN.parseOpenVPNConf (withLines fs (pre ++ opener :: body' ++ closer :: post))
      c filename ip table dev auth runtoken.
Proof.
  intros Hshort Hpre Hmode Htok Hblock Hb Hb' Hw.
  apply Forall_app in Hshort as [Hspre Hshort].
  apply Forall_cons in Hshort as [Hsop Hshort].
  apply Forall_app in Hshort as [Hsb Hsb'].
  assert (H : forall bd, Forall (fun l => OpenVPN.tooLong l = false) bd ->
            ~ In close (map OpenVPN.dropCR bd) ->
            OpenVPN.scanLines fs c auth runtoken
              (OpenVPN.mkPState OpenVPN.Outside ["--client"])
              (pre ++ opener :: bd ++ closer :: post)
            = match OpenVPN.Create fs (GoPath.Join [Config.OpenVPNRunPath c; runtoken +:+ suffix]) with
              | Err e => (stp, Some e)
              | Ok _ =>
                  OpenVPN.scanLines fs c auth runtoken
                    (OpenVPN.mkPState
                       (OpenVPN.Inside close flag
                          (GoPath.Join [Config.OpenVPNRunPath c; runtoken +:+ suffix]))
                       (OpenVPN.cmdargs stp))
                    (closer :: post)
              end).
  { intros bd Hsbd Hbd.
    rewrite (scanLines_app fs c auth runtoken pre _ _ stp Hspre Hpre).
    rewrite scanLines_short by exact Hsop.
    unfold OpenVPN.step. rewrite Hmode, Htok, Hblock.
    destruct (OpenVPN.Create fs _); [| reflexivity].
    apply scanLines_app; [exact Hsbd |]. now apply scanLines_inside. }
  unfold OpenVPN.parseOpenVPNConf.
  change (OpenVPN.Open (withLines fs (pre ++ opener :: body ++ closer :: post)) filename)
    with (@Ok (list string) (pre ++ opener :: body ++ closer :: post)).
  change (OpenVPN.Open (withLines fs (pre ++ opener :: body' ++ closer :: post)) filename)
    with (@Ok (list string) (pre ++ opener :: body' ++ closer :: post)).
  cbv iota. rewrite !scanLines_withLines, (H body Hsb Hb), (H body' Hsb' Hb'). reflexivity.
Qed.

Lemma inline_block_content_ignored_witness :
  let c := exampleConfig false in
  let closer := "</key>" +:+ String "013"%char "" in
  let parse lines :=
    OpenVPN.parseOpenVPNConf (withLines (exampleFS []) lines) c "f" "10.0.0.1" "oz"
      "oz0" "auth.txt" "tok" in
  parse (["dev tun"] ++ "<key>" :: ["up /bin/sh"; "daemon"] ++ closer :: ["verb 3"])
  = parse (["dev tun"] ++ "<key>" :: [] ++ closer :: ["verb 3"])
  /\ take 7 (fst (parse (["dev tun"] ++ "<key>" :: [] ++ closer :: ["verb 3"])))
     = ["--client"; "--dev"; "tun"; "--key"; "/run/oz/tok-key.key"; "--verb"; "3"].
Proof.
  intros c closer parse. split; [| reflexivity].
  refine (inline_block_content_ignored (exampleFS []) c "f" "10.0.0.1" "oz" "oz0"
            "auth.txt" "tok" ["dev tun"] ["up /bin/sh"; "daemon"] [] ["verb 3"]
            "<key>" closer "<key>" "</key>" "--key" "-key.key" []
            (OpenVPN.mkPState OpenVPN.Outside ["--client"; "--dev"; "tun"])
            _ eq_refl eq_refl eq_refl eq_refl _ _ (fun _ _ => eq_refl)).
  - repeat constructor.
  - intros [H | [H | []]]; discriminate.
  - intros [].
Defined.

(** ** Lines that do not fit the scanner *)

Lemma scanLines_long_line (fs : OpenVPN.FS) (c : Config.t) (auth runtoken : string)
  (pre post post' : list string) (l : string) (st : OpenVPN.PState) :
  OpenVPN.tooLong l = true ->
  OpenVPN.scanLines fs c auth runtoken st (pre ++ l :: post)
  = OpenVPN.scanLines fs c auth runtoken st (pre ++ l :: post').
Proof.
  intros Hl. revert st. induction pre as [|x pre IH]; intros st; cbn [app].
  - now rewrite !scanLines_long.
  - destruct (OpenVPN.tooLong x) eqn:Hx.
    + now rewrite !scanLines_long.
    + rewrite !scanLines_short by exact Hx.
      destruct (OpenVPN.step fs c auth runtoken st (OpenVPN.dropCR x)) as [st1 [e|]];
        [reflexivity | apply IH].
Qed.

(** X24.  A line of 64 KiB or more is the last thing read of a
    configuration: what follows it in the file, directives, tags and all,
    has no effect on the arguments or on the error. *)
Theorem parseOpenVPNConf_long_line_ends_file (fs : OpenVPN.FS) (c : Config.t)
  (filename ip table dev auth runtoken : string) (pre post post' : list string)
  (l : string) :
  OpenVPN.tooLong l = true ->
  OpenVPN.parseOpenVPNConf (withLines fs (pre ++ l :: post))
    c filename ip table dev auth runtoken
  = OpenVPN.parseOpenVPNConf (withLines fs (pre ++ l :: post'))
      c filename ip table dev auth runtoken.
Proof.
  intros Hl. unfold OpenVPN.parseOpenVPNConf.
  change (OpenVPN.Open (withLines fs (pre ++ l :: post)) filename)
    with (@Ok (list string) (pre ++ l :: post)).
  change (OpenVPN.Open (withLines fs (pre ++ l :: post')) filename)
    with (@Ok (list string) (pre ++ l :: post')).
  cbv iota. rewrite !scanLines_withLines.
  now rewrite (scanLines_long_line fs c auth runtoken pre post post' l _ Hl).
Qed.

Lemma parseOpenVPNConf_long_line_ends_file_witness :
  let long := padded "remote evil.example 1194" 65512 +:+ "1195" in
  let parse lines :=
    OpenVPN.parseOpenVPNConf (withLines (exampleFS []) lines) (exampleConfig false)
      "client.conf" "10.0.0.1" "oz" "oz0" "auth.txt" "tok" in
  OpenVPN.tooLong long = true
  /\ OpenVPN.tooLong (padded "verb 3" 65529) = false
  /\ OpenVPN.tooLong (padded "verb 3" 65530) = true
  /\ parse (["dev tun"; "<ca>"] ++ long :: ["</ca>"; "auth-user-pass"; "verb 3"])
     = parse (["dev tun"; "<ca>"] ++ long :: [])
  /\ take 9 (fst (parse (["dev tun"; "<ca>"] ++ long :: [])))
     = ["--client"; "--dev"; "tun"; "--ca"; "/run/oz/tok-ca.cert"; "--remote";
        "evil.example"; "1194"; "--writepid"]
  /\ take 5 (fst (parse [padded "verb 3" 65529; "dev tun"]))
     = ["--client"; "--verb"; "3"; "--dev"; "tun"]
  /\ take 2 (fst (parse [padded "verb 3" 65530; "dev tun"]))
     = ["--client"; "--writepid"].
Proof.
  intros long parse.
  assert (Hlong : OpenVPN.tooLong long = true) by (vm_compute; reflexivity).
  split; [exact Hlong |].
  split; [vm_compute; reflexivity |]. split; [vm_compute; reflexivity |].
  split; [| repeat split; vm_compute; reflexivity].
  exact (parseOpenVPNConf_long_line_ends_file (exampleFS []) (exampleConfig false)
           "client.conf" "10.0.0.1" "oz" "oz0" "auth.txt" "tok" ["dev tun"; "<ca>"]
           ["</ca>"; "auth-user-pass"; "verb 3"] [] long Hlong).
Defined.

(** ** The name of the control socket *)

(** X17.  On its first call [GetSocketName] returns the default name or a
    name of the form the pattern admits, never an invalid name from the
    environment, and it remembers what it returned: when that is not
    empty, every later call returns it again, whatever the environment
    says then. *)
Theorem GetSocketName_valid_and_cached (SocketName env env' : string) :
  let name := fst (GetSocketName SocketName env "") in
  let cache := snd (GetSocketName SocketName env "") in
  cache = name
  /\ (name = SocketName \/ isSocketName name = true)
  /\ (name <> "" -> GetSocketName SocketName env' cache = (name, cache)).
Proof.
  intros name cache. subst name cache. unfold GetSocketName at 1 2 3 4 5.
  cbn [String.eqb negb fst snd].
  split; [reflexivity |]. split.
  - destruct (String.eqb env ""); cbn [negb]; [now left |].
    destruct (isSocketName _) eqn:E; cbn [negb]; [right; exact E | now left].
  - intros Hne. unfold GetSocketName.
    match goal with
    | |- (if negb (String.eqb ?x "") then _ else _) = _ =>
        destruct (String.eqb_spec x ""); [contradiction | reflexivity]
    end.
Qed.

Lemma GetSocketName_valid_and_cached_witness :
  GetSocketName "@oz-control" "other" "@custom_1" = ("@custom_1", "@custom_1")
  /\ fst (GetSocketName "@oz-control" "custom_1" "") = "@custom_1"
  /\ fst (GetSocketName "@oz-control" "no good" "") = "@oz-control".
Proof.
  split; [| split; reflexivity].
  refine (proj2 (proj2 (GetSocketName_valid_and_cached "@oz-control" "custom_1" "other")) _).
  discriminate.
Defined.

(** ** The readiness of xpra *)

Lemma Contains_empty (sub : string) : sub <> "" -> Contains "" sub = false.
Proof. intros H. destruct sub; [contradiction | reflexivity]. Qed.

Lemma countXpra_seen (logXpra : bool) (lines : list string) :
  countXpra isReadyDone (readXpraOutput logXpra true lines) = 0%nat.
Proof.
  induction lines as [|l lines IH]; simpl; [reflexivity |].
  destruct (Nat.ltb 0 (String.length l)); [| exact IH].
  rewrite andb_false_r. unfold countXpra in *.
  rewrite List.filter_app, length_app, IH.
  now destruct logXpra.
Qed.

(** X18.  Reading the output of xpra releases the ready signal at most
    once: exactly once when some line holds the words [xpra is ready.],
    and never otherwise.  With [LogXpra] every non-empty line is logged,
    in order; without it none is. *)
Theorem readXpraOutput_ready_once (logXpra : bool) (lines : list string) :
  countXpra isReadyDone (readXpraOutput logXpra false lines)
  = (if existsb (fun l => Contains l "xpra is ready.") lines then 1%nat else 0%nat)
  /\ forall seen,
       xpraLogged (readXpraOutput logXpra seen lines)
       = if logXpra then List.filter (fun l => Nat.ltb 0 (String.length l)) lines
         else [].
Proof.
  split.
  - induction lines as [|l lines IH]; simpl; [reflexivity |].
    destruct l as [|ch l]; [exact IH |].
    cbn [String.length Nat.ltb Nat.leb]. rewrite andb_true_r.
    destruct (Contains (String ch l) "xpra is ready."); cbn [orb].
    + destruct logXpra; [| reflexivity]. cbn [negb].
      change (countXpra isReadyDone (XpraReadyDone :: XpraLog (String ch l) :: ?x))
        with (S (countXpra isReadyDone x)).
      unfold countXpra. cbn [List.filter isReadyDone length].
      fold (countXpra isReadyDone (readXpraOutput true true lines)).
      now rewrite countXpra_seen.
    + unfold countXpra in *. rewrite List.filter_app, length_app, IH.
      now destruct logXpra.
  - induction lines as [|l lines IH]; intros seen; simpl;
      [now destruct logXpra |].
    destruct l as [|ch l]; [apply IH |].
    cbn [String.length Nat.ltb Nat.leb].
    destruct (Contains (String ch l) "xpra is ready." && negb seen).
    + destruct logXpra; [| reflexivity]. cbn [negb xpraLogged flat_map app].
      f_equal. apply (IH true).
    + unfold xpraLogged in *. rewrite flat_map_app.
      fold (xpraLogged (readXpraOutput logXpra seen lines)).
      unfold xpraLogged. rewrite (IH seen). now destruct logXpra.
Qed.

(** ** The session bus environment *)

Lemma splitOn_cons (sep : ascii) (s : string) : exists x xs, splitOn sep s = x :: xs.
Proof.
  induction s as [|c s [x [xs IH]]]; simpl; [eauto |].
  destruct (Ascii.eqb c sep); [eauto | rewrite IH; eauto].
Qed.

(** Splitting at a byte and joining with it again gives the string back. *)
Lemma concat_splitOn (sep : ascii) (s : string) :
  String.concat (String sep "") (splitOn sep s) = s.
Proof.
  induction s as [|c s IH]; simpl; [reflexivity |].
  destruct (Ascii.eqb_spec c sep) as [-> | Hne].
  - destruct (splitOn_cons sep s) as [x [xs E]]. rewrite E in *.
    cbn [String.concat]. cbn [String.concat] in IH. now rewrite IH.
  - destruct (splitOn_cons sep s) as [x [xs E]]. rewrite E in *.
    destruct xs; cbn [String.concat] in *; now rewrite <- IH.
Qed.

Lemma splitOn_allChars (f : ascii -> bool) (sep : ascii) (s : string) :
  allChars f s = true -> Forall (fun t => allChars f t = true) (splitOn sep s).
Proof.
  induction s as [|c s IH]; simpl; [repeat constructor |].
  intros [Hc Hs]%andb_prop. specialize (IH Hs).
  destruct (Ascii.eqb c sep); [now constructor |].
  destruct (splitOn sep s) as [|x xs]; [repeat constructor; simpl; now rewrite Hc |].
  apply Forall_cons in IH as [Hx Hxs]. constructor; [| exact Hxs].
  simpl. now rewrite Hc, Hx.
Qed.

Lemma splitOn_no_sep (sep : ascii) (s : string) :
  Forall (fun t => allChars (notChar sep) t = true) (splitOn sep s).
Proof.
  induction s as [|c s IH]; simpl; [repeat constructor |].
  destruct (Ascii.eqb c sep) eqn:E; [now constructor |].
  destruct (splitOn sep s) as [|x xs];
    [repeat constructor; simpl; unfold notChar; now rewrite E |].
  apply Forall_cons in IH as [Hx Hxs]. constructor; [| exact Hxs].
  simpl. unfold notChar at 1. now rewrite E, Hx.
Qed.

Lemma splitOn_contains (sep : ascii) (s : string) :
  Contains s (String sep "") = true ->
  exists a b rest, splitOn sep s = a :: b :: rest.
Proof.
  induction s as [|c s IH]; simpl; [discriminate |].
  destruct (Ascii.eqb_spec c sep) as [-> | Hne].
  - intros _. destruct (splitOn_cons sep s) as [x [xs ->]]. eauto.
  - destruct (ascii_dec sep c) as [-> | _]; [contradiction |]. simpl.
    intros H. destruct (IH H) as (a & b & rest & ->). eauto.
Qed.

(** Deleting every occurrence of one byte leaves none. *)
Lemma replaceFrom_remove (a : ascii) (n : Z) (s : string) :
  (n < 0)%Z ->
  allChars (notChar a) (replaceFrom (String a "") "" n 0 s) = true.
Proof.
  intros Hn. revert n Hn. induction s as [|c s IH]; intros n Hn;
    cbn [replaceFrom]; [reflexivity |].
  replace (Z.eqb n 0) with false by (symmetry; apply Z.eqb_neq; lia).
  cbn [negb andb String.prefix String.length Nat.sub].
  destruct (ascii_dec a c) as [<- | Hne].
  - rewrite prefix_empty. cbn [String.append]. apply IH. lia.
  - cbn [allChars]. unfold notChar at 1.
    replace (Ascii.eqb c a) with false
      by (symmetry; apply Ascii.eqb_neq; congruence).
    apply IH. exact Hn.
Qed.

Lemma dbusLines_added (lines env : list string) (setenvs : list (string * string))
  (P : string -> Prop) :
  Forall P lines ->
  exists added pairs,
    dbusLines lines env setenvs = (env ++ added, setenvs ++ pairs)
    /\ Forall (fun e => P e /\ GoPath.HasPrefix e "DBUS_" = true
                        /\ Contains e "=" = true) added
    /\ Forall2 (fun e nv => e = fst nv +:+ "=" +:+ snd nv
                            /\ allChars (notChar "="%char) (fst nv) = true)
         added pairs.
Proof.
  intros HP. revert env setenvs.
  induction HP as [|line lines Hline _ IH]; intros env setenvs; simpl.
  - exists [], []. rewrite !app_nil_r. repeat split; constructor.
  - destruct (negb (String.eqb line "")) eqn:E1; simpl; [| apply IH].
    destruct (Contains line "=") eqn:E2; simpl; [| apply IH].
    destruct (GoPath.HasPrefix line "DBUS_") eqn:E3; simpl; [| apply IH].
    destruct (IH (env ++ [line])
                (setenvs ++ [(hd "" (splitOn "="%char line),
                              String.concat "=" (tl (splitOn "="%char line)))]))
      as (added & pairs & -> & Hadded & Hpairs).
    eexists (line :: added), (_ :: pairs). rewrite <- !app_assoc.
    split; [reflexivity |]. split; [constructor; [now repeat split | exact Hadded] |].
    constructor; [| exact Hpairs]. cbn [fst snd].
    pose proof (concat_splitOn "="%char line) as Hc.
    pose proof (splitOn_no_sep "="%char line) as Hn.
    destruct (splitOn_contains "="%char line E2) as (a & b & rest & Hs).
    rewrite Hs in *. cbn [hd tl]. split; [symmetry; exact Hc |].
    now apply Forall_inv in Hn.
Qed.

(** X19.  When [getDbusSession] accepts the output of [dbus-launch], it
    only appends to the launch environment, and what it appends are lines
    that begin with [DBUS_], hold an equals sign, and carry no semicolon,
    no single quote and no line break; each of them is also exported to
    init's own environment, split at its first equals sign into name and
    value: the line is the name, an equals sign and the value, and the
    name holds no equals sign.  Nothing else of init's state changes. *)
Theorem getDbusSession_environment (TrimNul TrimSpace : string -> string)
  (output : string) (failed : option string) (st st' : initState)
  (setenvs : list (string * string)) :
  getDbusSession TrimNul TrimSpace output failed st = Ok (st', setenvs) ->
  exists added,
    st' = with_launchEnv (launchEnv st ++ added) st
    /\ Forall (fun e => GoPath.HasPrefix e "DBUS_" = true
                        /\ Contains e "=" = true
                        /\ allChars (notChar ";"%char) e = true
                        /\ allChars (notChar "'"%char) e = true
                        /\ allChars (notChar "010"%char) e = true)
         added
    /\ Forall2 (fun e nv => e = fst nv +:+ "=" +:+ snd nv
                            /\ allChars (notChar "="%char) (fst nv) = true)
         added setenvs.
Proof.
  assert (H : forall st1 se,
             dbusEnvironment TrimNul TrimSpace output st = (st1, se) ->
             exists added,
               st1 = with_launchEnv (launchEnv st ++ added) st
               /\ Forall (fun e => GoPath.HasPrefix e "DBUS_" = true
                                   /\ Contains e "=" = true
                                   /\ allChars (notChar ";"%char) e = true
                                   /\ allChars (notChar "'"%char) e = true
                                   /\ allChars (notChar "010"%char) e = true)
                    added
               /\ Forall2 (fun e nv => e = fst nv +:+ "=" +:+ snd nv
                                       /\ allChars (notChar "="%char) (fst nv) = true)
                    added se).
  { intros st1 se. unfold dbusEnvironment.
    set (s0 := Replace (TrimSpace (TrimNul output)) "export " "" (-1)).
    set (s1 := Replace s0 ";" "" (-1)).
    set (s2 := Replace s1 "'" "" (-1)).
    assert (H1 : allChars (notChar ";"%char) s1 = true)
      by (apply replaceFrom_remove; lia).
    assert (H2 : allChars (notChar ";"%char) s2 = true)
      by (now apply Replace_delete).
    assert (H3 : allChars (notChar "'"%char) s2 = true)
      by (apply replaceFrom_remove; lia).
    assert (HP : Forall (fun e => allChars (notChar ";"%char) e = true
                                  /\ allChars (notChar "'"%char) e = true
                                  /\ allChars (notChar "010"%char) e = true)
                   (splitOn "010"%char s2)).
    { pose proof (splitOn_allChars _ "010"%char s2 H2) as A.
      pose proof (splitOn_allChars _ "010"%char s2 H3) as B.
      pose proof (splitOn_no_sep "010"%char s2) as C.
      rewrite List.Forall_forall in *. intros x Hx. auto. }
    destruct (dbusLines_added _ (launchEnv st) [] _ HP)
      as (added & pairs & -> & Hadded & Hpairs).
    intros [= <- <-]. exists added. split; [reflexivity |]. split; [| exact Hpairs].
    rewrite List.Forall_forall in *. intros e He.
    destruct (Hadded e He) as ((? & ? & ?) & ? & ?). now repeat split. }
  unfold getDbusSession. destruct failed as [e |].
  - destruct (Nat.leb _ 1); [discriminate |]. intros [= E].
    apply H. now destruct (dbusEnvironment _ _ _ _); injection E as -> ->.
  - intros [= E]. apply H.
    now destruct (dbusEnvironment _ _ _ _); injection E as -> ->.
Qed.

Lemma getDbusSession_environment_witness :
  let out := "DBUS_SESSION_BUS_ADDRESS='unix:abstract=/tmp/dbus-a,guid=1';"
             +:+ String "010"%char "export DBUS_SESSION_BUS_ADDRESS;"
             +:+ String "010"%char "DBUS_SESSION_BUS_PID=12;" in
  let st := exampleState (exampleProfile PROFILE_SECCOMP_DISABLED false [] false)
              (exampleConfig false) ∅ in
  let added := ["DBUS_SESSION_BUS_ADDRESS=unix:abstract=/tmp/dbus-a,guid=1";
                "DBUS_SESSION_BUS_PID=12"] in
  let setenvs := [("DBUS_SESSION_BUS_ADDRESS", "unix:abstract=/tmp/dbus-a,guid=1");
                  ("DBUS_SESSION_BUS_PID", "12")] in
  getDbusSession (fun s => s) (fun s => s) out None st
  = Ok (with_launchEnv ("PATH=/usr/bin:/bin" :: added) st, setenvs)
  /\ exists added',
       with_launchEnv ("PATH=/usr/bin:/bin" :: added) st
       = with_launchEnv (launchEnv st ++ added') st
       /\ Forall2 (fun e nv => e = fst nv +:+ "=" +:+ snd nv
                               /\ allChars (notChar "="%char) (fst nv) = true)
            added' setenvs.
Proof.
  intros out st added setenvs.
  assert (E : getDbusSession (fun s => s) (fun s => s) out None st
              = Ok (with_launchEnv ("PATH=/usr/bin:/bin" :: added) st, setenvs))
    by reflexivity.
  split; [exact E |].
  destruct (getDbusSession_environment _ _ _ _ _ _ _ E) as (added' & H & _ & H2).
  exists added'. split; [exact H | exact H2].
Defined.

(** ** Path diversion *)

Lemma noSlash_app (a b : string) : noSlash (a +:+ b) = noSlash a && noSlash b.
Proof.
  induction a as [|c a IH]; simpl; [reflexivity |].
  now rewrite IH, andb_assoc.
Qed.

(** Appending a word without a slash extends the last element of a
    path. *)
Lemma split_slash_extend (s t : string) :
  noSlash t = true ->
  exists pre x,
    GoPath.split_slash s = pre ++ [x]
    /\ GoPath.split_slash (s +:+ t) = pre ++ [x +:+ t]
    /\ noSlash x = true.
Proof.
  intros Ht. induction s as [|c s (pre & x & Hs & Hst & Hx)]; simpl.
  - exists [], "". rewrite (split_slash_noSlash t Ht). now repeat split.
  - destruct (Ascii.eqb c GoPath.slash) eqn:Ec.
    + exists ("" :: pre), x. rewrite Hs, Hst. now repeat split.
    + rewrite Hs, Hst. destruct pre as [|p0 pre]; simpl.
      * exists [], (String c x). repeat split. simpl. now rewrite Ec, Hx.
      * exists (String c p0 :: pre), x. now repeat split.
Qed.

Lemma string_length_app (a b : string) :
  String.length (a +:+ b) = (String.length a + String.length b)%nat.
Proof. induction a as [|c a IH]; simpl; [reflexivity | now rewrite IH]. Qed.

Lemma longer_not_eqb (x suffix short : string) :
  (String.length short < String.length suffix)%nat ->
  String.eqb (x +:+ suffix) short = false.
Proof.
  intros H. apply String.eqb_neq. intros E.
  apply (f_equal String.length) in E. rewrite string_length_app in E. lia.
Qed.

Lemma plainName_suffix_oz (x : string) :
  noSlash x = true -> plainName (x +:+ "-oz") = true.
Proof.
  intros Hx. unfold plainName. rewrite noSlash_app, Hx.
  rewrite !longer_not_eqb by (simpl; lia). reflexivity.
Qed.

Lemma Base_Join2 (Y n : string) :
  Y <> "" ->
  (exists pre a, GoPath.split_slash Y = pre ++ [a] /\ plainName a = true) ->
  plainName n = true ->
  GoPath.Base (GoPath.Join [Y; n]) = n.
Proof.
  intros HY (pre & a & Hs & Ha) Hn. unfold GoPath.Join.
  pose proof (length_plain_pos _ Hn) as Hlen.
  replace (Nat.eqb (fold_left (fun k e => (k + String.length e)%nat) [Y; n] 0%nat) 0)
    with false by (symmetry; apply Nat.eqb_neq; simpl; lia).
  assert (Hbuf : fold_left GoPath.join_buf [Y; n] "" = Y +:+ String GoPath.slash n).
  { cbn [fold_left]. unfold GoPath.join_buf.
    cbn [String.eqb negb orb].
    destruct (String.eqb_spec Y "") as [? | _]; [contradiction |].
    cbn [negb orb]. change ("" +:+ Y) with Y.
    destruct (String.eqb_spec Y "") as [? | _]; [contradiction |].
    cbn [negb orb]. now rewrite append_assoc. }
  rewrite Hbuf.
  destruct (Clean_append Y a n Ha Hn (ex_intro _ pre Hs)) as [X ->].
  now apply Base_append.
Qed.

(** X20.  Path diversion keeps the name of the program: with [DivertPath]
    the path that is launched has the base name of the path asked for
    (after the divert suffix, if any, was added), whenever that is a file
    name proper. *)
Theorem divertPath_keeps_basename (st : initState) (cpath : string) :
  let p0 := if String.eqb cpath "" then Profile.Path (profile st) else cpath in
  let p :=
    if negb (String.eqb (Config.DivertSuffix (config st)) "")
    then p0 +:+ "." +:+ Config.DivertSuffix (config st) else p0 in
  Config.DivertPath (config st) = true ->
  plainName (GoPath.Base p) = true ->
  GoPath.Base (divertPath st cpath) = GoPath.Base p.
Proof.
  intros p0 p Hd Hb. unfold divertPath. fold p0. fold p. rewrite Hd.
  destruct (split_slash_extend (GoPath.Dir p) "-oz" eq_refl) as (pre & x & _ & Hs & Hx).
  apply Base_Join2; [| | exact Hb].
  - destruct (GoPath.Dir p); discriminate.
  - exists pre, (x +:+ "-oz"). split; [exact Hs | now apply plainName_suffix_oz].
Qed.

Lemma divertPath_keeps_basename_witness :
  let cfg := Config.mk "/usr/local" "" true "/bin/bash" false false "/run/oz"
               "/etc/oz/openvpn" in
  let st := exampleState (exampleProfile PROFILE_SECCOMP_DISABLED false [] false) cfg ∅ in
  divertPath st "" = "/usr/bin-oz/editor"
  /\ GoPath.Base (divertPath st "") = "editor".
Proof.
  intros cfg st. split; [reflexivity |].
  exact (divertPath_keeps_basename st "" eq_refl eq_refl).
Defined.

(** ** The translator and the file system *)

Lemma step_no_fs_error (fs : OpenVPN.FS) (c : Config.t) (auth runtoken : string)
  (st : OpenVPN.PState) (l : string) :
  (forall p, OpenVPN.Create fs p = Ok tt) ->
  (forall p x, OpenVPN.WriteString fs p x = Ok tt) ->
  snd (OpenVPN.step fs c auth runtoken st l) = None.
Proof.
  intros Hc Hw. unfold OpenVPN.step.
  destruct (OpenVPN.mode st) as [|close flag fpath].
  - destruct (OpenVPN.lineTokens (OpenVPN.fields l)) as [|d rest]; [reflexivity |].
    destruct (OpenVPN.lookupBlock d OpenVPN.inlineBlocks) as [[[close flag] suffix]|];
      [| reflexivity].
    now rewrite Hc.
  - destruct (String.eqb l close); [reflexivity |]. now rewrite Hw.
Qed.

(** X21.  The translator rejects no configuration for what it says: when
    the file opens and the key files can be created and written, every
    sequence of lines parses without error. *)
Theorem parseOpenVPNConf_only_fs_errors (fs : OpenVPN.FS) (c : Config.t)
  (filename ip table dev auth runtoken : string) (lines : list string) :
  OpenVPN.Open fs filename = Ok lines ->
  (forall p, OpenVPN.Create fs p = Ok tt) ->
  (forall p x, OpenVPN.WriteString fs p x = Ok tt) ->
  snd (OpenVPN.parseOpenVPNConf fs c filename ip table dev auth runtoken) = None.
Proof.
  intros Ho Hc Hw. unfold OpenVPN.parseOpenVPNConf. rewrite Ho.
  assert (H : forall st, snd (OpenVPN.scanLines fs c auth runtoken st lines) = None).
  { clear Ho. unfold OpenVPN.scanLines.
    induction (OpenVPN.scanner lines) as [|[l|] scans IH]; intros st;
      cbn [OpenVPN.scanLoop]; [reflexivity | |].
    - pose proof (step_no_fs_error fs c auth runtoken st l Hc Hw) as Hs.
      destruct (OpenVPN.step fs c auth runtoken st l) as [st1 [e|]];
        [discriminate | apply IH].
    - destruct (OpenVPN.mode st); [reflexivity | apply IH]. }
  specialize (H (OpenVPN.mkPState OpenVPN.Outside ["--client"])).
  destruct (OpenVPN.scanLines fs c auth runtoken _ lines) as [st [e|]];
    [discriminate | reflexivity].
Qed.

Lemma parseOpenVPNConf_only_fs_errors_witness :
  snd (OpenVPN.parseOpenVPNConf (exampleFS ["<ca>"; "## odd"; "<cert>"; "nonsense here"])
         (exampleConfig false) "f" "10.0.0.1" "oz" "oz0" "auth.txt" "tok") = None.
Proof.
  exact (parseOpenVPNConf_only_fs_errors (exampleFS ["<ca>"; "## odd"; "<cert>"; "nonsense here"])
           (exampleConfig false) "f" "10.0.0.1" "oz" "oz0" "auth.txt" "tok" _
           eq_refl (fun _ => eq_refl) (fun _ _ => eq_refl)).
Defined.

(** ** The log stream *)

(** X22.  [dumpLogs] passes on what arrives until the first [Ok]: the
    output is that of the responses before it, the channel is closed, and
    nothing that arrives after it is passed on.  A stream without an [Ok]
    leaves the channel open. *)
Theorem dumpLogs_until_ok (pre post : list LogsResponse) :
  existsb isLogsOk pre = false ->
  dumpLogs (pre ++ LogsOk :: post) = (flat_map logsOutput pre, true)
  /\ dumpLogs pre = (flat_map logsOutput pre, false).
Proof.
  induction pre as [|r pre IH]; simpl; [now split |].
  destruct r as [| ls | t]; simpl; [discriminate | |];
    intros H; destruct (IH H) as [-> ->]; now split.
Qed.

Lemma dumpLogs_until_ok_witness :
  dumpLogs ([LogsData ["a"; "b"]; LogsOther "*daemon.PingMsg"] ++ LogsOk :: [LogsData ["late"]])
  = (["a"; "b"; "Unexpected response type (*daemon.PingMsg)"], true).
Proof.
  exact (proj1 (dumpLogs_until_ok [LogsData ["a"; "b"]; LogsOther "*daemon.PingMsg"]
                  [LogsData ["late"]] eq_refl)).
Defined.

(** ** The hosts file *)

(** A stretch of text that has nowhere the first byte of [old] is passed
    over by the replacement as it is. *)
Lemma replaceFrom_pass (first : ascii) (old' new x rest : string) (n : Z) :
  allChars (notChar first) x = true ->
  replaceFrom (String first old') new n 0 (x +:+ rest)
  = x +:+ replaceFrom (String first old') new n 0 rest.
Proof.
  induction x as [|c x IH]; simpl; [reflexivity |].
  intros [Hc Hx]%andb_prop. unfold notChar in Hc. apply negb_true_iff in Hc.
  destruct (ascii_dec first c) as [-> | _].
  - now rewrite Ascii.eqb_refl in Hc.
  - rewrite andb_false_r. now rewrite IH.
Qed.

Lemma allChars_neq (c : ascii) (x pre post : string) :
  allChars (notChar c) x = true -> x <> pre +:+ String c post.
Proof.
  revert pre. induction x as [|a x IH]; intros pre; simpl.
  - destruct pre; discriminate.
  - intros [Ha Hx]%andb_prop. destruct pre as [|b pre]; simpl.
    + intros [= -> _]. unfold notChar in Ha. now rewrite Ascii.eqb_refl in Ha.
    + intros [= _ E]. now apply (IH pre Hx).
Qed.

Lemma etcHosts_filled (name phosts : string) :
  allChars (notChar "%"%char) name = true ->
  allChars (notChar "010"%char) name = true ->
  etcHosts name phosts
  = "127.0.0.1" +:+ tab +:+ "localhost" +:+ newline
    +:+ "127.0.1.1" +:+ tab +:+ name +:+ " " +:+ name +:+ ".local" +:+ newline
    +:+ "::1     localhost ip6-localhost ip6-loopback" +:+ newline
    +:+ "ff02::1 ip6-allnodes" +:+ newline
    +:+ "ff02::2 ip6-allrouters"
    +:+ (if String.eqb phosts "" then "" else newline +:+ newline +:+ phosts).
Proof.
  intros Hp Hn. unfold etcHosts.
  set (A := "127.0.0.1" +:+ tab +:+ "localhost" +:+ newline +:+ "127.0.1.1" +:+ tab).
  (* the host name *)
  assert (E1 : Replace hostsfile "%HOSTNAME%" name (-1)
               = A +:+ name +:+ " " +:+ name
                   +:+ (".%DOMAINNAME%" +:+ newline
                        +:+ "::1     localhost ip6-localhost ip6-loopback" +:+ newline
                        +:+ "ff02::1 ip6-allnodes" +:+ newline
                        +:+ "ff02::2 ip6-allrouters" +:+ newline +:+ "%ADDITIONAL%")).
  { unfold Replace.
    destruct (String.eqb_spec "%HOSTNAME%" name) as [E | _].
    - exfalso. symmetry in E. now apply (allChars_neq "%"%char name "" "HOSTNAME%" Hp).
    - reflexivity. }
  rewrite E1. clear E1.
  (* the domain name *)
  assert (E2 : forall rest,
             Replace (A +:+ name +:+ " " +:+ name +:+ rest) "%DOMAINNAME%" domainname (-1)
             = A +:+ name +:+ " " +:+ name
                 +:+ replaceFrom "%DOMAINNAME%" domainname (-1) 0 rest).
  { intros rest. unfold Replace. cbn [String.eqb Ascii.eqb Bool.eqb orb Z.eqb andb domainname].
    rewrite (replaceFrom_pass "%"%char "DOMAINNAME%" "local" A) by reflexivity.
    rewrite (replaceFrom_pass "%"%char "DOMAINNAME%" "local" name) by exact Hp.
    rewrite (replaceFrom_pass "%"%char "DOMAINNAME%" "local" " ") by reflexivity.
    rewrite (replaceFrom_pass "%"%char "DOMAINNAME%" "local" name) by exact Hp.
    reflexivity. }
  rewrite E2. clear E2.
  set (ph := if Nat.ltb 0 (String.length phosts) then newline +:+ newline +:+ phosts
             else phosts).
  assert (Hph : ph = if String.eqb phosts "" then "" else newline +:+ newline +:+ phosts).
  { subst ph. now destruct phosts. }
  assert (Hne : String.eqb (newline +:+ "%ADDITIONAL%") ph = false).
  { rewrite Hph. now destruct phosts. }
  unfold Replace. rewrite Hne.
  change (newline +:+ "%ADDITIONAL%") with (String "010"%char "%ADDITIONAL%").
  cbn [String.eqb Ascii.eqb Bool.eqb orb Z.eqb andb].
  assert (E3 : forall rest,
             replaceFrom (String "010"%char "%ADDITIONAL%") ph (-1) 0 (A +:+ rest)
             = A +:+ replaceFrom (String "010"%char "%ADDITIONAL%") ph (-1) 0 rest)
    by reflexivity.
  rewrite E3.
  rewrite (replaceFrom_pass "010"%char "%ADDITIONAL%" ph name) by exact Hn.
  rewrite (replaceFrom_pass "010"%char "%ADDITIONAL%" ph " ") by reflexivity.
  rewrite (replaceFrom_pass "010"%char "%ADDITIONAL%" ph name) by exact Hn.
  match goal with
  | |- context [replaceFrom (String "010"%char "%ADDITIONAL%") ph (-1) 0 ?X] =>
      replace (replaceFrom (String "010"%char "%ADDITIONAL%") ph (-1) 0 X)
        with (".local" +:+ newline
              +:+ "::1     localhost ip6-localhost ip6-loopback" +:+ newline
              +:+ "ff02::1 ip6-allnodes" +:+ newline
              +:+ "ff02::2 ip6-allrouters" +:+ (ph +:+ ""))
        by reflexivity
  end.
  rewrite append_empty_r, Hph. subst A. unfold tab, newline.
  rewrite !append_assoc. reflexivity.
Qed.

(** X23.  For a profile name without a percent sign and without a line
    break, the [/etc/hosts] that [setupEtcFiles] writes is the fixed table
    with the name filled in twice and [local] as the domain, followed by
    the extra hosts of the profile after an empty line if there are any,
    and a final line break; no placeholder is left in it. *)
Theorem setupEtcFiles_hosts (name phosts dbusUuid : string) :
  allChars (notChar "%"%char) name = true ->
  allChars (notChar "010"%char) name = true ->
  In ("/etc/hosts",
      ("127.0.0.1" +:+ tab +:+ "localhost" +:+ newline
       +:+ "127.0.1.1" +:+ tab +:+ name +:+ " " +:+ name +:+ ".local" +:+ newline
       +:+ "::1     localhost ip6-localhost ip6-loopback" +:+ newline
       +:+ "ff02::1 ip6-allnodes" +:+ newline
       +:+ "ff02::2 ip6-allrouters"
       +:+ (if String.eqb phosts "" then "" else newline +:+ newline +:+ phosts))
        +:+ newline)
    (setupEtcFiles name phosts dbusUuid).
Proof.
  intros Hp Hn. unfold setupEtcFiles. cbn [map fst snd].
  right. right. left. rewrite (etcHosts_filled name phosts Hp Hn). reflexivity.
Qed.

Lemma setupEtcFiles_hosts_witness :
  In ("/etc/hosts",
      ("127.0.0.1" +:+ tab +:+ "localhost" +:+ newline
       +:+ "127.0.1.1" +:+ tab +:+ "editor" +:+ " " +:+ "editor" +:+ ".local" +:+ newline
       +:+ "::1     localhost ip6-localhost ip6-loopback" +:+ newline
       +:+ "ff02::1 ip6-allnodes" +:+ newline
       +:+ "ff02::2 ip6-allrouters" +:+ newline +:+ newline +:+ "10.0.0.9 printer")
        +:+ newline)
    (setupEtcFiles "editor" "10.0.0.9 printer" "0123abcd").
Proof.
  exact (setupEtcFiles_hosts "editor" "10.0.0.9 printer" "0123abcd" eq_refl eq_refl).
Defined.
